(** * hb-ot-shape.cc: the OpenType shaping orchestrator

    A shallow embedding of [src/harfbuzz/src/hb-ot-shape.cc]: the shape
    planner, the plan compiler, the feature collector and the shaping
    pipeline, followed by the properties proved about them.

    Conventions.
    - C unsigned integers ([rb_mask_t], [rb_tag_t], [rb_codepoint_t],
      [unsigned int]) are [Z]; where the C arithmetic can wrap, the
      reduction modulo [2^32] is written out.
    - Array indices are [nat]; an array is a [list], read with stdpp's
      lookup and written with [alter].
    - Objects the file only handles through [extern] functions (the face,
      the map builder, the compiled map, the complex shaper, the buffer
      operations) are modelled by what the file can observe of them. *)

From stdpp Require Import base numbers list.
From Stdlib Require Import Ascii.
From Stdlib Require String.

Open Scope Z_scope.

(** ** Scalars and tags *)

Definition rb_codepoint_t := Z.
Definition rb_mask_t := Z.
Definition rb_tag_t := Z.
Definition rb_script_t := rb_tag_t.

(** [(unsigned int) -1]. *)
Definition UINT_MAX : Z := 2 ^ 32 - 1.

(** Modelled from the spec: the macro [RB_TAG] lives in a header that is
    not part of [src/]; the spec says "Tags are 4 ASCII bytes in big-endian
    order". *)
Definition RB_TAG (c1 c2 c3 c4 : ascii) : rb_tag_t :=
  Z.lor (Z.lor (Z.shiftl (Z.of_N (N_of_ascii c1)) 24)
               (Z.shiftl (Z.of_N (N_of_ascii c2)) 16))
        (Z.lor (Z.shiftl (Z.of_N (N_of_ascii c3)) 8)
               (Z.of_N (N_of_ascii c4))).

(** ** Directions *)

Inductive rb_direction_t :=
| RB_DIRECTION_INVALID
| RB_DIRECTION_LTR
| RB_DIRECTION_RTL
| RB_DIRECTION_TTB
| RB_DIRECTION_BTT.

(** Modelled from the spec: the direction macros are declared outside
    [src/]. The spec names the five directions and says "backward (RTL or
    BTT)"; horizontal is LTR or RTL, vertical is TTB or BTT, forward is LTR
    or TTB. [RB_DIRECTION_INVALID] is none of them. *)
Definition RB_DIRECTION_IS_HORIZONTAL (dir : rb_direction_t) : bool :=
  match dir with
  | RB_DIRECTION_LTR | RB_DIRECTION_RTL => true
  | _ => false
  end.

Definition RB_DIRECTION_IS_VERTICAL (dir : rb_direction_t) : bool :=
  match dir with
  | RB_DIRECTION_TTB | RB_DIRECTION_BTT => true
  | _ => false
  end.

Definition RB_DIRECTION_IS_FORWARD (dir : rb_direction_t) : bool :=
  match dir with
  | RB_DIRECTION_LTR | RB_DIRECTION_TTB => true
  | _ => false
  end.

Definition RB_DIRECTION_IS_BACKWARD (dir : rb_direction_t) : bool :=
  match dir with
  | RB_DIRECTION_RTL | RB_DIRECTION_BTT => true
  | _ => false
  end.

Record rb_segment_properties_t := mk_props {
  props_direction : rb_direction_t;
  props_script : rb_script_t;
  props_language : String.string
}.

(** ** Feature flags and user features *)

(** Modelled from the spec: the flag constants [F_*] are declared outside
    [src/]; the spec gives them as a combinable set with
    [GLOBAL_MANUAL_JOINERS = GLOBAL|MANUAL_JOINERS] and
    [GLOBAL_HAS_FALLBACK = GLOBAL|HAS_FALLBACK]. *)
Record rb_ot_map_feature_flags_t := mk_flags {
  flag_global : bool;
  flag_has_fallback : bool;
  flag_manual_joiners : bool;
  flag_global_search : bool;
  flag_random : bool
}.

Definition flags_or (a b : rb_ot_map_feature_flags_t) : rb_ot_map_feature_flags_t :=
  mk_flags (flag_global a || flag_global b)
           (flag_has_fallback a || flag_has_fallback b)
           (flag_manual_joiners a || flag_manual_joiners b)
           (flag_global_search a || flag_global_search b)
           (flag_random a || flag_random b).

Definition F_NONE := mk_flags false false false false false.
Definition F_GLOBAL := mk_flags true false false false false.
Definition F_HAS_FALLBACK := mk_flags false true false false false.
Definition F_MANUAL_JOINERS := mk_flags false false true false false.
Definition F_GLOBAL_SEARCH := mk_flags false false false true false.
Definition F_RANDOM := mk_flags false false false false true.
Definition F_GLOBAL_MANUAL_JOINERS := flags_or F_GLOBAL F_MANUAL_JOINERS.
Definition F_GLOBAL_HAS_FALLBACK := flags_or F_GLOBAL F_HAS_FALLBACK.

Record rb_ot_map_feature_t := mk_map_feature {
  map_feature_tag : rb_tag_t;
  map_feature_flags : rb_ot_map_feature_flags_t
}.

Record rb_feature_t := mk_feature {
  feature_tag : rb_tag_t;
  feature_value : Z;
  feature_start : Z;
  feature_end : Z
}.

(** ** The face

    The file asks the face only yes/no questions about its tables and
    whether it has a glyph for a codepoint; each [extern] predicate is a
    field. *)
Record rb_face_t := mk_face {
  rb_aat_layout_has_substitution : bool;
  rb_ot_layout_has_substitution : bool;
  rb_aat_layout_has_positioning : bool;
  rb_ot_layout_has_positioning : bool;
  rb_ot_layout_has_kerning : bool;
  rb_ot_layout_has_machine_kerning : bool;
  rb_ot_layout_has_cross_kerning : bool;
  rb_ot_layout_has_glyph_classes : bool;
  rb_aat_layout_has_tracking : bool;
  rb_face_has_glyph : rb_codepoint_t -> bool
}.

(** ** The OT map builder

    The builder is opaque to this file; it is modelled by the face and
    properties it was created with and by the calls it has received, in
    order. *)
Definition rb_ot_map_pause_func_t := Z.

Inductive rb_ot_map_builder_call :=
| enable_feature (tag : rb_tag_t) (flags : rb_ot_map_feature_flags_t) (value : Z)
| add_feature (tag : rb_tag_t) (flags : rb_ot_map_feature_flags_t) (value : Z)
| add_gsub_pause (pause : option rb_ot_map_pause_func_t).

Record rb_ot_map_builder_t := mk_builder {
  builder_face : rb_face_t;
  builder_props : rb_segment_properties_t;
  builder_calls : list rb_ot_map_builder_call
}.

Definition rb_ot_map_builder_create (face : rb_face_t) (props : rb_segment_properties_t)
  : rb_ot_map_builder_t :=
  mk_builder face props [].

Definition builder_receive (call : rb_ot_map_builder_call) (map : rb_ot_map_builder_t)
  : rb_ot_map_builder_t :=
  mk_builder (builder_face map) (builder_props map) (builder_calls map ++ [call]).

Definition rb_ot_map_builder_enable_feature (tag : rb_tag_t)
  (flags : rb_ot_map_feature_flags_t) (value : Z) :=
  builder_receive (enable_feature tag flags value).

Definition rb_ot_map_builder_add_feature (tag : rb_tag_t)
  (flags : rb_ot_map_feature_flags_t) (value : Z) :=
  builder_receive (add_feature tag flags value).

Definition rb_ot_map_builder_add_gsub_pause (pause : option rb_ot_map_pause_func_t) :=
  builder_receive (add_gsub_pause pause).

(** The AAT map builder, a member of the planner: the face and properties
    it was constructed with and the [add_feature (tag, value)] calls it
    received. *)
Record rb_aat_map_builder_t := mk_aat_builder {
  aat_builder_face : rb_face_t;
  aat_builder_props : rb_segment_properties_t;
  aat_builder_calls : list (rb_tag_t * Z)
}.

Definition aat_map_builder_add_feature (tag : rb_tag_t) (value : Z)
  (aat_map : rb_aat_map_builder_t) : rb_aat_map_builder_t :=
  mk_aat_builder (aat_builder_face aat_map) (aat_builder_props aat_map)
                 (aat_builder_calls aat_map ++ [(tag, value)]).

(** ** The compiled OT map: its query interface. *)
Record rb_ot_map_t := mk_map {
  rb_ot_map_get_global_mask : rb_mask_t;
  rb_ot_map_get_1_mask : rb_tag_t -> rb_mask_t;
  (* returns the mask and, through its out-parameter, the shift *)
  rb_ot_map_get_mask : rb_tag_t -> rb_mask_t * Z;
  rb_ot_map_get_feature_index : Z -> rb_tag_t -> Z;
  rb_ot_map_get_chosen_script : Z -> rb_tag_t
}.

Inductive rb_ot_shape_zero_width_marks_type_t :=
| RB_OT_SHAPE_ZERO_WIDTH_MARKS_NONE
| RB_OT_SHAPE_ZERO_WIDTH_MARKS_BY_GDEF_EARLY
| RB_OT_SHAPE_ZERO_WIDTH_MARKS_BY_GDEF_LATE.

(** ** Opaque collaborators' types

    The complex shaper is a pointer to a structure this file never looks
    into, the shaper's plan data is a [void *], and the compiled AAT map is
    only initialised, compiled into and finalised here. *)
Class OpaqueTypes := {
  rb_ot_complex_shaper_t : Type;
  shaper_data_t : Type;
  rb_aat_map_t : Type
}.

(** The array behind [unsigned int *variations_index], handed through to
    the map compiler. *)
Definition rb_variations_index_t := list Z.

(** ** The planner and the plan *)

Record rb_ot_shape_planner_t `{OpaqueTypes} := mk_planner {
  planner_face : rb_face_t;
  planner_props : rb_segment_properties_t;
  planner_map : rb_ot_map_builder_t;
  planner_aat_map : rb_aat_map_builder_t;
  planner_apply_morx : bool;
  planner_shaper : rb_ot_complex_shaper_t;
  planner_script_zero_marks : bool;
  planner_script_fallback_mark_positioning : bool
}.

Arguments mk_planner {_}.

Definition set_planner_map `{OpaqueTypes} (v : rb_ot_map_builder_t) (p : rb_ot_shape_planner_t) : rb_ot_shape_planner_t :=
  mk_planner (planner_face p) (planner_props p) v (planner_aat_map p)
  (planner_apply_morx p) (planner_shaper p) (planner_script_zero_marks p)
  (planner_script_fallback_mark_positioning p).

Definition set_planner_aat_map `{OpaqueTypes} (v : rb_aat_map_builder_t) (p : rb_ot_shape_planner_t) : rb_ot_shape_planner_t :=
  mk_planner (planner_face p) (planner_props p) (planner_map p) v
  (planner_apply_morx p) (planner_shaper p) (planner_script_zero_marks p)
  (planner_script_fallback_mark_positioning p).

(** The plan. A plan is filled in place by [compile] and [init0]; each
    field has a setter. [plan_data] is [None] for the null pointer. *)
Record rb_ot_shape_plan_t `{OpaqueTypes} := mk_plan {
  plan_props : rb_segment_properties_t;
  plan_shaper : rb_ot_complex_shaper_t;
  plan_map : rb_ot_map_t;
  plan_aat_map : rb_aat_map_t;
  plan_data : option shaper_data_t;
  plan_frac_mask : rb_mask_t;
  plan_numr_mask : rb_mask_t;
  plan_dnom_mask : rb_mask_t;
  plan_rtlm_mask : rb_mask_t;
  plan_kern_mask : rb_mask_t;
  plan_trak_mask : rb_mask_t;
  plan_requested_kerning : bool;
  plan_requested_tracking : bool;
  plan_has_frac : bool;
  plan_has_gpos_mark : bool;
  plan_has_vert : bool;
  plan_zero_marks : bool;
  plan_fallback_glyph_classes : bool;
  plan_fallback_mark_positioning : bool;
  plan_adjust_mark_positioning_when_zeroing : bool;
  plan_apply_gpos : bool;
  plan_apply_kerx : bool;
  plan_apply_kern : bool;
  plan_apply_morx : bool;
  plan_apply_trak : bool
}.

Arguments mk_plan {_}.

Definition set_plan_props `{OpaqueTypes} (v : rb_segment_properties_t) (p : rb_ot_shape_plan_t) : rb_ot_shape_plan_t :=
  mk_plan v (plan_shaper p) (plan_map p) (plan_aat_map p) (plan_data p)
  (plan_frac_mask p) (plan_numr_mask p) (plan_dnom_mask p) (plan_rtlm_mask p)
  (plan_kern_mask p) (plan_trak_mask p) (plan_requested_kerning p)
  (plan_requested_tracking p) (plan_has_frac p) (plan_has_gpos_mark p)
  (plan_has_vert p) (plan_zero_marks p) (plan_fallback_glyph_classes p)
  (plan_fallback_mark_positioning p) (plan_adjust_mark_positioning_when_zeroing p)
  (plan_apply_gpos p) (plan_apply_kerx p) (plan_apply_kern p) (plan_apply_morx p)
  (plan_apply_trak p).

Definition set_plan_shaper `{OpaqueTypes} (v : rb_ot_complex_shaper_t) (p : rb_ot_shape_plan_t) : rb_ot_shape_plan_t :=
  mk_plan (plan_props p) v (plan_map p) (plan_aat_map p) (plan_data p)
  (plan_frac_mask p) (plan_numr_mask p) (plan_dnom_mask p) (plan_rtlm_mask p)
  (plan_kern_mask p) (plan_trak_mask p) (plan_requested_kerning p)
  (plan_requested_tracking p) (plan_has_frac p) (plan_has_gpos_mark p)
  (plan_has_vert p) (plan_zero_marks p) (plan_fallback_glyph_classes p)
  (plan_fallback_mark_positioning p) (plan_adjust_mark_positioning_when_zeroing p)
  (plan_apply_gpos p) (plan_apply_kerx p) (plan_apply_kern p) (plan_apply_morx p)
  (plan_apply_trak p).

Definition set_plan_map `{OpaqueTypes} (v : rb_ot_map_t) (p : rb_ot_shape_plan_t) : rb_ot_shape_plan_t :=
  mk_plan (plan_props p) (plan_shaper p) v (plan_aat_map p) (plan_data p)
  (plan_frac_mask p) (plan_numr_mask p) (plan_dnom_mask p) (plan_rtlm_mask p)
  (plan_kern_mask p) (plan_trak_mask p) (plan_requested_kerning p)
  (plan_requested_tracking p) (plan_has_frac p) (plan_has_gpos_mark p)
  (plan_has_vert p) (plan_zero_marks p) (plan_fallback_glyph_classes p)
  (plan_fallback_mark_positioning p) (plan_adjust_mark_positioning_when_zeroing p)
  (plan_apply_gpos p) (plan_apply_kerx p) (plan_apply_kern p) (plan_apply_morx p)
  (plan_apply_trak p).

Definition set_plan_aat_map `{OpaqueTypes} (v : rb_aat_map_t) (p : rb_ot_shape_plan_t) : rb_ot_shape_plan_t :=
  mk_plan (plan_props p) (plan_shaper p) (plan_map p) v (plan_data p)
  (plan_frac_mask p) (plan_numr_mask p) (plan_dnom_mask p) (plan_rtlm_mask p)
  (plan_kern_mask p) (plan_trak_mask p) (plan_requested_kerning p)
  (plan_requested_tracking p) (plan_has_frac p) (plan_has_gpos_mark p)
  (plan_has_vert p) (plan_zero_marks p) (plan_fallback_glyph_classes p)
  (plan_fallback_mark_positioning p) (plan_adjust_mark_positioning_when_zeroing p)
  (plan_apply_gpos p) (plan_apply_kerx p) (plan_apply_kern p) (plan_apply_morx p)
  (plan_apply_trak p).

Definition set_plan_data `{OpaqueTypes} (v : option shaper_data_t) (p : rb_ot_shape_plan_t) : rb_ot_shape_plan_t :=
  mk_plan (plan_props p) (plan_shaper p) (plan_map p) (plan_aat_map p) v
  (plan_frac_mask p) (plan_numr_mask p) (plan_dnom_mask p) (plan_rtlm_mask p)
  (plan_kern_mask p) (plan_trak_mask p) (plan_requested_kerning p)
  (plan_requested_tracking p) (plan_has_frac p) (plan_has_gpos_mark p)
  (plan_has_vert p) (plan_zero_marks p) (plan_fallback_glyph_classes p)
  (plan_fallback_mark_positioning p) (plan_adjust_mark_positioning_when_zeroing p)
  (plan_apply_gpos p) (plan_apply_kerx p) (plan_apply_kern p) (plan_apply_morx p)
  (plan_apply_trak p).

Definition set_plan_frac_mask `{OpaqueTypes} (v : rb_mask_t) (p : rb_ot_shape_plan_t) : rb_ot_shape_plan_t :=
  mk_plan (plan_props p) (plan_shaper p) (plan_map p) (plan_aat_map p) (plan_data p) v
  (plan_numr_mask p) (plan_dnom_mask p) (plan_rtlm_mask p) (plan_kern_mask p)
  (plan_trak_mask p) (plan_requested_kerning p) (plan_requested_tracking p)
  (plan_has_frac p) (plan_has_gpos_mark p) (plan_has_vert p) (plan_zero_marks p)
  (plan_fallback_glyph_classes p) (plan_fallback_mark_positioning p)
  (plan_adjust_mark_positioning_when_zeroing p) (plan_apply_gpos p) (plan_apply_kerx p)
  (plan_apply_kern p) (plan_apply_morx p) (plan_apply_trak p).

Definition set_plan_numr_mask `{OpaqueTypes} (v : rb_mask_t) (p : rb_ot_shape_plan_t) : rb_ot_shape_plan_t :=
  mk_plan (plan_props p) (plan_shaper p) (plan_map p) (plan_aat_map p) (plan_data p)
  (plan_frac_mask p) v (plan_dnom_mask p) (plan_rtlm_mask p) (plan_kern_mask p)
  (plan_trak_mask p) (plan_requested_kerning p) (plan_requested_tracking p)
  (plan_has_frac p) (plan_has_gpos_mark p) (plan_has_vert p) (plan_zero_marks p)
  (plan_fallback_glyph_classes p) (plan_fallback_mark_positioning p)
  (plan_adjust_mark_positioning_when_zeroing p) (plan_apply_gpos p) (plan_apply_kerx p)
  (plan_apply_kern p) (plan_apply_morx p) (plan_apply_trak p).

Definition set_plan_dnom_mask `{OpaqueTypes} (v : rb_mask_t) (p : rb_ot_shape_plan_t) : rb_ot_shape_plan_t :=
  mk_plan (plan_props p) (plan_shaper p) (plan_map p) (plan_aat_map p) (plan_data p)
  (plan_frac_mask p) (plan_numr_mask p) v (plan_rtlm_mask p) (plan_kern_mask p)
  (plan_trak_mask p) (plan_requested_kerning p) (plan_requested_tracking p)
  (plan_has_frac p) (plan_has_gpos_mark p) (plan_has_vert p) (plan_zero_marks p)
  (plan_fallback_glyph_classes p) (plan_fallback_mark_positioning p)
  (plan_adjust_mark_positioning_when_zeroing p) (plan_apply_gpos p) (plan_apply_kerx p)
  (plan_apply_kern p) (plan_apply_morx p) (plan_apply_trak p).

Definition set_plan_rtlm_mask `{OpaqueTypes} (v : rb_mask_t) (p : rb_ot_shape_plan_t) : rb_ot_shape_plan_t :=
  mk_plan (plan_props p) (plan_shaper p) (plan_map p) (plan_aat_map p) (plan_data p)
  (plan_frac_mask p) (plan_numr_mask p) (plan_dnom_mask p) v (plan_kern_mask p)
  (plan_trak_mask p) (plan_requested_kerning p) (plan_requested_tracking p)
  (plan_has_frac p) (plan_has_gpos_mark p) (plan_has_vert p) (plan_zero_marks p)
  (plan_fallback_glyph_classes p) (plan_fallback_mark_positioning p)
  (plan_adjust_mark_positioning_when_zeroing p) (plan_apply_gpos p) (plan_apply_kerx p)
  (plan_apply_kern p) (plan_apply_morx p) (plan_apply_trak p).

Definition set_plan_kern_mask `{OpaqueTypes} (v : rb_mask_t) (p : rb_ot_shape_plan_t) : rb_ot_shape_plan_t :=
  mk_plan (plan_props p) (plan_shaper p) (plan_map p) (plan_aat_map p) (plan_data p)
  (plan_frac_mask p) (plan_numr_mask p) (plan_dnom_mask p) (plan_rtlm_mask p) v
  (plan_trak_mask p) (plan_requested_kerning p) (plan_requested_tracking p)
  (plan_has_frac p) (plan_has_gpos_mark p) (plan_has_vert p) (plan_zero_marks p)
  (plan_fallback_glyph_classes p) (plan_fallback_mark_positioning p)
  (plan_adjust_mark_positioning_when_zeroing p) (plan_apply_gpos p) (plan_apply_kerx p)
  (plan_apply_kern p) (plan_apply_morx p) (plan_apply_trak p).

Definition set_plan_trak_mask `{OpaqueTypes} (v : rb_mask_t) (p : rb_ot_shape_plan_t) : rb_ot_shape_plan_t :=
  mk_plan (plan_props p) (plan_shaper p) (plan_map p) (plan_aat_map p) (plan_data p)
  (plan_frac_mask p) (plan_numr_mask p) (plan_dnom_mask p) (plan_rtlm_mask p)
  (plan_kern_mask p) v (plan_requested_kerning p) (plan_requested_tracking p)
  (plan_has_frac p) (plan_has_gpos_mark p) (plan_has_vert p) (plan_zero_marks p)
  (plan_fallback_glyph_classes p) (plan_fallback_mark_positioning p)
  (plan_adjust_mark_positioning_when_zeroing p) (plan_apply_gpos p) (plan_apply_kerx p)
  (plan_apply_kern p) (plan_apply_morx p) (plan_apply_trak p).

Definition set_plan_requested_kerning `{OpaqueTypes} (v : bool) (p : rb_ot_shape_plan_t) : rb_ot_shape_plan_t :=
  mk_plan (plan_props p) (plan_shaper p) (plan_map p) (plan_aat_map p) (plan_data p)
  (plan_frac_mask p) (plan_numr_mask p) (plan_dnom_mask p) (plan_rtlm_mask p)
  (plan_kern_mask p) (plan_trak_mask p) v (plan_requested_tracking p) (plan_has_frac p)
  (plan_has_gpos_mark p) (plan_has_vert p) (plan_zero_marks p)
  (plan_fallback_glyph_classes p) (plan_fallback_mark_positioning p)
  (plan_adjust_mark_positioning_when_zeroing p) (plan_apply_gpos p) (plan_apply_kerx p)
  (plan_apply_kern p) (plan_apply_morx p) (plan_apply_trak p).

Definition set_plan_requested_tracking `{OpaqueTypes} (v : bool) (p : rb_ot_shape_plan_t) : rb_ot_shape_plan_t :=
  mk_plan (plan_props p) (plan_shaper p) (plan_map p) (plan_aat_map p) (plan_data p)
  (plan_frac_mask p) (plan_numr_mask p) (plan_dnom_mask p) (plan_rtlm_mask p)
  (plan_kern_mask p) (plan_trak_mask p) (plan_requested_kerning p) v (plan_has_frac p)
  (plan_has_gpos_mark p) (plan_has_vert p) (plan_zero_marks p)
  (plan_fallback_glyph_classes p) (plan_fallback_mark_positioning p)
  (plan_adjust_mark_positioning_when_zeroing p) (plan_apply_gpos p) (plan_apply_kerx p)
  (plan_apply_kern p) (plan_apply_morx p) (plan_apply_trak p).

Definition set_plan_has_frac `{OpaqueTypes} (v : bool) (p : rb_ot_shape_plan_t) : rb_ot_shape_plan_t :=
  mk_plan (plan_props p) (plan_shaper p) (plan_map p) (plan_aat_map p) (plan_data p)
  (plan_frac_mask p) (plan_numr_mask p) (plan_dnom_mask p) (plan_rtlm_mask p)
  (plan_kern_mask p) (plan_trak_mask p) (plan_requested_kerning p)
  (plan_requested_tracking p) v (plan_has_gpos_mark p) (plan_has_vert p)
  (plan_zero_marks p) (plan_fallback_glyph_classes p)
  (plan_fallback_mark_positioning p) (plan_adjust_mark_positioning_when_zeroing p)
  (plan_apply_gpos p) (plan_apply_kerx p) (plan_apply_kern p) (plan_apply_morx p)
  (plan_apply_trak p).

Definition set_plan_has_gpos_mark `{OpaqueTypes} (v : bool) (p : rb_ot_shape_plan_t) : rb_ot_shape_plan_t :=
  mk_plan (plan_props p) (plan_shaper p) (plan_map p) (plan_aat_map p) (plan_data p)
  (plan_frac_mask p) (plan_numr_mask p) (plan_dnom_mask p) (plan_rtlm_mask p)
  (plan_kern_mask p) (plan_trak_mask p) (plan_requested_kerning p)
  (plan_requested_tracking p) (plan_has_frac p) v (plan_has_vert p) (plan_zero_marks p)
  (plan_fallback_glyph_classes p) (plan_fallback_mark_positioning p)
  (plan_adjust_mark_positioning_when_zeroing p) (plan_apply_gpos p) (plan_apply_kerx p)
  (plan_apply_kern p) (plan_apply_morx p) (plan_apply_trak p).

Definition set_plan_has_vert `{OpaqueTypes} (v : bool) (p : rb_ot_shape_plan_t) : rb_ot_shape_plan_t :=
  mk_plan (plan_props p) (plan_shaper p) (plan_map p) (plan_aat_map p) (plan_data p)
  (plan_frac_mask p) (plan_numr_mask p) (plan_dnom_mask p) (plan_rtlm_mask p)
  (plan_kern_mask p) (plan_trak_mask p) (plan_requested_kerning p)
  (plan_requested_tracking p) (plan_has_frac p) (plan_has_gpos_mark p) v
  (plan_zero_marks p) (plan_fallback_glyph_classes p)
  (plan_fallback_mark_positioning p) (plan_adjust_mark_positioning_when_zeroing p)
  (plan_apply_gpos p) (plan_apply_kerx p) (plan_apply_kern p) (plan_apply_morx p)
  (plan_apply_trak p).

Definition set_plan_zero_marks `{OpaqueTypes} (v : bool) (p : rb_ot_shape_plan_t) : rb_ot_shape_plan_t :=
  mk_plan (plan_props p) (plan_shaper p) (plan_map p) (plan_aat_map p) (plan_data p)
  (plan_frac_mask p) (plan_numr_mask p) (plan_dnom_mask p) (plan_rtlm_mask p)
  (plan_kern_mask p) (plan_trak_mask p) (plan_requested_kerning p)
  (plan_requested_tracking p) (plan_has_frac p) (plan_has_gpos_mark p)
  (plan_has_vert p) v (plan_fallback_glyph_classes p)
  (plan_fallback_mark_positioning p) (plan_adjust_mark_positioning_when_zeroing p)
  (plan_apply_gpos p) (plan_apply_kerx p) (plan_apply_kern p) (plan_apply_morx p)
  (plan_apply_trak p).

Definition set_plan_fallback_glyph_classes `{OpaqueTypes} (v : bool) (p : rb_ot_shape_plan_t) : rb_ot_shape_plan_t :=
  mk_plan (plan_props p) (plan_shaper p) (plan_map p) (plan_aat_map p) (plan_data p)
  (plan_frac_mask p) (plan_numr_mask p) (plan_dnom_mask p) (plan_rtlm_mask p)
  (plan_kern_mask p) (plan_trak_mask p) (plan_requested_kerning p)
  (plan_requested_tracking p) (plan_has_frac p) (plan_has_gpos_mark p)
  (plan_has_vert p) (plan_zero_marks p) v (plan_fallback_mark_positioning p)
  (plan_adjust_mark_positioning_when_zeroing p) (plan_apply_gpos p) (plan_apply_kerx p)
  (plan_apply_kern p) (plan_apply_morx p) (plan_apply_trak p).

Definition set_plan_fallback_mark_positioning `{OpaqueTypes} (v : bool) (p : rb_ot_shape_plan_t) : rb_ot_shape_plan_t :=
  mk_plan (plan_props p) (plan_shaper p) (plan_map p) (plan_aat_map p) (plan_data p)
  (plan_frac_mask p) (plan_numr_mask p) (plan_dnom_mask p) (plan_rtlm_mask p)
  (plan_kern_mask p) (plan_trak_mask p) (plan_requested_kerning p)
  (plan_requested_tracking p) (plan_has_frac p) (plan_has_gpos_mark p)
  (plan_has_vert p) (plan_zero_marks p) (plan_fallback_glyph_classes p) v
  (plan_adjust_mark_positioning_when_zeroing p) (plan_apply_gpos p) (plan_apply_kerx p)
  (plan_apply_kern p) (plan_apply_morx p) (plan_apply_trak p).

Definition set_plan_adjust_mark_positioning_when_zeroing `{OpaqueTypes} (v : bool) (p : rb_ot_shape_plan_t) : rb_ot_shape_plan_t :=
  mk_plan (plan_props p) (plan_shaper p) (plan_map p) (plan_aat_map p) (plan_data p)
  (plan_frac_mask p) (plan_numr_mask p) (plan_dnom_mask p) (plan_rtlm_mask p)
  (plan_kern_mask p) (plan_trak_mask p) (plan_requested_kerning p)
  (plan_requested_tracking p) (plan_has_frac p) (plan_has_gpos_mark p)
  (plan_has_vert p) (plan_zero_marks p) (plan_fallback_glyph_classes p)
  (plan_fallback_mark_positioning p) v (plan_apply_gpos p) (plan_apply_kerx p)
  (plan_apply_kern p) (plan_apply_morx p) (plan_apply_trak p).

Definition set_plan_apply_gpos `{OpaqueTypes} (v : bool) (p : rb_ot_shape_plan_t) : rb_ot_shape_plan_t :=
  mk_plan (plan_props p) (plan_shaper p) (plan_map p) (plan_aat_map p) (plan_data p)
  (plan_frac_mask p) (plan_numr_mask p) (plan_dnom_mask p) (plan_rtlm_mask p)
  (plan_kern_mask p) (plan_trak_mask p) (plan_requested_kerning p)
  (plan_requested_tracking p) (plan_has_frac p) (plan_has_gpos_mark p)
  (plan_has_vert p) (plan_zero_marks p) (plan_fallback_glyph_classes p)
  (plan_fallback_mark_positioning p) (plan_adjust_mark_positioning_when_zeroing p) v
  (plan_apply_kerx p) (plan_apply_kern p) (plan_apply_morx p) (plan_apply_trak p).

Definition set_plan_apply_kerx `{OpaqueTypes} (v : bool) (p : rb_ot_shape_plan_t) : rb_ot_shape_plan_t :=
  mk_plan (plan_props p) (plan_shaper p) (plan_map p) (plan_aat_map p) (plan_data p)
  (plan_frac_mask p) (plan_numr_mask p) (plan_dnom_mask p) (plan_rtlm_mask p)
  (plan_kern_mask p) (plan_trak_mask p) (plan_requested_kerning p)
  (plan_requested_tracking p) (plan_has_frac p) (plan_has_gpos_mark p)
  (plan_has_vert p) (plan_zero_marks p) (plan_fallback_glyph_classes p)
  (plan_fallback_mark_positioning p) (plan_adjust_mark_positioning_when_zeroing p)
  (plan_apply_gpos p) v (plan_apply_kern p) (plan_apply_morx p) (plan_apply_trak p).

Definition set_plan_apply_kern `{OpaqueTypes} (v : bool) (p : rb_ot_shape_plan_t) : rb_ot_shape_plan_t :=
  mk_plan (plan_props p) (plan_shaper p) (plan_map p) (plan_aat_map p) (plan_data p)
  (plan_frac_mask p) (plan_numr_mask p) (plan_dnom_mask p) (plan_rtlm_mask p)
  (plan_kern_mask p) (plan_trak_mask p) (plan_requested_kerning p)
  (plan_requested_tracking p) (plan_has_frac p) (plan_has_gpos_mark p)
  (plan_has_vert p) (plan_zero_marks p) (plan_fallback_glyph_classes p)
  (plan_fallback_mark_positioning p) (plan_adjust_mark_positioning_when_zeroing p)
  (plan_apply_gpos p) (plan_apply_kerx p) v (plan_apply_morx p) (plan_apply_trak p).

Definition set_plan_apply_morx `{OpaqueTypes} (v : bool) (p : rb_ot_shape_plan_t) : rb_ot_shape_plan_t :=
  mk_plan (plan_props p) (plan_shaper p) (plan_map p) (plan_aat_map p) (plan_data p)
  (plan_frac_mask p) (plan_numr_mask p) (plan_dnom_mask p) (plan_rtlm_mask p)
  (plan_kern_mask p) (plan_trak_mask p) (plan_requested_kerning p)
  (plan_requested_tracking p) (plan_has_frac p) (plan_has_gpos_mark p)
  (plan_has_vert p) (plan_zero_marks p) (plan_fallback_glyph_classes p)
  (plan_fallback_mark_positioning p) (plan_adjust_mark_positioning_when_zeroing p)
  (plan_apply_gpos p) (plan_apply_kerx p) (plan_apply_kern p) v (plan_apply_trak p).

Definition set_plan_apply_trak `{OpaqueTypes} (v : bool) (p : rb_ot_shape_plan_t) : rb_ot_shape_plan_t :=
  mk_plan (plan_props p) (plan_shaper p) (plan_map p) (plan_aat_map p) (plan_data p)
  (plan_frac_mask p) (plan_numr_mask p) (plan_dnom_mask p) (plan_rtlm_mask p)
  (plan_kern_mask p) (plan_trak_mask p) (plan_requested_kerning p)
  (plan_requested_tracking p) (plan_has_frac p) (plan_has_gpos_mark p)
  (plan_has_vert p) (plan_zero_marks p) (plan_fallback_glyph_classes p)
  (plan_fallback_mark_positioning p) (plan_adjust_mark_positioning_when_zeroing p)
  (plan_apply_gpos p) (plan_apply_kerx p) (plan_apply_kern p) (plan_apply_morx p) v.

(** ** The buffer *)

Inductive rb_unicode_general_category_t :=
| RB_UNICODE_GENERAL_CATEGORY_CONTROL
| RB_UNICODE_GENERAL_CATEGORY_FORMAT
| RB_UNICODE_GENERAL_CATEGORY_UNASSIGNED
| RB_UNICODE_GENERAL_CATEGORY_PRIVATE_USE
| RB_UNICODE_GENERAL_CATEGORY_SURROGATE
| RB_UNICODE_GENERAL_CATEGORY_LOWERCASE_LETTER
| RB_UNICODE_GENERAL_CATEGORY_MODIFIER_LETTER
| RB_UNICODE_GENERAL_CATEGORY_OTHER_LETTER
| RB_UNICODE_GENERAL_CATEGORY_TITLECASE_LETTER
| RB_UNICODE_GENERAL_CATEGORY_UPPERCASE_LETTER
| RB_UNICODE_GENERAL_CATEGORY_SPACING_MARK
| RB_UNICODE_GENERAL_CATEGORY_ENCLOSING_MARK
| RB_UNICODE_GENERAL_CATEGORY_NON_SPACING_MARK
| RB_UNICODE_GENERAL_CATEGORY_DECIMAL_NUMBER
| RB_UNICODE_GENERAL_CATEGORY_LETTER_NUMBER
| RB_UNICODE_GENERAL_CATEGORY_OTHER_NUMBER
| RB_UNICODE_GENERAL_CATEGORY_CONNECT_PUNCTUATION
| RB_UNICODE_GENERAL_CATEGORY_DASH_PUNCTUATION
| RB_UNICODE_GENERAL_CATEGORY_CLOSE_PUNCTUATION
| RB_UNICODE_GENERAL_CATEGORY_FINAL_PUNCTUATION
| RB_UNICODE_GENERAL_CATEGORY_INITIAL_PUNCTUATION
| RB_UNICODE_GENERAL_CATEGORY_OTHER_PUNCTUATION
| RB_UNICODE_GENERAL_CATEGORY_OPEN_PUNCTUATION
| RB_UNICODE_GENERAL_CATEGORY_CURRENCY_SYMBOL
| RB_UNICODE_GENERAL_CATEGORY_MODIFIER_SYMBOL
| RB_UNICODE_GENERAL_CATEGORY_MATH_SYMBOL
| RB_UNICODE_GENERAL_CATEGORY_OTHER_SYMBOL
| RB_UNICODE_GENERAL_CATEGORY_LINE_SEPARATOR
| RB_UNICODE_GENERAL_CATEGORY_PARAGRAPH_SEPARATOR
| RB_UNICODE_GENERAL_CATEGORY_SPACE_SEPARATOR.

Definition is_decimal_number (gc : rb_unicode_general_category_t) : bool :=
  match gc with
  | RB_UNICODE_GENERAL_CATEGORY_DECIMAL_NUMBER => true
  | _ => false
  end.

(** Modelled from the spec: the buffer and its glyph records are declared
    outside [src/]. The spec's data model gives
    [GlyphInfo{codepoint, mask, cluster, ...}],
    [GlyphPosition{x_advance, y_advance, x_offset, y_offset}], scratch
    flags, direction and length; the limits [max_len] and [max_ops] are the
    ones [rb_buffer_set_max_len] and [rb_buffer_set_max_ops] write.
    [info_general_category] is what
    [rb_glyph_info_get_general_category] reads from a glyph. *)
Record rb_glyph_info_t := mk_info {
  info_codepoint : rb_codepoint_t;
  info_mask : rb_mask_t;
  info_cluster : Z;
  info_general_category : rb_unicode_general_category_t
}.

Definition set_info_codepoint (v : rb_codepoint_t) (g : rb_glyph_info_t) : rb_glyph_info_t :=
  mk_info v (info_mask g) (info_cluster g) (info_general_category g).

Definition set_info_mask (v : rb_mask_t) (g : rb_glyph_info_t) : rb_glyph_info_t :=
  mk_info (info_codepoint g) v (info_cluster g) (info_general_category g).

(** [info.mask |= m]. *)
Definition info_mask_or (m : rb_mask_t) (g : rb_glyph_info_t) : rb_glyph_info_t :=
  set_info_mask (Z.lor (info_mask g) m) g.

Record rb_glyph_position_t := mk_pos {
  pos_x_advance : Z;
  pos_y_advance : Z;
  pos_x_offset : Z;
  pos_y_offset : Z
}.

Record rb_buffer_t := mk_buffer {
  buffer_info : list rb_glyph_info_t;
  buffer_pos : list rb_glyph_position_t;
  buffer_direction : rb_direction_t;
  buffer_scratch_flags : Z;
  buffer_max_len : Z;
  buffer_max_ops : Z
}.

Definition rb_buffer_get_length (buffer : rb_buffer_t) : nat :=
  length (buffer_info buffer).

Definition rb_buffer_get_direction := buffer_direction.
Definition rb_buffer_get_scratch_flags := buffer_scratch_flags.

Definition set_buffer_info (v : list rb_glyph_info_t) (b : rb_buffer_t) : rb_buffer_t :=
  mk_buffer v (buffer_pos b) (buffer_direction b) (buffer_scratch_flags b)
            (buffer_max_len b) (buffer_max_ops b).

Definition rb_buffer_set_direction (v : rb_direction_t) (b : rb_buffer_t) : rb_buffer_t :=
  mk_buffer (buffer_info b) (buffer_pos b) v (buffer_scratch_flags b)
            (buffer_max_len b) (buffer_max_ops b).

Definition rb_buffer_set_scratch_flags (v : Z) (b : rb_buffer_t) : rb_buffer_t :=
  mk_buffer (buffer_info b) (buffer_pos b) (buffer_direction b) v
            (buffer_max_len b) (buffer_max_ops b).

Definition rb_buffer_set_max_len (v : Z) (b : rb_buffer_t) : rb_buffer_t :=
  mk_buffer (buffer_info b) (buffer_pos b) (buffer_direction b) (buffer_scratch_flags b)
            v (buffer_max_ops b).

Definition rb_buffer_set_max_ops (v : Z) (b : rb_buffer_t) : rb_buffer_t :=
  mk_buffer (buffer_info b) (buffer_pos b) (buffer_direction b) (buffer_scratch_flags b)
            (buffer_max_len b) v.

(** [info[i] = f (info[i])] through the pointer [rb_buffer_get_glyph_infos]
    returns; writing past the end does nothing in the model (the source
    never does it). *)
Definition update_info (i : nat) (f : rb_glyph_info_t -> rb_glyph_info_t)
  (b : rb_buffer_t) : rb_buffer_t :=
  set_buffer_info (alter f i (buffer_info b)) b.

(** ** Calls into collaborators that act on the buffer

    Every [extern] routine the pipeline runs on the buffer, with the
    arguments the pipeline chooses (the plan, the face and the buffer
    itself are passed to the handler). *)
Inductive rb_extern_t :=
| rb_buffer_clear_output
| rb_buffer_reset_masks (mask : rb_mask_t)
| rb_set_unicode_props
| rb_insert_dotted_circle
| rb_form_clusters
| rb_ensure_native_direction
| rb_ot_complex_shaper_preprocess_text
| rb_ot_shape_normalize
| rb_buffer_unsafe_to_break (start end_ : nat)
| rb_ot_complex_shaper_setup_masks
| rb_buffer_set_masks (value mask : rb_mask_t) (start end_ : Z)
| rb_ot_shape_fallback_mark_position_recategorize_marks
| rb_ot_map_glyphs_fast
| rb_ot_layout_substitute_start
| rb_synthesize_glyph_classes
| rb_aat_layout_substitute
| rb_ot_layout_substitute
| rb_ot_hide_default_ignorables
| rb_aat_layout_remove_deleted_glyphs
| rb_ot_complex_shaper_postprocess_glyphs
| rb_buffer_clear_positions
| rb_face_get_glyph_h_advances (count : nat)
| rb_face_get_glyph_v_advances (count : nat)
| rb_face_subtract_glyph_v_origin (i : nat) (codepoint : rb_codepoint_t)
| rb_ot_shape_fallback_spaces
| rb_ot_layout_position_start
| rb_zero_mark_widths_by_gdef (adjust_offsets : bool)
| rb_ot_layout_position
| rb_aat_layout_position
| rb_ot_layout_kern
| rb_ot_shape_fallback_kern
| rb_aat_layout_track
| rb_ot_layout_position_finish_advances
| rb_ot_zero_width_default_ignorables
| rb_aat_layout_zero_width_deleted_glyphs
| rb_ot_layout_position_finish_offsets
| rb_ot_shape_fallback_mark_position (adjust_offsets_when_zeroing : bool)
| rb_buffer_reverse
| rb_propagate_flags.

(** ** The collaborators

    Everything this file calls and does not define, and the constants it
    reads from headers outside [src/]. Hooks of the complex shaper reach
    the planner through the accessors the file exports for them
    ([rb_ot_shape_planner_get_ot_map], [.._get_script],
    [.._get_direction]): a hook reads the planner and returns the map
    builder as it leaves it. *)
Class Collaborators `{OpaqueTypes} := {
  (* constants *)
  RB_OT_MAP_MAX_VALUE : Z;
  RB_OT_LAYOUT_NO_FEATURE_INDEX : Z;
  RB_FEATURE_GLOBAL_START : Z;
  RB_FEATURE_GLOBAL_END : Z;
  RB_BUFFER_SCRATCH_FLAG_DEFAULT : Z;
  RB_BUFFER_SCRATCH_FLAG_HAS_NON_ASCII : Z;
  RB_BUFFER_SCRATCH_FLAG_HAS_SPACE_FALLBACK : Z;
  RB_BUFFER_MAX_LEN_FACTOR : Z;
  RB_BUFFER_MAX_LEN_MIN : Z;
  RB_BUFFER_MAX_LEN_DEFAULT : Z;
  RB_BUFFER_MAX_OPS_FACTOR : Z;
  RB_BUFFER_MAX_OPS_MIN : Z;
  RB_BUFFER_MAX_OPS_DEFAULT : Z;
  rb_unsigned_mul_overflows : Z -> Z -> bool;
  (* the complex shaper *)
  rb_ot_shape_complex_categorize :
    rb_segment_properties_t -> rb_ot_map_builder_t -> rb_ot_complex_shaper_t;
  rb_ot_complex_shaper_get_zero_width_marks_mode :
    rb_ot_complex_shaper_t -> rb_ot_shape_zero_width_marks_type_t;
  rb_ot_complex_shaper_get_fallback_position : rb_ot_complex_shaper_t -> bool;
  rb_ot_complex_shaper_reconsider_shaper_if_applying_morx :
    rb_ot_complex_shaper_t -> rb_ot_complex_shaper_t;
  rb_ot_complex_shaper_get_gpos_tag : rb_ot_complex_shaper_t -> rb_tag_t;
  rb_ot_complex_shaper_collect_features :
    rb_ot_complex_shaper_t -> rb_ot_shape_planner_t -> rb_ot_map_builder_t;
  rb_ot_complex_shaper_override_features :
    rb_ot_complex_shaper_t -> rb_ot_shape_planner_t -> rb_ot_map_builder_t;
  (* [None]: the call returned false *)
  rb_ot_complex_shaper_data_create :
    rb_ot_complex_shaper_t -> rb_ot_shape_plan_t -> option shaper_data_t;
  (* maps *)
  rb_ot_map_create : rb_ot_map_t;
  rb_ot_map_builder_compile :
    rb_ot_map_builder_t -> rb_ot_map_t -> rb_variations_index_t -> rb_ot_map_t;
  aat_map_init : rb_aat_map_t;
  aat_map_builder_compile : rb_aat_map_builder_t -> rb_aat_map_t -> rb_aat_map_t;
  (* Unicode *)
  rb_ucd_mirroring : rb_codepoint_t -> rb_codepoint_t;
  rb_vert_char_for : rb_codepoint_t -> rb_codepoint_t;
  (* what a call does to the buffer *)
  rb_extern_run :
    rb_ot_shape_plan_t -> rb_face_t -> rb_extern_t -> rb_buffer_t -> rb_buffer_t
}.

Arguments RB_TAG (c1 c2 c3 c4)%_char.

(** C truth value of an unsigned integer. *)
Definition to_bool (z : Z) : bool := negb (z =? 0).

(** ** The planner *)

Section Planner.
Context `{Collaborators}.

(** Lines 68-73. *)
Definition rb_apply_morx (face : rb_face_t) (props : rb_segment_properties_t) : bool :=
  rb_aat_layout_has_substitution face &&
  (RB_DIRECTION_IS_HORIZONTAL (props_direction props) || negb (rb_ot_layout_has_substitution face)).

(** The constructor, lines 88-105. [rb_ot_shape_complex_categorize] is
    handed the planner under construction; it sees the properties and the
    map builder. *)
Definition rb_ot_shape_planner_new (face : rb_face_t) (props : rb_segment_properties_t)
  : rb_ot_shape_planner_t :=
  let map := rb_ot_map_builder_create face props in
  let aat_map := mk_aat_builder face props [] in
  let apply_morx := rb_apply_morx face props in
  let shaper := rb_ot_shape_complex_categorize props map in
  let script_zero_marks :=
    match rb_ot_complex_shaper_get_zero_width_marks_mode shaper with
    | RB_OT_SHAPE_ZERO_WIDTH_MARKS_NONE => false
    | _ => true
    end in
  let script_fallback_mark_positioning := rb_ot_complex_shaper_get_fallback_position shaper in
  let shaper :=
    if apply_morx then rb_ot_complex_shaper_reconsider_shaper_if_applying_morx shaper
    else shaper in
  mk_planner face props map aat_map apply_morx shaper
             script_zero_marks script_fallback_mark_positioning.

(** "Decide who does positioning", first statement (lines 156-159). *)
Definition compile_elect_positioning (face : rb_face_t) (apply_morx disable_gpos : bool)
  (plan : rb_ot_shape_plan_t) : rb_ot_shape_plan_t :=
  if rb_aat_layout_has_positioning face then set_plan_apply_kerx true plan
  else if negb apply_morx && negb disable_gpos && rb_ot_layout_has_positioning face
       then set_plan_apply_gpos true plan
       else plan.

(** "Apparently Apple applies kerx if GPOS kern was not applied"
    (lines 161-167). *)
Definition compile_reelect_positioning (face : rb_face_t) (has_gpos_kern : bool)
  (plan : rb_ot_shape_plan_t) : rb_ot_shape_plan_t :=
  if negb (plan_apply_kerx plan) && (negb has_gpos_kern || negb (plan_apply_gpos plan)) then
    if rb_aat_layout_has_positioning face then set_plan_apply_kerx true plan
    else if rb_ot_layout_has_kerning face then set_plan_apply_kern true plan
    else plan
  else plan.

(** [rb_ot_shape_planner_t::compile], lines 112-179, fills the plan it is
    given. The body is three consecutive blocks; each is a function of the
    planner and of the plan as the block before left it. *)

(** Line 129. *)
Definition compile_kern_tag (props : rb_segment_properties_t) : rb_tag_t :=
  if RB_DIRECTION_IS_HORIZONTAL (props_direction props)
  then RB_TAG "k" "e" "r" "n" else RB_TAG "v" "k" "r" "n".

(** Lines 114-133: the compiled maps and the feature masks. *)
Definition compile_masks (planner : rb_ot_shape_planner_t) (plan : rb_ot_shape_plan_t)
  (variations_index : rb_variations_index_t) : rb_ot_shape_plan_t :=
  let props := planner_props planner in
  let apply_morx := planner_apply_morx planner in
  let plan := set_plan_props props plan in
  let plan := set_plan_shaper (planner_shaper planner) plan in
  let plan := set_plan_map
    (rb_ot_map_builder_compile (planner_map planner) (plan_map plan) variations_index) plan in
  let plan :=
    if apply_morx
    then set_plan_aat_map (aat_map_builder_compile (planner_aat_map planner) (plan_aat_map plan)) plan
    else plan in

  let plan := set_plan_frac_mask (rb_ot_map_get_1_mask (plan_map plan) (RB_TAG "f" "r" "a" "c")) plan in
  let plan := set_plan_numr_mask (rb_ot_map_get_1_mask (plan_map plan) (RB_TAG "n" "u" "m" "r")) plan in
  let plan := set_plan_dnom_mask (rb_ot_map_get_1_mask (plan_map plan) (RB_TAG "d" "n" "o" "m")) plan in
  let plan := set_plan_has_frac
    (to_bool (plan_frac_mask plan) ||
     (to_bool (plan_numr_mask plan) && to_bool (plan_dnom_mask plan))) plan in

  let plan := set_plan_rtlm_mask (rb_ot_map_get_1_mask (plan_map plan) (RB_TAG "r" "t" "l" "m")) plan in
  let plan := set_plan_has_vert
    (to_bool (rb_ot_map_get_1_mask (plan_map plan) (RB_TAG "v" "e" "r" "t"))) plan in

  let kern_tag := compile_kern_tag props in
  let plan := set_plan_kern_mask (fst (rb_ot_map_get_mask (plan_map plan) kern_tag)) plan in
  let plan := set_plan_requested_kerning (to_bool (plan_kern_mask plan)) plan in
  let plan := set_plan_trak_mask
    (fst (rb_ot_map_get_mask (plan_map plan) (RB_TAG "t" "r" "a" "k"))) plan in
  set_plan_requested_tracking (to_bool (plan_trak_mask plan)) plan.

(** Lines 135-167: who provides glyph classes, who substitutes, who
    positions. *)
Definition compile_backends (planner : rb_ot_shape_planner_t) (plan : rb_ot_shape_plan_t)
  : rb_ot_shape_plan_t :=
  let face := planner_face planner in
  let apply_morx := planner_apply_morx planner in
  let kern_tag := compile_kern_tag (planner_props planner) in
  let gpos_tag := rb_ot_complex_shaper_get_gpos_tag (plan_shaper plan) in
  let has_gpos_kern :=
    negb (rb_ot_map_get_feature_index (plan_map plan) 1 kern_tag =? RB_OT_LAYOUT_NO_FEATURE_INDEX) in
  let disable_gpos :=
    to_bool gpos_tag && negb (gpos_tag =? rb_ot_map_get_chosen_script (plan_map plan) 1) in

  (* Decide who provides glyph classes. GDEF or Unicode. *)
  let plan :=
    if negb (rb_ot_layout_has_glyph_classes face)
    then set_plan_fallback_glyph_classes true plan else plan in

  (* Decide who does substitutions. GSUB, morx, or fallback. *)
  let plan := set_plan_apply_morx apply_morx plan in

  (* Decide who does positioning. GPOS, kerx, kern, or fallback. *)
  let plan := compile_elect_positioning face apply_morx disable_gpos plan in
  compile_reelect_positioning face has_gpos_kern plan.

(** Lines 169-178: the mark policies and tracking. *)
Definition compile_mark_policies (planner : rb_ot_shape_planner_t) (plan : rb_ot_shape_plan_t)
  : rb_ot_shape_plan_t :=
  let face := planner_face planner in
  let plan := set_plan_zero_marks
    (planner_script_zero_marks planner && negb (plan_apply_kerx plan) &&
     (negb (plan_apply_kern plan) || negb (rb_ot_layout_has_machine_kerning face))) plan in
  let plan := set_plan_has_gpos_mark
    (to_bool (rb_ot_map_get_1_mask (plan_map plan) (RB_TAG "m" "a" "r" "k"))) plan in

  let plan := set_plan_adjust_mark_positioning_when_zeroing
    (negb (plan_apply_gpos plan) && negb (plan_apply_kerx plan) &&
     (negb (plan_apply_kern plan) || negb (rb_ot_layout_has_cross_kerning face))) plan in

  let plan := set_plan_fallback_mark_positioning
    (plan_adjust_mark_positioning_when_zeroing plan &&
     planner_script_fallback_mark_positioning planner) plan in

  (* Currently we always apply trak. *)
  set_plan_apply_trak (plan_requested_tracking plan && rb_aat_layout_has_tracking face) plan.

Definition rb_ot_shape_planner_compile (planner : rb_ot_shape_planner_t)
  (plan : rb_ot_shape_plan_t) (variations_index : rb_variations_index_t)
  : rb_ot_shape_plan_t :=
  compile_mark_policies planner
    (compile_backends planner
       (compile_masks planner plan variations_index)).

(** ** Feature collection, lines 236-331 *)

Definition common_features : list rb_ot_map_feature_t :=
  [ mk_map_feature (RB_TAG "a" "b" "v" "m") F_GLOBAL;
    mk_map_feature (RB_TAG "b" "l" "w" "m") F_GLOBAL;
    mk_map_feature (RB_TAG "c" "c" "m" "p") F_GLOBAL;
    mk_map_feature (RB_TAG "l" "o" "c" "l") F_GLOBAL;
    mk_map_feature (RB_TAG "m" "a" "r" "k") F_GLOBAL_MANUAL_JOINERS;
    mk_map_feature (RB_TAG "m" "k" "m" "k") F_GLOBAL_MANUAL_JOINERS;
    mk_map_feature (RB_TAG "r" "l" "i" "g") F_GLOBAL ].

Definition horizontal_features : list rb_ot_map_feature_t :=
  [ mk_map_feature (RB_TAG "c" "a" "l" "t") F_GLOBAL;
    mk_map_feature (RB_TAG "c" "l" "i" "g") F_GLOBAL;
    mk_map_feature (RB_TAG "c" "u" "r" "s") F_GLOBAL;
    mk_map_feature (RB_TAG "d" "i" "s" "t") F_GLOBAL;
    mk_map_feature (RB_TAG "k" "e" "r" "n") F_GLOBAL_HAS_FALLBACK;
    mk_map_feature (RB_TAG "l" "i" "g" "a") F_GLOBAL;
    mk_map_feature (RB_TAG "r" "c" "l" "t") F_GLOBAL ].

(** A call on [planner->map]. *)
Definition on_map (f : rb_ot_map_builder_t -> rb_ot_map_builder_t)
  (planner : rb_ot_shape_planner_t) : rb_ot_shape_planner_t :=
  set_planner_map (f (planner_map planner)) planner.

(** A shaper hook run on the planner. *)
Definition run_hook
  (hook : rb_ot_complex_shaper_t -> rb_ot_shape_planner_t -> rb_ot_map_builder_t)
  (planner : rb_ot_shape_planner_t) : rb_ot_shape_planner_t :=
  set_planner_map (hook (planner_shaper planner) planner) planner.

Definition feature_is_global (feature : rb_feature_t) : bool :=
  (feature_start feature =? RB_FEATURE_GLOBAL_START) &&
  (feature_end feature =? RB_FEATURE_GLOBAL_END).

Definition rb_ot_shape_collect_features (planner : rb_ot_shape_planner_t)
  (user_features : list rb_feature_t) : rb_ot_shape_planner_t :=
  let planner := on_map (rb_ot_map_builder_enable_feature (RB_TAG "r" "v" "r" "n") F_NONE 1) planner in
  let planner := on_map (rb_ot_map_builder_add_gsub_pause None) planner in

  let planner :=
    match props_direction (planner_props planner) with
    | RB_DIRECTION_LTR =>
        let planner := on_map (rb_ot_map_builder_enable_feature (RB_TAG "l" "t" "r" "a") F_NONE 1) planner in
        on_map (rb_ot_map_builder_enable_feature (RB_TAG "l" "t" "r" "m") F_NONE 1) planner
    | RB_DIRECTION_RTL =>
        let planner := on_map (rb_ot_map_builder_enable_feature (RB_TAG "r" "t" "l" "a") F_NONE 1) planner in
        on_map (rb_ot_map_builder_add_feature (RB_TAG "r" "t" "l" "m") F_NONE 1) planner
    | RB_DIRECTION_TTB
    | RB_DIRECTION_BTT
    | RB_DIRECTION_INVALID => planner
    end in

  (* Automatic fractions. *)
  let planner := on_map (rb_ot_map_builder_add_feature (RB_TAG "f" "r" "a" "c") F_NONE 1) planner in
  let planner := on_map (rb_ot_map_builder_add_feature (RB_TAG "n" "u" "m" "r") F_NONE 1) planner in
  let planner := on_map (rb_ot_map_builder_add_feature (RB_TAG "d" "n" "o" "m") F_NONE 1) planner in

  (* Random! *)
  let planner := on_map
    (rb_ot_map_builder_enable_feature (RB_TAG "r" "a" "n" "d") F_RANDOM RB_OT_MAP_MAX_VALUE) planner in

  (* Tracking. *)
  let planner := on_map (rb_ot_map_builder_enable_feature (RB_TAG "t" "r" "a" "k") F_HAS_FALLBACK 1) planner in

  let planner := on_map (rb_ot_map_builder_enable_feature (RB_TAG "H" "A" "R" "F") F_NONE 1) planner in

  let planner := run_hook rb_ot_complex_shaper_collect_features planner in

  let planner := on_map (rb_ot_map_builder_enable_feature (RB_TAG "B" "U" "Z" "Z") F_NONE 1) planner in

  let planner :=
    foldl (fun planner f =>
             on_map (rb_ot_map_builder_add_feature (map_feature_tag f) (map_feature_flags f) 1) planner)
          planner common_features in

  let planner :=
    if RB_DIRECTION_IS_HORIZONTAL (props_direction (planner_props planner)) then
      foldl (fun planner f =>
               on_map (rb_ot_map_builder_add_feature (map_feature_tag f) (map_feature_flags f) 1) planner)
            planner horizontal_features
    else
      on_map (rb_ot_map_builder_enable_feature (RB_TAG "v" "e" "r" "t") F_GLOBAL_SEARCH 1) planner in

  let planner :=
    foldl (fun planner feature =>
             on_map (rb_ot_map_builder_add_feature
                       (feature_tag feature)
                       (if feature_is_global feature then F_GLOBAL else F_NONE)
                       (feature_value feature)) planner)
          planner user_features in

  let planner :=
    if planner_apply_morx planner then
      foldl (fun planner feature =>
               set_planner_aat_map
                 (aat_map_builder_add_feature (feature_tag feature) (feature_value feature)
                                              (planner_aat_map planner)) planner)
            planner user_features
    else planner in

  run_hook rb_ot_complex_shaper_override_features planner.

(** ** Plan creation and destruction, lines 181-211

    The calls that acquire and release what a plan and its planner own are
    recorded in the order they are made. *)
Inductive rb_lifetime_call :=
| call_rb_ot_map_create
| call_aat_map_init
| call_rb_ot_map_builder_create
| call_rb_ot_map_builder_destroy
| call_rb_ot_complex_shaper_data_create (succeeded : bool)
| call_rb_ot_map_destroy
| call_aat_map_fini
| call_rb_ot_complex_shaper_data_destroy.

(** The planner is a local of [init0]: its constructor creates the map
    builder, its destructor (lines 107-110), run when [init0] returns,
    destroys it. *)
Definition planner_constructor_calls := [call_rb_ot_map_builder_create].
Definition planner_destructor_calls := [call_rb_ot_map_builder_destroy].

Definition rb_ot_shape_plan_init0 (this : rb_ot_shape_plan_t) (face : rb_face_t)
  (props : rb_segment_properties_t) (user_features : list rb_feature_t)
  (variations_index : rb_variations_index_t)
  : bool * rb_ot_shape_plan_t * list rb_lifetime_call :=
  let this := set_plan_map rb_ot_map_create this in
  let this := set_plan_aat_map aat_map_init this in
  let calls := [call_rb_ot_map_create; call_aat_map_init] in

  let planner := rb_ot_shape_planner_new face props in
  let calls := calls ++ planner_constructor_calls in

  let planner := rb_ot_shape_collect_features planner user_features in

  let this := rb_ot_shape_planner_compile planner this variations_index in

  match rb_ot_complex_shaper_data_create (plan_shaper this) this with
  | None =>
      let calls := calls ++ [call_rb_ot_complex_shaper_data_create false] in
      let calls := calls ++ [call_rb_ot_map_destroy; call_aat_map_fini] in
      (false, this, calls ++ planner_destructor_calls)
  | Some data =>
      let calls := calls ++ [call_rb_ot_complex_shaper_data_create true] in
      (true, set_plan_data (Some data) this, calls ++ planner_destructor_calls)
  end.

Definition rb_ot_shape_plan_fini : list rb_lifetime_call :=
  [call_rb_ot_complex_shaper_data_destroy; call_rb_ot_map_destroy; call_aat_map_fini].

End Planner.

(** What a plan and its planner own, and which calls take and give it
    back. [held r calls] says whether [r] is held once [calls] were made. *)
Inductive rb_resource_t :=
| the_ot_map
| the_aat_map
| the_map_builder
| the_shaper_data.

Definition resource_eqb (a b : rb_resource_t) : bool :=
  match a, b with
  | the_ot_map, the_ot_map
  | the_aat_map, the_aat_map
  | the_map_builder, the_map_builder
  | the_shaper_data, the_shaper_data => true
  | _, _ => false
  end.

Definition acquires (call : rb_lifetime_call) (r : rb_resource_t) : bool :=
  match call with
  | call_rb_ot_map_create => resource_eqb r the_ot_map
  | call_aat_map_init => resource_eqb r the_aat_map
  | call_rb_ot_map_builder_create => resource_eqb r the_map_builder
  | call_rb_ot_complex_shaper_data_create true => resource_eqb r the_shaper_data
  | _ => false
  end.

Definition releases (call : rb_lifetime_call) (r : rb_resource_t) : bool :=
  match call with
  | call_rb_ot_map_destroy => resource_eqb r the_ot_map
  | call_aat_map_fini => resource_eqb r the_aat_map
  | call_rb_ot_map_builder_destroy => resource_eqb r the_map_builder
  | call_rb_ot_complex_shaper_data_destroy => resource_eqb r the_shaper_data
  | _ => false
  end.

Definition held (r : rb_resource_t) (calls : list rb_lifetime_call) : bool :=
  foldl (fun h call => if acquires call r then true else if releases call r then false else h)
        false calls.

(** ** The shaping pipeline

    The pipeline works on [c->buffer] through a pointer. Its functions
    return nothing; each is a transformer of the shaping state: the buffer,
    and the calls made so far into collaborators that act on it. *)

Record rb_shape_state_t := mk_state {
  st_buffer : rb_buffer_t;
  st_calls : list rb_extern_t
}.

Definition shaping := rb_shape_state_t -> rb_shape_state_t.

Definition on_buffer (f : rb_buffer_t -> rb_buffer_t) : shaping :=
  fun s => mk_state (f (st_buffer s)) (st_calls s).

(** [for (i = lo; i < hi; i++) body (i)], for a body that leaves [i] alone. *)
Fixpoint for_range {S : Type} (n lo : nat) (body : nat -> S -> S) (s : S) : S :=
  match n with
  | O => s
  | Datatypes.S n' => for_range n' (Datatypes.S lo) body (body lo s)
  end.

Definition for_loop {S : Type} (lo hi : nat) (body : nat -> S -> S) : S -> S :=
  for_range (hi - lo) lo body.

(** Reads of [info[i]]. The source reads inside the array only; past the
    end the model reads codepoint 0 and "not a decimal number". *)
Definition codepoint_at (info : list rb_glyph_info_t) (i : nat) : rb_codepoint_t :=
  from_option info_codepoint 0 (info !! i).

Definition decimal_at (info : list rb_glyph_info_t) (i : nat) : bool :=
  from_option (fun g => is_decimal_number (info_general_category g)) false (info !! i).

Section Shape.
Context `{Collaborators}.

(** [rb_ot_shape_context_t], lines 337-347, without the buffer pointer:
    the buffer is the state the pipeline threads. *)
Record rb_ot_shape_context_t := mk_context {
  c_plan : rb_ot_shape_plan_t;
  c_face : rb_face_t;
  c_user_features : list rb_feature_t;
  c_target_direction : rb_direction_t
}.

Definition set_c_target_direction (v : rb_direction_t) (c : rb_ot_shape_context_t)
  : rb_ot_shape_context_t :=
  mk_context (c_plan c) (c_face c) (c_user_features c) v.

(** A call into a collaborator: it acts on the buffer and is recorded. *)
Definition extern_call (plan : rb_ot_shape_plan_t) (face : rb_face_t) (call : rb_extern_t)
  : shaping :=
  fun s => mk_state (rb_extern_run plan face call (st_buffer s)) (st_calls s ++ [call]).

Definition extern (c : rb_ot_shape_context_t) (call : rb_extern_t) : shaping :=
  extern_call (c_plan c) (c_face c) call.

(** Lines 213-219. *)
Definition rb_ot_shape_plan_substitute (plan : rb_ot_shape_plan_t) (face : rb_face_t) : shaping :=
  if plan_apply_morx plan then extern_call plan face rb_aat_layout_substitute
  else extern_call plan face rb_ot_layout_substitute.

(** Lines 221-234. *)
Definition rb_ot_shape_plan_position (plan : rb_ot_shape_plan_t) (face : rb_face_t) : shaping :=
  fun s =>
  let s :=
    if plan_apply_gpos plan then extern_call plan face rb_ot_layout_position s
    else if plan_apply_kerx plan then extern_call plan face rb_aat_layout_position s
    else if plan_apply_kern plan then extern_call plan face rb_ot_layout_kern s
    else extern_call plan face rb_ot_shape_fallback_kern s in
  if plan_apply_trak plan then extern_call plan face rb_aat_layout_track s else s.

(** *** Substitute *)

(** Lines 353-378. *)
Definition rb_ot_rotate_chars (c : rb_ot_shape_context_t) : shaping :=
  on_buffer (fun buffer =>
    let count := rb_buffer_get_length buffer in
    let buffer :=
      if RB_DIRECTION_IS_BACKWARD (c_target_direction c) then
        let rtlm_mask := plan_rtlm_mask (c_plan c) in
        for_loop 0 count (fun i =>
          update_info i (fun g =>
            let codepoint := rb_ucd_mirroring (info_codepoint g) in
            if negb (codepoint =? info_codepoint g) && rb_face_has_glyph (c_face c) codepoint
            then set_info_codepoint codepoint g
            else info_mask_or rtlm_mask g)) buffer
      else buffer in
    if RB_DIRECTION_IS_VERTICAL (c_target_direction c) && negb (plan_has_vert (c_plan c)) then
      for_loop 0 count (fun i =>
        update_info i (fun g =>
          let codepoint := rb_vert_char_for (info_codepoint g) in
          if negb (codepoint =? info_codepoint g) && rb_face_has_glyph (c_face c) codepoint
          then set_info_codepoint codepoint g
          else g)) buffer
    else buffer).

(** [while (start && category (info[start - 1]) == DECIMAL_NUMBER) start--;] *)
Fixpoint fraction_start (info : list rb_glyph_info_t) (start : nat) : nat :=
  match start with
  | O => O
  | Datatypes.S prev => if decimal_at info prev then fraction_start info prev else start
  end.

(** [while (end < count && category (info[end]) == DECIMAL_NUMBER) end++;]
    the loop runs at most [count - end] times, which is the fuel. *)
Fixpoint fraction_end_from (fuel : nat) (info : list rb_glyph_info_t) (count end_ : nat) : nat :=
  match fuel with
  | O => end_
  | Datatypes.S fuel' =>
      if (end_ <? count)%nat && decimal_at info end_
      then fraction_end_from fuel' info count (Datatypes.S end_)
      else end_
  end.

Definition fraction_end (info : list rb_glyph_info_t) (count end_ : nat) : nat :=
  fraction_end_from (count - end_) info count end_.

(** The body of the [for] loop of lines 398-419 at a FRACTION SLASH [i]:
    the new state and the value [i] is left with. *)
Definition fraction_at (c : rb_ot_shape_context_t) (pre_mask post_mask : rb_mask_t)
  (count i : nat) (s : rb_shape_state_t) : rb_shape_state_t * nat :=
  let info := buffer_info (st_buffer s) in
  let start := fraction_start info i in
  let end_ := fraction_end info count (i + 1) in
  let s := extern c (rb_buffer_unsafe_to_break start end_) s in
  let s := on_buffer (for_loop start i (fun j => update_info j (info_mask_or pre_mask))) s in
  let s := on_buffer (update_info i (info_mask_or (plan_frac_mask (c_plan c)))) s in
  let s := on_buffer (for_loop (i + 1) end_ (fun j => update_info j (info_mask_or post_mask))) s in
  (s, (end_ - 1)%nat).

(** The [for] loop of lines 398-419 from index [i]. The body can move [i],
    always forwards, so the loop runs at most [count - i] times: [fuel]
    bounds the iterations. *)
Fixpoint fraction_loop (fuel : nat) (c : rb_ot_shape_context_t) (pre_mask post_mask : rb_mask_t)
  (count i : nat) (s : rb_shape_state_t) : rb_shape_state_t :=
  match fuel with
  | O => s
  | Datatypes.S fuel' =>
      if (i <? count)%nat then
        if codepoint_at (buffer_info (st_buffer s)) i =? 0x2044 then
          let '(s, i) := fraction_at c pre_mask post_mask count i s in
          fraction_loop fuel' c pre_mask post_mask count (i + 1) s
        else fraction_loop fuel' c pre_mask post_mask count (i + 1) s
      else s
  end.

(** Lines 380-420. *)
Definition rb_ot_shape_setup_masks_fraction (c : rb_ot_shape_context_t) : shaping :=
  fun s =>
  if negb (to_bool (Z.land (rb_buffer_get_scratch_flags (st_buffer s))
                           RB_BUFFER_SCRATCH_FLAG_HAS_NON_ASCII))
     || negb (plan_has_frac (c_plan c))
  then s
  else
    let '(pre_mask, post_mask) :=
      if RB_DIRECTION_IS_FORWARD (rb_buffer_get_direction (st_buffer s)) then
        (Z.lor (plan_numr_mask (c_plan c)) (plan_frac_mask (c_plan c)),
         Z.lor (plan_frac_mask (c_plan c)) (plan_dnom_mask (c_plan c)))
      else
        (Z.lor (plan_frac_mask (c_plan c)) (plan_dnom_mask (c_plan c)),
         Z.lor (plan_numr_mask (c_plan c)) (plan_frac_mask (c_plan c))) in
    let count := rb_buffer_get_length (st_buffer s) in
    fraction_loop count c pre_mask post_mask count 0 s.

(** Lines 422-428. *)
Definition rb_ot_shape_initialize_masks (c : rb_ot_shape_context_t) : shaping :=
  let map := plan_map (c_plan c) in
  let global_mask := rb_ot_map_get_global_mask map in
  extern c (rb_buffer_reset_masks global_mask).

(** Lines 430-447. [feature->value << shift] is a 32-bit shift. *)
Definition rb_ot_shape_setup_masks (c : rb_ot_shape_context_t) : shaping :=
  fun s =>
  let map := plan_map (c_plan c) in
  let s := rb_ot_shape_setup_masks_fraction c s in
  let s := extern c rb_ot_complex_shaper_setup_masks s in
  foldl (fun s feature =>
           if negb (feature_is_global feature) then
             let '(mask, shift) := rb_ot_map_get_mask map (feature_tag feature) in
             extern c (rb_buffer_set_masks (Z.shiftl (feature_value feature) shift mod 2 ^ 32) mask
                                           (feature_start feature) (feature_end feature)) s
           else s)
        s (c_user_features c).

(** Lines 449-464. *)
Definition rb_ot_substitute_default (c : rb_ot_shape_context_t) : shaping :=
  fun s =>
  let s := rb_ot_rotate_chars c s in
  let s := extern c rb_ot_shape_normalize s in
  let s := rb_ot_shape_setup_masks c s in
  (* This is unfortunate to go here, but necessary... *)
  let s :=
    if plan_fallback_mark_positioning (c_plan c)
    then extern c rb_ot_shape_fallback_mark_position_recategorize_marks s
    else s in
  extern c rb_ot_map_glyphs_fast s.

(** Lines 466-476. *)
Definition rb_ot_substitute_complex (c : rb_ot_shape_context_t) : shaping :=
  fun s =>
  let s := extern c rb_ot_layout_substitute_start s in
  let s :=
    if plan_fallback_glyph_classes (c_plan c)
    then extern c rb_synthesize_glyph_classes s
    else s in
  rb_ot_shape_plan_substitute (c_plan c) (c_face c) s.

(** Lines 478-482. *)
Definition rb_ot_substitute_pre (c : rb_ot_shape_context_t) : shaping :=
  fun s => rb_ot_substitute_complex c (rb_ot_substitute_default c s).

(** Lines 484-491. *)
Definition rb_ot_substitute_post (c : rb_ot_shape_context_t) : shaping :=
  fun s =>
  let s := extern c rb_ot_hide_default_ignorables s in
  let s :=
    if plan_apply_morx (c_plan c) then extern c rb_aat_layout_remove_deleted_glyphs s else s in
  extern c rb_ot_complex_shaper_postprocess_glyphs s.

(** *** Position *)

(** Lines 497-516. *)
Definition rb_ot_position_default (c : rb_ot_shape_context_t) : shaping :=
  fun s =>
  let direction := rb_buffer_get_direction (st_buffer s) in
  let count := rb_buffer_get_length (st_buffer s) in
  let s :=
    if RB_DIRECTION_IS_HORIZONTAL direction then
      extern c (rb_face_get_glyph_h_advances count) s
    else
      let s := extern c (rb_face_get_glyph_v_advances count) s in
      for_loop 0 count (fun i s =>
        extern c (rb_face_subtract_glyph_v_origin
                    i (codepoint_at (buffer_info (st_buffer s)) i)) s) s in
  if to_bool (Z.land (rb_buffer_get_scratch_flags (st_buffer s))
                     RB_BUFFER_SCRATCH_FLAG_HAS_SPACE_FALLBACK)
  then extern c rb_ot_shape_fallback_spaces s
  else s.

(** Lines 518-571. *)
Definition rb_ot_position_complex (c : rb_ot_shape_context_t) : shaping :=
  fun s =>
  let adjust_offsets_when_zeroing :=
    plan_adjust_mark_positioning_when_zeroing (c_plan c) &&
    RB_DIRECTION_IS_FORWARD (rb_buffer_get_direction (st_buffer s)) in

  (* We change glyph origin to what GPOS expects (horizontal), apply GPOS, change it back. *)
  let s := extern c rb_ot_layout_position_start s in

  let s :=
    if plan_zero_marks (c_plan c) then
      match rb_ot_complex_shaper_get_zero_width_marks_mode (plan_shaper (c_plan c)) with
      | RB_OT_SHAPE_ZERO_WIDTH_MARKS_BY_GDEF_EARLY =>
          extern c (rb_zero_mark_widths_by_gdef adjust_offsets_when_zeroing) s
      | RB_OT_SHAPE_ZERO_WIDTH_MARKS_NONE
      | RB_OT_SHAPE_ZERO_WIDTH_MARKS_BY_GDEF_LATE => s
      end
    else s in

  let s := rb_ot_shape_plan_position (c_plan c) (c_face c) s in

  let s :=
    if plan_zero_marks (c_plan c) then
      match rb_ot_complex_shaper_get_zero_width_marks_mode (plan_shaper (c_plan c)) with
      | RB_OT_SHAPE_ZERO_WIDTH_MARKS_BY_GDEF_LATE =>
          extern c (rb_zero_mark_widths_by_gdef adjust_offsets_when_zeroing) s
      | RB_OT_SHAPE_ZERO_WIDTH_MARKS_NONE
      | RB_OT_SHAPE_ZERO_WIDTH_MARKS_BY_GDEF_EARLY => s
      end
    else s in

  (* Finish off.  Has to follow a certain order. *)
  let s := extern c rb_ot_layout_position_finish_advances s in
  let s := extern c rb_ot_zero_width_default_ignorables s in
  let s :=
    if plan_apply_morx (c_plan c) then extern c rb_aat_layout_zero_width_deleted_glyphs s
    else s in
  let s := extern c rb_ot_layout_position_finish_offsets s in

  if plan_fallback_mark_positioning (c_plan c)
  then extern c (rb_ot_shape_fallback_mark_position adjust_offsets_when_zeroing) s
  else s.

(** Lines 573-583. *)
Definition rb_ot_position (c : rb_ot_shape_context_t) : shaping :=
  fun s =>
  let s := extern c rb_buffer_clear_positions s in
  let s := rb_ot_position_default c s in
  let s := rb_ot_position_complex c s in
  if RB_DIRECTION_IS_BACKWARD (rb_buffer_get_direction (st_buffer s))
  then extern c rb_buffer_reverse s
  else s.

(** *** Pull it all together! *)

(** Lines 590-599: the work limits. The product is a 32-bit product, and
    [(unsigned) MIN] a 32-bit value. *)
Definition rb_ot_shape_set_limits (buffer : rb_buffer_t) : rb_buffer_t :=
  let buffer :=
    if negb (rb_unsigned_mul_overflows (Z.of_nat (rb_buffer_get_length buffer))
                                       RB_BUFFER_MAX_LEN_FACTOR)
    then rb_buffer_set_max_len
           (Z.max ((Z.of_nat (rb_buffer_get_length buffer) * RB_BUFFER_MAX_LEN_FACTOR) mod 2 ^ 32)
                  (RB_BUFFER_MAX_LEN_MIN mod 2 ^ 32)) buffer
    else buffer in
  if negb (rb_unsigned_mul_overflows (Z.of_nat (rb_buffer_get_length buffer))
                                     RB_BUFFER_MAX_OPS_FACTOR)
  then rb_buffer_set_max_ops
         (Z.max ((Z.of_nat (rb_buffer_get_length buffer) * RB_BUFFER_MAX_OPS_FACTOR) mod 2 ^ 32)
                (RB_BUFFER_MAX_OPS_MIN mod 2 ^ 32)) buffer
  else buffer.

(** Lines 601-626: what follows the limits. *)
Definition rb_ot_shape_run (c : rb_ot_shape_context_t) : shaping :=
  fun s =>
  (* Save the original direction, we use it later. *)
  let c := set_c_target_direction (rb_buffer_get_direction (st_buffer s)) c in

  let s := extern c rb_buffer_clear_output s in

  let s := rb_ot_shape_initialize_masks c s in
  let s := extern c rb_set_unicode_props s in
  let s := extern c rb_insert_dotted_circle s in

  let s := extern c rb_form_clusters s in

  let s := extern c rb_ensure_native_direction s in

  let s := extern c rb_ot_complex_shaper_preprocess_text s in

  let s := rb_ot_substitute_pre c s in
  let s := rb_ot_position c s in
  let s := rb_ot_substitute_post c s in

  let s := extern c rb_propagate_flags s in

  let s := on_buffer (rb_buffer_set_direction (c_target_direction c)) s in

  let s := on_buffer (rb_buffer_set_max_len RB_BUFFER_MAX_LEN_DEFAULT) s in
  on_buffer (rb_buffer_set_max_ops RB_BUFFER_MAX_OPS_DEFAULT) s.

(** Lines 587-626. *)
Definition rb_ot_shape_internal (c : rb_ot_shape_context_t) : shaping :=
  fun s =>
  let s := on_buffer (rb_buffer_set_scratch_flags RB_BUFFER_SCRATCH_FLAG_DEFAULT) s in
  let s := on_buffer rb_ot_shape_set_limits s in
  rb_ot_shape_run c s.

(** Lines 628-636: [shape_plan->ot] is [plan]. The context's
    [target_direction] starts zero-initialised. *)
Definition rb_ot_shape (plan : rb_ot_shape_plan_t) (face : rb_face_t) (buffer : rb_buffer_t)
  (features : list rb_feature_t) : rb_shape_state_t :=
  let c := mk_context plan face features RB_DIRECTION_INVALID in
  rb_ot_shape_internal c (mk_state buffer []).

End Shape.

(** ** Definitions the statements use

    Derived notions, and the specification's wording of the feature order,
    of the fraction masks and of character rotation, to compare the code
    with. *)

Section Statements.
Context `{Collaborators}.

(** What feature collection leaves alone: everything but the two builders. *)
Definition planner_frame (planner : rb_ot_shape_planner_t) :=
  (planner_face planner, planner_props planner, planner_apply_morx planner,
   planner_shaper planner, planner_script_zero_marks planner,
   planner_script_fallback_mark_positioning planner).

(** The plan [init0] has compiled when it calls the shaper's
    [data_create]. *)
Definition init0_compiled (this : rb_ot_shape_plan_t) (face : rb_face_t)
  (props : rb_segment_properties_t) (user_features : list rb_feature_t)
  (variations_index : rb_variations_index_t) : rb_ot_shape_plan_t :=
  rb_ot_shape_planner_compile
    (rb_ot_shape_collect_features (rb_ot_shape_planner_new face props) user_features)
    (set_plan_aat_map aat_map_init (set_plan_map rb_ot_map_create this))
    variations_index.



(** The feature order of section 4.4 of the specification, as the calls
    the map builder is to receive before and after the shaper's own
    features. *)
Definition spec_direction_features (direction : rb_direction_t) : list rb_ot_map_builder_call :=
  match direction with
  | RB_DIRECTION_LTR =>
      [ enable_feature (RB_TAG "l" "t" "r" "a") F_NONE 1;
        enable_feature (RB_TAG "l" "t" "r" "m") F_NONE 1 ]
  | RB_DIRECTION_RTL =>
      [ enable_feature (RB_TAG "r" "t" "l" "a") F_NONE 1;
        add_feature (RB_TAG "r" "t" "l" "m") F_NONE 1 ]
  | RB_DIRECTION_TTB | RB_DIRECTION_BTT | RB_DIRECTION_INVALID => []
  end.

Definition spec_features_before_shaper (direction : rb_direction_t)
  : list rb_ot_map_builder_call :=
  [ enable_feature (RB_TAG "r" "v" "r" "n") F_NONE 1; add_gsub_pause None ]
  ++ spec_direction_features direction
  ++ [ add_feature (RB_TAG "f" "r" "a" "c") F_NONE 1;
       add_feature (RB_TAG "n" "u" "m" "r") F_NONE 1;
       add_feature (RB_TAG "d" "n" "o" "m") F_NONE 1;
       enable_feature (RB_TAG "r" "a" "n" "d") F_RANDOM RB_OT_MAP_MAX_VALUE;
       enable_feature (RB_TAG "t" "r" "a" "k") F_HAS_FALLBACK 1;
       enable_feature (RB_TAG "H" "A" "R" "F") F_NONE 1 ].

Definition spec_user_feature (feature : rb_feature_t) : rb_ot_map_builder_call :=
  add_feature (feature_tag feature)
    (if (feature_start feature =? RB_FEATURE_GLOBAL_START)
        && (feature_end feature =? RB_FEATURE_GLOBAL_END)
     then F_GLOBAL else F_NONE)
    (feature_value feature).

Definition spec_features_after_shaper (direction : rb_direction_t)
  (user_features : list rb_feature_t) : list rb_ot_map_builder_call :=
  [ enable_feature (RB_TAG "B" "U" "Z" "Z") F_NONE 1;
    add_feature (RB_TAG "a" "b" "v" "m") F_GLOBAL 1;
    add_feature (RB_TAG "b" "l" "w" "m") F_GLOBAL 1;
    add_feature (RB_TAG "c" "c" "m" "p") F_GLOBAL 1;
    add_feature (RB_TAG "l" "o" "c" "l") F_GLOBAL 1;
    add_feature (RB_TAG "m" "a" "r" "k") (flags_or F_GLOBAL F_MANUAL_JOINERS) 1;
    add_feature (RB_TAG "m" "k" "m" "k") (flags_or F_GLOBAL F_MANUAL_JOINERS) 1;
    add_feature (RB_TAG "r" "l" "i" "g") F_GLOBAL 1 ]
  ++ (if RB_DIRECTION_IS_HORIZONTAL direction then
        [ add_feature (RB_TAG "c" "a" "l" "t") F_GLOBAL 1;
          add_feature (RB_TAG "c" "l" "i" "g") F_GLOBAL 1;
          add_feature (RB_TAG "c" "u" "r" "s") F_GLOBAL 1;
          add_feature (RB_TAG "d" "i" "s" "t") F_GLOBAL 1;
          add_feature (RB_TAG "k" "e" "r" "n") (flags_or F_GLOBAL F_HAS_FALLBACK) 1;
          add_feature (RB_TAG "l" "i" "g" "a") F_GLOBAL 1;
          add_feature (RB_TAG "r" "c" "l" "t") F_GLOBAL 1 ]
      else [ enable_feature (RB_TAG "v" "e" "r" "t") F_GLOBAL_SEARCH 1 ])
  ++ (spec_user_feature <$> user_features).



(** Section 4.6, step 1. Per-glyph outcomes of the two passes of [rb_ot_rotate_chars], in the
    specification's words. *)
Definition rotated_backward (face : rb_face_t) (rtlm_mask : rb_mask_t)
  (g g' : rb_glyph_info_t) : Prop :=
  let mirror := rb_ucd_mirroring (info_codepoint g) in
  info_cluster g' = info_cluster g /\
  info_general_category g' = info_general_category g /\
  ((mirror <> info_codepoint g /\ rb_face_has_glyph face mirror = true)
   /\ info_codepoint g' = mirror /\ info_mask g' = info_mask g
   \/
   ~ (mirror <> info_codepoint g /\ rb_face_has_glyph face mirror = true)
   /\ info_codepoint g' = info_codepoint g /\ info_mask g' = Z.lor (info_mask g) rtlm_mask).

Definition rotated_vertical (face : rb_face_t)
  (g g' : rb_glyph_info_t) : Prop :=
  let vert := rb_vert_char_for (info_codepoint g) in
  info_cluster g' = info_cluster g /\
  info_general_category g' = info_general_category g /\
  info_mask g' = info_mask g /\
  ((vert <> info_codepoint g /\ rb_face_has_glyph face vert = true)
   /\ info_codepoint g' = vert
   \/
   ~ (vert <> info_codepoint g /\ rb_face_has_glyph face vert = true)
   /\ info_codepoint g' = info_codepoint g).


End Statements.

(** ** Accessors and the calls of the pipeline

    The accessors of the plan (lines 58-63), and, for the statements about
    whole runs, the collaborator calls sorted by what decides them. *)

Section Pipeline.
Context `{Collaborators}.

(** Lines 58-63. *)
Definition rb_ot_shape_plan_get_ot_complex_shaper (plan : rb_ot_shape_plan_t) := plan_shaper plan.
Definition rb_ot_shape_plan_get_ot_map (plan : rb_ot_shape_plan_t) := plan_map plan.
Definition rb_ot_shape_plan_get_script (plan : rb_ot_shape_plan_t) :=
  props_script (plan_props plan).
Definition rb_ot_shape_plan_get_direction (plan : rb_ot_shape_plan_t) :=
  props_direction (plan_props plan).
Definition rb_ot_shape_plan_has_gpos_mark (plan : rb_ot_shape_plan_t) := plan_has_gpos_mark plan.

(** Calls whose presence or arguments depend on the buffer as the
    pipeline finds it (its length, direction, scratch flags and glyphs) or
    on the user's features. *)
Definition is_dynamic (call : rb_extern_t) : bool :=
  match call with
  | rb_buffer_unsafe_to_break _ _
  | rb_buffer_set_masks _ _ _ _
  | rb_face_get_glyph_h_advances _
  | rb_face_get_glyph_v_advances _
  | rb_face_subtract_glyph_v_origin _ _
  | rb_ot_shape_fallback_spaces
  | rb_zero_mark_widths_by_gdef _
  | rb_ot_shape_fallback_mark_position _
  | rb_buffer_reverse => true
  | _ => false
  end.

(** A selection of calls that takes none of those. *)
Definition static (p : rb_extern_t -> bool) : Prop :=
  forall call, is_dynamic call = true -> p call = false.

Definition is_substitution_backend (call : rb_extern_t) : bool :=
  match call with
  | rb_aat_layout_substitute | rb_ot_layout_substitute => true
  | _ => false
  end.

Definition is_positioning_backend (call : rb_extern_t) : bool :=
  match call with
  | rb_ot_layout_position | rb_aat_layout_position
  | rb_ot_layout_kern | rb_ot_shape_fallback_kern => true
  | _ => false
  end.

Definition is_backend (call : rb_extern_t) : bool :=
  is_substitution_backend call || is_positioning_backend call.

(** The routines that serve morx substitution, kerx positioning and
    tracking. *)
Definition is_morx_routine (call : rb_extern_t) : bool :=
  match call with
  | rb_aat_layout_substitute | rb_aat_layout_remove_deleted_glyphs
  | rb_aat_layout_zero_width_deleted_glyphs => true
  | _ => false
  end.

Definition is_kerx_routine (call : rb_extern_t) : bool :=
  match call with
  | rb_aat_layout_position => true
  | _ => false
  end.

Definition is_trak_routine (call : rb_extern_t) : bool :=
  match call with
  | rb_aat_layout_track => true
  | _ => false
  end.

Definition is_gpos_routine (call : rb_extern_t) : bool :=
  match call with
  | rb_ot_layout_position => true
  | _ => false
  end.

Definition is_zero_mark_widths (call : rb_extern_t) : bool :=
  match call with
  | rb_zero_mark_widths_by_gdef _ => true
  | _ => false
  end.

Definition is_fallback_mark_position (call : rb_extern_t) : bool :=
  match call with
  | rb_ot_shape_fallback_mark_position _ => true
  | _ => false
  end.

Definition substitution_backend (plan : rb_ot_shape_plan_t) : rb_extern_t :=
  if plan_apply_morx plan then rb_aat_layout_substitute else rb_ot_layout_substitute.

Definition positioning_backend (plan : rb_ot_shape_plan_t) : rb_extern_t :=
  if plan_apply_gpos plan then rb_ot_layout_position
  else if plan_apply_kerx plan then rb_aat_layout_position
  else if plan_apply_kern plan then rb_ot_layout_kern
  else rb_ot_shape_fallback_kern.

(** The calls of one run that the plan alone decides, in the order of
    the pipeline: those of [rb_ot_substitute_pre], of [rb_ot_position] and
    of [rb_ot_substitute_post], and the whole run. *)
Definition decided_substitute_pre (plan : rb_ot_shape_plan_t) : list rb_extern_t :=
  [ rb_ot_shape_normalize; rb_ot_complex_shaper_setup_masks ]
  ++ (if plan_fallback_mark_positioning plan
      then [rb_ot_shape_fallback_mark_position_recategorize_marks] else [])
  ++ [ rb_ot_map_glyphs_fast; rb_ot_layout_substitute_start ]
  ++ (if plan_fallback_glyph_classes plan then [rb_synthesize_glyph_classes] else [])
  ++ [ substitution_backend plan ].

Definition decided_position (plan : rb_ot_shape_plan_t) : list rb_extern_t :=
  [ rb_buffer_clear_positions; rb_ot_layout_position_start; positioning_backend plan ]
  ++ (if plan_apply_trak plan then [rb_aat_layout_track] else [])
  ++ [ rb_ot_layout_position_finish_advances; rb_ot_zero_width_default_ignorables ]
  ++ (if plan_apply_morx plan then [rb_aat_layout_zero_width_deleted_glyphs] else [])
  ++ [ rb_ot_layout_position_finish_offsets ].

Definition decided_substitute_post (plan : rb_ot_shape_plan_t) : list rb_extern_t :=
  [ rb_ot_hide_default_ignorables ]
  ++ (if plan_apply_morx plan then [rb_aat_layout_remove_deleted_glyphs] else [])
  ++ [ rb_ot_complex_shaper_postprocess_glyphs ].

Definition plan_decided_calls (plan : rb_ot_shape_plan_t) : list rb_extern_t :=
  [ rb_buffer_clear_output;
    rb_buffer_reset_masks (rb_ot_map_get_global_mask (plan_map plan));
    rb_set_unicode_props;
    rb_insert_dotted_circle;
    rb_form_clusters;
    rb_ensure_native_direction;
    rb_ot_complex_shaper_preprocess_text ]
  ++ decided_substitute_pre plan
  ++ decided_position plan
  ++ decided_substitute_post plan
  ++ [ rb_propagate_flags ].

(** The calls [rb_ot_position_complex] makes, given the flag it computes
    on entry. *)
Definition position_complex_calls (plan : rb_ot_shape_plan_t)
  (adjust_offsets_when_zeroing : bool) : list rb_extern_t :=
  [ rb_ot_layout_position_start ]
  ++ (if plan_zero_marks plan then
        match rb_ot_complex_shaper_get_zero_width_marks_mode (plan_shaper plan) with
        | RB_OT_SHAPE_ZERO_WIDTH_MARKS_BY_GDEF_EARLY =>
            [rb_zero_mark_widths_by_gdef adjust_offsets_when_zeroing]
        | _ => []
        end
      else [])
  ++ [ positioning_backend plan ]
  ++ (if plan_apply_trak plan then [rb_aat_layout_track] else [])
  ++ (if plan_zero_marks plan then
        match rb_ot_complex_shaper_get_zero_width_marks_mode (plan_shaper plan) with
        | RB_OT_SHAPE_ZERO_WIDTH_MARKS_BY_GDEF_LATE =>
            [rb_zero_mark_widths_by_gdef adjust_offsets_when_zeroing]
        | _ => []
        end
      else [])
  ++ [ rb_ot_layout_position_finish_advances; rb_ot_zero_width_default_ignorables ]
  ++ (if plan_apply_morx plan then [rb_aat_layout_zero_width_deleted_glyphs] else [])
  ++ [ rb_ot_layout_position_finish_offsets ]
  ++ (if plan_fallback_mark_positioning plan
      then [rb_ot_shape_fallback_mark_position adjust_offsets_when_zeroing] else []).

(** The [rb_buffer_set_masks] call of one ranged user feature, lines
    441-445. *)
Definition user_feature_set_masks (map : rb_ot_map_t) (feature : rb_feature_t) : rb_extern_t :=
  rb_buffer_set_masks
    (Z.shiftl (feature_value feature) (snd (rb_ot_map_get_mask map (feature_tag feature)))
     mod 2 ^ 32)
    (fst (rb_ot_map_get_mask map (feature_tag feature)))
    (feature_start feature) (feature_end feature).

(** The [rb_buffer_unsafe_to_break] call for a span [(start, end)]. *)
Definition unsafe_to_break_span (span : nat * nat) : rb_extern_t :=
  rb_buffer_unsafe_to_break (fst span) (snd span).

(** [info'] is [info] with bits added to masks and nothing else changed. *)
Definition masks_grow (info info' : list rb_glyph_info_t) : Prop :=
  Forall2 (fun g g' =>
             info_codepoint g' = info_codepoint g
             /\ info_cluster g' = info_cluster g
             /\ info_general_category g' = info_general_category g
             /\ Z.land (info_mask g) (info_mask g') = info_mask g)
          info info'.

(** The glyph index of a [rb_face_subtract_glyph_v_origin] call. *)
Definition v_origin_index (call : rb_extern_t) : option nat :=
  match call with
  | rb_face_subtract_glyph_v_origin i _ => Some i
  | _ => None
  end.

(** A resource is used properly over [calls]: created only while not
    held, destroyed only while held. The second component is whether it
    is held at the end. *)
Definition used_properly (r : rb_resource_t) (calls : list rb_lifetime_call) : bool :=
  fst (foldl (fun '(ok, h) call =>
                if acquires call r then (ok && negb h, true)
                else if releases call r then (ok && h, false)
                else (ok, h))
             (true, false) calls).

End Pipeline.

(** ** A concrete world

    One set of collaborators to evaluate the model on: three shapers, a
    compiled map that knows the fraction and mirroring features and has no
    GPOS [kern] feature, and buffer routines of which only a few act. *)

Inductive example_shaper_t :=
| example_default_shaper
| example_arabic_shaper
| example_dumber_shaper.

Definition example_types : OpaqueTypes :=
  {| rb_ot_complex_shaper_t := example_shaper_t;
     shaper_data_t := unit;
     rb_aat_map_t := list (rb_tag_t * Z) |}.

Definition example_map : rb_ot_map_t :=
  mk_map 1
    (fun tag =>
       if tag =? RB_TAG "f" "r" "a" "c" then 2
       else if tag =? RB_TAG "n" "u" "m" "r" then 4
       else if tag =? RB_TAG "d" "n" "o" "m" then 8
       else if tag =? RB_TAG "r" "t" "l" "m" then 16
       else 0)
    (fun tag =>
       if tag =? RB_TAG "k" "e" "r" "n" then (32, 5)
       else if tag =? RB_TAG "t" "r" "a" "k" then (64, 6)
       else (0, 0))
    (fun _ _ => 0xFFFF)
    (fun _ => 0).

Definition example_empty_map : rb_ot_map_t :=
  mk_map 0 (fun _ => 0) (fun _ => (0, 0)) (fun _ _ => 0xFFFF) (fun _ => 0).

Definition example_extern_run (plan : @rb_ot_shape_plan_t example_types) (face : rb_face_t)
  (call : rb_extern_t) (buffer : rb_buffer_t) : rb_buffer_t :=
  match call with
  | rb_buffer_reset_masks mask =>
      set_buffer_info (set_info_mask mask <$> buffer_info buffer) buffer
  | rb_ensure_native_direction =>
      match buffer_direction buffer with
      | RB_DIRECTION_BTT =>
          rb_buffer_set_direction RB_DIRECTION_TTB
            (set_buffer_info (reverse (buffer_info buffer)) buffer)
      | _ => buffer
      end
  | rb_buffer_reverse => set_buffer_info (reverse (buffer_info buffer)) buffer
  | _ => buffer
  end.

Definition example_categorize (props : rb_segment_properties_t) (map : rb_ot_map_builder_t)
  : example_shaper_t :=
  if props_script props =? RB_TAG "A" "r" "a" "b"
  then example_arabic_shaper else example_default_shaper.

Definition example_zero_width_marks_mode (shaper : example_shaper_t) :=
  match shaper with
  | example_default_shaper => RB_OT_SHAPE_ZERO_WIDTH_MARKS_BY_GDEF_EARLY
  | example_arabic_shaper => RB_OT_SHAPE_ZERO_WIDTH_MARKS_BY_GDEF_LATE
  | example_dumber_shaper => RB_OT_SHAPE_ZERO_WIDTH_MARKS_NONE
  end.

Definition example_fallback_position (shaper : example_shaper_t) : bool :=
  match shaper with
  | example_dumber_shaper => false
  | _ => true
  end.

Definition example_reconsider (shaper : example_shaper_t) : example_shaper_t :=
  match shaper with
  | example_default_shaper => example_default_shaper
  | _ => example_dumber_shaper
  end.

Definition example_collect_features (shaper : example_shaper_t)
  (planner : @rb_ot_shape_planner_t example_types) : rb_ot_map_builder_t :=
  match shaper with
  | example_arabic_shaper =>
      rb_ot_map_builder_add_feature (RB_TAG "i" "n" "i" "t") F_NONE 1 (planner_map planner)
  | _ => planner_map planner
  end.

Definition example_override_features (shaper : example_shaper_t)
  (planner : @rb_ot_shape_planner_t example_types) : rb_ot_map_builder_t :=
  planner_map planner.

(** The dumber shaper has no plan data to offer. *)
Definition example_data_create (shaper : example_shaper_t)
  (plan : @rb_ot_shape_plan_t example_types) : option unit :=
  match shaper with
  | example_dumber_shaper => None
  | _ => Some tt
  end.

Definition example_mul_overflows (count size : Z) : bool :=
  (0 <? size) && (UINT_MAX / size <=? count).

Definition example_mirroring (u : rb_codepoint_t) : rb_codepoint_t :=
  if u =? 0x28 then 0x29 else if u =? 0x29 then 0x28 else u.

Definition example_vert_char_for (u : rb_codepoint_t) : rb_codepoint_t :=
  if u =? 0xFF0C then 0xFE10 else u.

(** The collaborators, for given work-limit factors. *)
Definition example_collaborators_with (len_factor ops_factor : Z)
  : @Collaborators example_types :=
  @Build_Collaborators example_types
    (* RB_OT_MAP_MAX_VALUE *) 255
    (* RB_OT_LAYOUT_NO_FEATURE_INDEX *) 0xFFFF
    (* RB_FEATURE_GLOBAL_START, _END *) 0 UINT_MAX
    (* RB_BUFFER_SCRATCH_FLAG_DEFAULT, _HAS_NON_ASCII, _HAS_SPACE_FALLBACK *) 0 1 4
    (* RB_BUFFER_MAX_LEN_FACTOR, _MIN, _DEFAULT *) len_factor 8192 0x3FFFFFFF
    (* RB_BUFFER_MAX_OPS_FACTOR, _MIN, _DEFAULT *) ops_factor 1024 0x1FFFFFFF
    example_mul_overflows
    example_categorize
    example_zero_width_marks_mode
    example_fallback_position
    example_reconsider
    (* gpos tag *) (fun _ => 0)
    example_collect_features
    example_override_features
    example_data_create
    (* rb_ot_map_create *) example_empty_map
    (* rb_ot_map_builder_compile *) (fun _ _ _ => example_map)
    (* aat_map_init *) []
    (* aat_map_builder_compile *) (fun builder _ => aat_builder_calls builder)
    example_mirroring
    example_vert_char_for
    example_extern_run.

Definition example_collaborators : @Collaborators example_types :=
  example_collaborators_with 32 64.

(** A plan whose memory is all zero. *)
Definition example_zeroed_plan : @rb_ot_shape_plan_t example_types :=
  @mk_plan example_types
          (mk_props RB_DIRECTION_INVALID 0 String.EmptyString) example_default_shaper
          example_empty_map [] None 0 0 0 0 0 0
          false false false false false false false false false false false false false false.

(** An OpenType face with GPOS and a [kern] table, no AAT tables; it has a
    glyph for every codepoint below U+FE00. *)
Definition example_ot_face : rb_face_t :=
  mk_face false true false true true false false true false (fun u => u <? 0xFE00).

(** An AAT face: morx and kerx, and GSUB and GPOS as well. *)
Definition example_aat_face : rb_face_t :=
  mk_face true true true true false false false true true (fun u => u <? 0xFE00).

(** A face with a [kern] table and nothing else. *)
Definition example_kern_face : rb_face_t :=
  mk_face false false false false true false false false false (fun u => u <? 0xFE00).

Definition example_ltr_props : rb_segment_properties_t :=
  mk_props RB_DIRECTION_LTR (RB_TAG "L" "a" "t" "n") String.EmptyString.

Definition example_ttb_props : rb_segment_properties_t :=
  mk_props RB_DIRECTION_TTB (RB_TAG "L" "a" "t" "n") String.EmptyString.

Definition example_arabic_props : rb_segment_properties_t :=
  mk_props RB_DIRECTION_RTL (RB_TAG "A" "r" "a" "b") String.EmptyString.

Definition example_glyph (u : rb_codepoint_t) (gc : rb_unicode_general_category_t)
  : rb_glyph_info_t :=
  mk_info u 0 0 gc.

Definition example_buffer (direction : rb_direction_t) (info : list rb_glyph_info_t)
  : rb_buffer_t :=
  mk_buffer info [] direction 1 0x3FFFFFFF 0x1FFFFFFF.

(** "1/2" with U+2044 FRACTION SLASH. *)
Definition example_fraction_text : list rb_glyph_info_t :=
  [ example_glyph 0x31 RB_UNICODE_GENERAL_CATEGORY_DECIMAL_NUMBER;
    example_glyph 0x2044 RB_UNICODE_GENERAL_CATEGORY_MATH_SYMBOL;
    example_glyph 0x32 RB_UNICODE_GENERAL_CATEGORY_DECIMAL_NUMBER ].

(** "(a" *)
Definition example_bracket_text : list rb_glyph_info_t :=
  [ example_glyph 0x28 RB_UNICODE_GENERAL_CATEGORY_OPEN_PUNCTUATION;
    example_glyph 0x61 RB_UNICODE_GENERAL_CATEGORY_LOWERCASE_LETTER ].

Definition example_plan (face : rb_face_t) (props : rb_segment_properties_t)
  : @rb_ot_shape_plan_t example_types :=
  snd (fst (@rb_ot_shape_plan_init0 example_types example_collaborators
              example_zeroed_plan face props [] [])).

Definition example_context (face : rb_face_t) (props : rb_segment_properties_t)
  : @rb_ot_shape_context_t example_types :=
  @mk_context example_types (example_plan face props) face [] (props_direction props).

Definition example_state (direction : rb_direction_t) (info : list rb_glyph_info_t)
  : rb_shape_state_t :=
  mk_state (example_buffer direction info) [].

(** * Properties *)

(** ** The planner and the compiled plan *)

Section PlannerFacts.
Context `{Collaborators}.

Lemma on_map_frame f planner : planner_frame (on_map f planner) = planner_frame planner.
Proof. reflexivity. Qed.

Lemma run_hook_frame hook planner : planner_frame (run_hook hook planner) = planner_frame planner.
Proof. reflexivity. Qed.

Lemma foldl_frame {A} (f : rb_ot_shape_planner_t -> A -> rb_ot_shape_planner_t) l planner :
  (forall p x, planner_frame (f p x) = planner_frame p) ->
  planner_frame (foldl f planner l) = planner_frame planner.
Proof.
  intros Hf. revert planner.
  induction l as [|x l IH]; intros planner; simpl; [reflexivity|].
  rewrite IH. apply Hf.
Qed.

Lemma collect_features_frame planner user_features :
  planner_frame (rb_ot_shape_collect_features planner user_features) = planner_frame planner.
Proof.
  unfold rb_ot_shape_collect_features. cbv zeta.
  rewrite run_hook_frame.
  match goal with |- context [if ?b then _ else _] => destruct b end;
    rewrite ?foldl_frame by reflexivity;
    (match goal with |- context [if ?b then _ else _] => destruct b end;
     rewrite ?foldl_frame, ?on_map_frame, ?run_hook_frame by reflexivity;
     destruct (props_direction (planner_props _)); reflexivity).
Qed.


Lemma collect_features_fields planner user_features :
  let planner' := rb_ot_shape_collect_features planner user_features in
  planner_face planner' = planner_face planner /\
  planner_props planner' = planner_props planner /\
  planner_apply_morx planner' = planner_apply_morx planner /\
  planner_shaper planner' = planner_shaper planner /\
  planner_script_zero_marks planner' = planner_script_zero_marks planner /\
  planner_script_fallback_mark_positioning planner'
  = planner_script_fallback_mark_positioning planner.
Proof.
  intros planner'.
  pose proof (collect_features_frame planner user_features) as Hf.
  fold planner' in Hf. clearbody planner'. unfold planner_frame in Hf.
  injection Hf. auto 10.
Qed.

(** The three blocks of [compile], flag by flag. *)

Lemma compile_masks_flags planner plan vi :
  let plan' := compile_masks planner plan vi in
  plan_apply_gpos plan' = plan_apply_gpos plan /\
  plan_apply_kerx plan' = plan_apply_kerx plan /\
  plan_apply_kern plan' = plan_apply_kern plan.
Proof.
  unfold compile_masks.
  destruct (planner_apply_morx planner); repeat split; reflexivity.
Qed.

Lemma elect_flags face apply_morx disable_gpos plan :
  let plan' := compile_elect_positioning face apply_morx disable_gpos plan in
  plan_apply_kerx plan' = rb_aat_layout_has_positioning face || plan_apply_kerx plan /\
  plan_apply_gpos plan' =
    (negb (rb_aat_layout_has_positioning face) && negb apply_morx && negb disable_gpos
     && rb_ot_layout_has_positioning face) || plan_apply_gpos plan /\
  plan_apply_kern plan' = plan_apply_kern plan.
Proof.
  unfold compile_elect_positioning.
  destruct (rb_aat_layout_has_positioning face), apply_morx, disable_gpos,
    (rb_ot_layout_has_positioning face); repeat split; reflexivity.
Qed.

Lemma reelect_flags face has_gpos_kern plan :
  let plan' := compile_reelect_positioning face has_gpos_kern plan in
  let reelecting := negb (plan_apply_kerx plan) && (negb has_gpos_kern || negb (plan_apply_gpos plan)) in
  plan_apply_kerx plan' = plan_apply_kerx plan || (reelecting && rb_aat_layout_has_positioning face) /\
  plan_apply_gpos plan' = plan_apply_gpos plan /\
  plan_apply_kern plan' =
    plan_apply_kern plan
    || (reelecting && negb (rb_aat_layout_has_positioning face) && rb_ot_layout_has_kerning face).
Proof.
  unfold compile_reelect_positioning.
  destruct (plan_apply_kerx plan) eqn:Ekerx, has_gpos_kern, (plan_apply_gpos plan) eqn:Egpos,
    (rb_aat_layout_has_positioning face), (rb_ot_layout_has_kerning face),
    (plan_apply_kern plan) eqn:Ekern;
    simpl; rewrite ?Ekerx, ?Egpos, ?Ekern; repeat split; reflexivity.
Qed.

Lemma compile_backends_unfold planner plan :
  exists disable_gpos has_gpos_kern plan0,
    compile_backends planner plan =
      compile_reelect_positioning (planner_face planner) has_gpos_kern
        (compile_elect_positioning (planner_face planner) (planner_apply_morx planner)
           disable_gpos plan0)
    /\ plan_apply_gpos plan0 = plan_apply_gpos plan
    /\ plan_apply_kerx plan0 = plan_apply_kerx plan
    /\ plan_apply_kern plan0 = plan_apply_kern plan
    /\ plan_apply_morx plan0 = planner_apply_morx planner.
Proof.
  unfold compile_backends. cbv zeta.
  eexists _, _, _. split; [reflexivity|].
  destruct (rb_ot_layout_has_glyph_classes (planner_face planner)); repeat split; reflexivity.
Qed.

Lemma compile_mark_policies_flags planner plan :
  let plan' := compile_mark_policies planner plan in
  plan_apply_gpos plan' = plan_apply_gpos plan /\
  plan_apply_kerx plan' = plan_apply_kerx plan /\
  plan_apply_kern plan' = plan_apply_kern plan /\
  plan_apply_morx plan' = plan_apply_morx plan.
Proof. repeat split; reflexivity. Qed.

Lemma elect_apply_morx face apply_morx disable_gpos plan :
  plan_apply_morx (compile_elect_positioning face apply_morx disable_gpos plan)
  = plan_apply_morx plan.
Proof.
  unfold compile_elect_positioning.
  repeat match goal with |- context [if ?b then _ else _] => destruct b end; reflexivity.
Qed.

Lemma reelect_apply_morx face has_gpos_kern plan :
  plan_apply_morx (compile_reelect_positioning face has_gpos_kern plan) = plan_apply_morx plan.
Proof.
  unfold compile_reelect_positioning.
  repeat match goal with |- context [if ?b then _ else _] => destruct b end; reflexivity.
Qed.

Lemma compile_apply_morx planner plan vi :
  plan_apply_morx (rb_ot_shape_planner_compile planner plan vi) = planner_apply_morx planner.
Proof.
  unfold rb_ot_shape_planner_compile.
  destruct (compile_backends_unfold planner (compile_masks planner plan vi))
    as (dg & hgk & plan0 & -> & _ & _ & _ & Hmorx).
  destruct (compile_mark_policies_flags planner
              (compile_reelect_positioning (planner_face planner) hgk
                 (compile_elect_positioning (planner_face planner)
                    (planner_apply_morx planner) dg plan0))) as (_ & _ & _ & ->).
  now rewrite reelect_apply_morx, elect_apply_morx.
Qed.

(** The flags [compile] leaves on a plan that entered with none set, as
    functions of the face and of three intermediate values. *)
Lemma compile_flags planner plan vi :
  plan_apply_gpos plan = false -> plan_apply_kerx plan = false ->
  plan_apply_kern plan = false ->
  let face := planner_face planner in
  let plan' := rb_ot_shape_planner_compile planner plan vi in
  exists disable_gpos has_gpos_kern : bool,
    plan_apply_kerx plan' = rb_aat_layout_has_positioning face /\
    plan_apply_gpos plan' =
      negb (rb_aat_layout_has_positioning face) && negb (planner_apply_morx planner)
      && negb disable_gpos && rb_ot_layout_has_positioning face /\
    plan_apply_kern plan' =
      negb (rb_aat_layout_has_positioning face)
      && (negb has_gpos_kern || negb (plan_apply_gpos plan'))
      && rb_ot_layout_has_kerning face.
Proof.
  intros Hgpos Hkerx Hkern face plan'. subst plan'.
  unfold rb_ot_shape_planner_compile.
  destruct (compile_masks_flags planner plan vi) as (Mg & Mx & Mk).
  destruct (compile_backends_unfold planner (compile_masks planner plan vi))
    as (dg & hgk & plan0 & -> & Bg & Bx & Bk & _).
  rewrite Mg, Hgpos in Bg. rewrite Mx, Hkerx in Bx. rewrite Mk, Hkern in Bk.
  set (elected := compile_elect_positioning _ _ dg plan0).
  destruct (compile_mark_policies_flags planner
              (compile_reelect_positioning (planner_face planner) hgk elected))
    as (-> & -> & -> & _).
  destruct (reelect_flags (planner_face planner) hgk elected) as (-> & -> & ->).
  destruct (elect_flags (planner_face planner) (planner_apply_morx planner) dg plan0)
    as (Ex & Eg & Ek).
  fold elected in Ex, Eg, Ek. rewrite Ex, Eg, Ek, Bx, Bg, Bk.
  exists dg, hgk. fold face.
  destruct (rb_aat_layout_has_positioning face), (planner_apply_morx planner), dg, hgk,
    (rb_ot_layout_has_positioning face), (rb_ot_layout_has_kerning face);
    repeat split; reflexivity.
Qed.



Lemma init0_unfold this face props user_features variations_index :
  rb_ot_shape_plan_init0 this face props user_features variations_index =
  let compiled := init0_compiled this face props user_features variations_index in
  match rb_ot_complex_shaper_data_create (plan_shaper compiled) compiled with
  | None =>
      (false, compiled,
       [call_rb_ot_map_create; call_aat_map_init; call_rb_ot_map_builder_create;
        call_rb_ot_complex_shaper_data_create false;
        call_rb_ot_map_destroy; call_aat_map_fini; call_rb_ot_map_builder_destroy])
  | Some data =>
      (true, set_plan_data (Some data) compiled,
       [call_rb_ot_map_create; call_aat_map_init; call_rb_ot_map_builder_create;
        call_rb_ot_complex_shaper_data_create true;
        call_rb_ot_map_builder_destroy])
  end.
Proof. reflexivity. Qed.

(** A fact about a field that [set_plan_data] leaves alone carries over
    from the compiled plan to the plan [init0] returns. *)
Lemma init0_plan_field {A} (field : rb_ot_shape_plan_t -> A) (P : A -> Prop)
  this face props user_features variations_index :
  (forall data plan, field (set_plan_data data plan) = field plan) ->
  P (field (init0_compiled this face props user_features variations_index)) ->
  P (field (snd (fst (rb_ot_shape_plan_init0 this face props user_features variations_index)))).
Proof.
  intros Hfield. rewrite init0_unfold. cbv zeta.
  generalize (init0_compiled this face props user_features variations_index).
  intros compiled Hc.
  destruct (rb_ot_complex_shaper_data_create _ _); cbn [fst snd];
    rewrite ?Hfield; exact Hc.
Qed.

Lemma init0_apply_morx this face props user_features variations_index :
  plan_apply_morx (snd (fst (rb_ot_shape_plan_init0 this face props user_features variations_index)))
  = rb_apply_morx face props.
Proof.
  apply (init0_plan_field plan_apply_morx (fun b => b = rb_apply_morx face props));
    [reflexivity|].
  unfold init0_compiled. rewrite compile_apply_morx.
  apply collect_features_fields.
Qed.

Lemma compile_apply_kerx planner plan vi :
  plan_apply_kerx plan = false ->
  plan_apply_kerx (rb_ot_shape_planner_compile planner plan vi)
  = rb_aat_layout_has_positioning (planner_face planner).
Proof.
  intros Hkerx. unfold rb_ot_shape_planner_compile.
  destruct (compile_masks_flags planner plan vi) as (_ & Mx & _).
  destruct (compile_backends_unfold planner (compile_masks planner plan vi))
    as (dg & hgk & plan0 & -> & _ & Bx & _ & _).
  rewrite Mx, Hkerx in Bx.
  set (elected := compile_elect_positioning _ _ dg plan0).
  destruct (compile_mark_policies_flags planner
              (compile_reelect_positioning (planner_face planner) hgk elected))
    as (_ & -> & _ & _).
  destruct (reelect_flags (planner_face planner) hgk elected) as (-> & _ & _).
  destruct (elect_flags (planner_face planner) (planner_apply_morx planner) dg plan0)
    as (Ex & _ & _).
  fold elected in Ex. rewrite Ex, Bx.
  destruct (rb_aat_layout_has_positioning (planner_face planner)); simpl;
    [reflexivity | apply andb_false_r].
Qed.

(** Which backend [position] runs, lines 223-230. *)
Lemma position_calls plan face s :
  st_calls (rb_ot_shape_plan_position plan face s) =
  st_calls s
  ++ [if plan_apply_gpos plan then rb_ot_layout_position
      else if plan_apply_kerx plan then rb_aat_layout_position
      else if plan_apply_kern plan then rb_ot_layout_kern
      else rb_ot_shape_fallback_kern]
  ++ (if plan_apply_trak plan then [rb_aat_layout_track] else []).
Proof.
  unfold rb_ot_shape_plan_position.
  destruct (plan_apply_gpos plan), (plan_apply_kerx plan), (plan_apply_kern plan),
    (plan_apply_trak plan); cbn [extern_call st_calls];
    rewrite <- ?app_assoc; reflexivity.
Qed.

(** What the second block of [compile] leaves alone. *)
Lemma elect_keeps {A} (field : rb_ot_shape_plan_t -> A) face apply_morx disable_gpos plan :
  (forall v p, field (set_plan_apply_kerx v p) = field p) ->
  (forall v p, field (set_plan_apply_gpos v p) = field p) ->
  field (compile_elect_positioning face apply_morx disable_gpos plan) = field plan.
Proof.
  intros Hx Hg. unfold compile_elect_positioning.
  destruct (rb_aat_layout_has_positioning face); [apply Hx|].
  destruct (_ && _); [apply Hg|reflexivity].
Qed.

Lemma reelect_keeps {A} (field : rb_ot_shape_plan_t -> A) face has_gpos_kern plan :
  (forall v p, field (set_plan_apply_kerx v p) = field p) ->
  (forall v p, field (set_plan_apply_kern v p) = field p) ->
  field (compile_reelect_positioning face has_gpos_kern plan) = field plan.
Proof.
  intros Hx Hk. unfold compile_reelect_positioning.
  destruct (_ && _); [|reflexivity].
  destruct (rb_aat_layout_has_positioning face); [apply Hx|].
  destruct (rb_ot_layout_has_kerning face); [apply Hk|reflexivity].
Qed.

(** A field none of the five setters of the second block touches comes
    out of it as it went in. *)
Lemma compile_backends_keeps {A} (field : rb_ot_shape_plan_t -> A) planner plan :
  (forall v p, field (set_plan_fallback_glyph_classes v p) = field p) ->
  (forall v p, field (set_plan_apply_morx v p) = field p) ->
  (forall v p, field (set_plan_apply_kerx v p) = field p) ->
  (forall v p, field (set_plan_apply_gpos v p) = field p) ->
  (forall v p, field (set_plan_apply_kern v p) = field p) ->
  field (compile_backends planner plan) = field plan.
Proof.
  intros Hf Hm Hx Hg Hk. unfold compile_backends. cbv zeta.
  rewrite reelect_keeps, elect_keeps, Hm by assumption.
  destruct (negb _); [apply Hf|reflexivity].
Qed.

Lemma compile_map planner plan vi :
  plan_map (rb_ot_shape_planner_compile planner plan vi)
  = rb_ot_map_builder_compile (planner_map planner) (plan_map plan) vi.
Proof.
  transitivity (plan_map (compile_backends planner (compile_masks planner plan vi)));
    [reflexivity|].
  rewrite compile_backends_keeps by reflexivity.
  unfold compile_masks. destruct (planner_apply_morx planner); reflexivity.
Qed.


(** C2. The planner's morx decision is: the face has AAT substitution, and
    the direction is horizontal or the face has no OpenType (GSUB)
    substitution. The plan [init0] compiles carries that decision
    unchanged; so when the direction is not horizontal and the face has
    GSUB, the plan has [apply_morx = false]. *)
Theorem morx_decision (this : rb_ot_shape_plan_t) (face : rb_face_t)
  (props : rb_segment_properties_t) (user_features : list rb_feature_t)
  (variations_index : rb_variations_index_t) :
  let planner := rb_ot_shape_planner_new face props in
  let plan := snd (fst (rb_ot_shape_plan_init0 this face props user_features variations_index)) in
  planner_apply_morx planner =
    rb_aat_layout_has_substitution face &&
    (RB_DIRECTION_IS_HORIZONTAL (props_direction props) || negb (rb_ot_layout_has_substitution face))
  /\ plan_apply_morx plan = planner_apply_morx planner
  /\ (RB_DIRECTION_IS_HORIZONTAL (props_direction props) = false ->
      rb_ot_layout_has_substitution face = true ->
      plan_apply_morx plan = false).
Proof.
  intros planner plan.
  pose proof (init0_apply_morx this face props user_features variations_index) as Hplan.
  fold plan in Hplan. clearbody plan.
  split; [reflexivity|]. split; [exact Hplan|].
  intros Hdir Hsub. rewrite Hplan. unfold rb_apply_morx.
  rewrite Hdir, Hsub. apply andb_false_r.
Qed.

(** C10. On a plan that enters [compile] with [apply_kerx] clear, [compile]
    leaves [apply_kerx] equal to [rb_aat_layout_has_positioning (face)],
    whatever [apply_morx], [disable_gpos] and the GPOS [kern] lookup say:
    the first election already sets it to that value, and the
    re-election leaves it as it found it. The same holds of the plan
    [init0] returns. *)
Theorem compile_apply_kerx_iff_aat_positioning (planner : rb_ot_shape_planner_t)
  (plan : rb_ot_shape_plan_t) (variations_index : rb_variations_index_t) :
  plan_apply_kerx plan = false ->
  let face := planner_face planner in
  plan_apply_kerx (rb_ot_shape_planner_compile planner plan variations_index)
  = rb_aat_layout_has_positioning face
  /\ (forall apply_morx disable_gpos has_gpos_kern : bool,
        let elected := compile_elect_positioning face apply_morx disable_gpos plan in
        plan_apply_kerx elected = rb_aat_layout_has_positioning face /\
        plan_apply_kerx (compile_reelect_positioning face has_gpos_kern elected)
        = plan_apply_kerx elected)
  /\ (forall face' props user_features,
        plan_apply_kerx
          (snd (fst (rb_ot_shape_plan_init0 plan face' props user_features variations_index)))
        = rb_aat_layout_has_positioning face').
Proof.
  intros Hkerx face. split; [|split].
  - apply compile_apply_kerx, Hkerx.
  - intros am dg hgk elected.
    destruct (elect_flags face am dg plan) as (Ex & _ & _). fold elected in Ex.
    destruct (reelect_flags face hgk elected) as (Rx & _ & _).
    rewrite Rx, Ex, Hkerx.
    destruct (rb_aat_layout_has_positioning face); simpl; split; try reflexivity.
    apply andb_false_r.
  - intros face' props user_features.
    apply (init0_plan_field plan_apply_kerx (fun b => b = rb_aat_layout_has_positioning face'));
      [reflexivity|].
    unfold init0_compiled. rewrite compile_apply_kerx by exact Hkerx.
    destruct (collect_features_fields (rb_ot_shape_planner_new face' props) user_features)
      as (-> & _). reflexivity.
Qed.

(** C4. After [compile], [adjust_mark_positioning_when_zeroing] is
    [!apply_gpos && !apply_kerx && (!apply_kern || !ot_has_cross_kerning)],
    [fallback_mark_positioning] is that flag and the planner's
    [script_fallback_mark_positioning], hence fallback mark positioning
    implies the adjustment (I4). The planner's flag is the
    [fallback_position] of the shaper [rb_ot_shape_complex_categorize]
    chose, read before the shaper is reconsidered for morx. *)
Theorem compile_mark_positioning (planner : rb_ot_shape_planner_t)
  (plan : rb_ot_shape_plan_t) (variations_index : rb_variations_index_t) :
  let face := planner_face planner in
  let plan' := rb_ot_shape_planner_compile planner plan variations_index in
  plan_adjust_mark_positioning_when_zeroing plan'
  = negb (plan_apply_gpos plan') && negb (plan_apply_kerx plan')
    && (negb (plan_apply_kern plan') || negb (rb_ot_layout_has_cross_kerning face))
  /\ plan_fallback_mark_positioning plan'
     = plan_adjust_mark_positioning_when_zeroing plan'
       && planner_script_fallback_mark_positioning planner
  /\ (plan_fallback_mark_positioning plan' = true ->
      plan_adjust_mark_positioning_when_zeroing plan' = true)
  /\ (forall face' props user_features,
        planner_script_fallback_mark_positioning
          (rb_ot_shape_collect_features (rb_ot_shape_planner_new face' props) user_features)
        = rb_ot_complex_shaper_get_fallback_position
            (rb_ot_shape_complex_categorize props (rb_ot_map_builder_create face' props))).
Proof.
  intros face plan'. subst plan'. unfold rb_ot_shape_planner_compile.
  generalize (compile_backends planner (compile_masks planner plan variations_index)).
  intros backends.
  assert (Hadjust :
    plan_adjust_mark_positioning_when_zeroing (compile_mark_policies planner backends)
    = negb (plan_apply_gpos backends) && negb (plan_apply_kerx backends)
      && (negb (plan_apply_kern backends) || negb (rb_ot_layout_has_cross_kerning face)))
    by reflexivity.
  assert (Hfallback :
    plan_fallback_mark_positioning (compile_mark_policies planner backends)
    = plan_adjust_mark_positioning_when_zeroing (compile_mark_policies planner backends)
      && planner_script_fallback_mark_positioning planner)
    by reflexivity.
  destruct (compile_mark_policies_flags planner backends) as (Pg & Px & Pk & _).
  rewrite Pg, Px, Pk.
  split; [exact Hadjust|]. split; [exact Hfallback|]. split.
  - rewrite Hfallback. intros Hf. apply andb_true_iff in Hf. tauto.
  - intros face' props user_features.
    destruct (collect_features_fields (rb_ot_shape_planner_new face' props) user_features)
      as (_ & _ & _ & _ & _ & ->). reflexivity.
Qed.


(** C7. [init0] returns false exactly when the shaper's [data_create]
    fails on the compiled plan. On that path the OT map and the AAT map it
    created are destroyed before it returns (and the planner's map builder
    with them); on success the plan keeps both maps and the shaper's data,
    and only the map builder is released. *)
Theorem init0_fails_iff_data_create_fails (this : rb_ot_shape_plan_t) (face : rb_face_t)
  (props : rb_segment_properties_t) (user_features : list rb_feature_t)
  (variations_index : rb_variations_index_t) :
  let compiled := init0_compiled this face props user_features variations_index in
  let result := rb_ot_shape_plan_init0 this face props user_features variations_index in
  let ok := fst (fst result) in
  let calls := snd result in
  (ok = false <-> rb_ot_complex_shaper_data_create (plan_shaper compiled) compiled = None)
  /\ (ok = false ->
      calls = [call_rb_ot_map_create; call_aat_map_init; call_rb_ot_map_builder_create;
               call_rb_ot_complex_shaper_data_create false;
               call_rb_ot_map_destroy; call_aat_map_fini; call_rb_ot_map_builder_destroy]
      /\ held the_ot_map calls = false /\ held the_aat_map calls = false
      /\ held the_map_builder calls = false /\ held the_shaper_data calls = false)
  /\ (ok = true ->
      plan_data (snd (fst result))
      = rb_ot_complex_shaper_data_create (plan_shaper compiled) compiled
      /\ held the_ot_map calls = true /\ held the_aat_map calls = true
      /\ held the_map_builder calls = false /\ held the_shaper_data calls = true).
Proof.
  intros compiled result ok calls. subst ok calls result.
  rewrite init0_unfold. cbv zeta. fold compiled. clearbody compiled.
  destruct (rb_ot_complex_shaper_data_create (plan_shaper compiled) compiled) as [data|];
    cbn [fst snd].
  - split; [split; discriminate|]. split; [discriminate|].
    intros _. repeat split; reflexivity.
  - split; [split; reflexivity|]. split; [|discriminate].
    intros _. repeat split; reflexivity.
Qed.

End PlannerFacts.

(** ** Feature collection *)

Section FeatureOrder.
Context `{Collaborators}.












End FeatureOrder.

(** ** Loops over the glyph array *)

Section Loops.

Lemma set_buffer_info_same b : set_buffer_info (buffer_info b) b = b.
Proof. destruct b; reflexivity. Qed.

Lemma for_range_update_info n lo f b :
  for_range n lo (fun j => update_info j f) b
  = set_buffer_info
      (imap (fun j g => if bool_decide (lo <= j < lo + n)%nat then f g else g) (buffer_info b)) b.
Proof.
  revert lo b. induction n as [|n IH]; intros lo b; simpl.
  - rewrite <- (set_buffer_info_same b) at 1. f_equal.
    apply list_eq. intros k. rewrite list_lookup_imap.
    rewrite bool_decide_eq_false_2 by lia. now destruct (buffer_info b !! k).
  - rewrite IH. unfold update_info, set_buffer_info. cbn. f_equal.
    apply list_eq. intros k. rewrite !list_lookup_imap, list_lookup_alter.
    destruct (decide (lo = k)) as [->|Hne];
      destruct (buffer_info b !! k); simpl; try reflexivity;
      repeat case_bool_decide; try reflexivity; lia.
Qed.

Lemma for_loop_update_info lo hi f b :
  for_loop lo hi (fun j => update_info j f) b
  = set_buffer_info
      (imap (fun j g => if bool_decide (lo <= j < hi)%nat then f g else g) (buffer_info b)) b.
Proof.
  unfold for_loop. rewrite for_range_update_info. f_equal.
  apply list_eq. intros k. rewrite !list_lookup_imap.
  destruct (buffer_info b !! k); simpl; [|reflexivity].
  repeat case_bool_decide; try reflexivity; lia.
Qed.

Lemma for_loop_update_all f b :
  for_loop 0 (rb_buffer_get_length b) (fun j => update_info j f) b
  = set_buffer_info (f <$> buffer_info b) b.
Proof.
  rewrite for_loop_update_info. f_equal.
  apply list_eq. intros k. rewrite list_lookup_imap, list_lookup_fmap.
  destruct (buffer_info b !! k) eqn:Hk; simpl; [|reflexivity].
  apply lookup_lt_Some in Hk. unfold rb_buffer_get_length.
  rewrite bool_decide_eq_true_2 by lia. reflexivity.
Qed.


End Loops.

(** ** The shaping pipeline *)

Section ShapeFacts.
Context `{Collaborators}.

Lemma Forall2_fmap_same {A} (R : A -> A -> Prop) (f : A -> A) (l : list A) :
  (forall x, R x (f x)) -> Forall2 R l (f <$> l).
Proof. intros HR. induction l; simpl; constructor; auto. Qed.

(** C6. [rb_ot_rotate_chars] makes two passes over the glyphs and touches
    nothing else. When the target direction is backward, each glyph has
    its codepoint replaced by its mirror (exactly when the mirror differs
    and the face has a glyph for it) or else has [rtlm_mask] ORed into its
    mask. Then, when the target direction is vertical and the plan has no
    [vert] feature, each glyph has its codepoint replaced by its vertical
    form exactly when that form differs and the face has a glyph for it;
    that pass changes no mask. For BTT both passes run, in this order. *)
Theorem rotate_chars_spec (c : rb_ot_shape_context_t) (s : rb_shape_state_t) :
  let face := c_face c in
  let plan := c_plan c in
  let buffer := st_buffer s in
  let s' := rb_ot_rotate_chars c s in
  let buffer' := st_buffer s' in
  st_calls s' = st_calls s
  /\ buffer_pos buffer' = buffer_pos buffer
  /\ buffer_direction buffer' = buffer_direction buffer
  /\ buffer_scratch_flags buffer' = buffer_scratch_flags buffer
  /\ buffer_max_len buffer' = buffer_max_len buffer
  /\ buffer_max_ops buffer' = buffer_max_ops buffer
  /\ exists mirrored : list rb_glyph_info_t,
       (RB_DIRECTION_IS_BACKWARD (c_target_direction c) = true ->
        Forall2 (rotated_backward face (plan_rtlm_mask plan)) (buffer_info buffer) mirrored)
       /\ (RB_DIRECTION_IS_BACKWARD (c_target_direction c) = false ->
           mirrored = buffer_info buffer)
       /\ (RB_DIRECTION_IS_VERTICAL (c_target_direction c) = true ->
           plan_has_vert plan = false ->
           Forall2 (rotated_vertical face) mirrored (buffer_info buffer'))
       /\ (RB_DIRECTION_IS_VERTICAL (c_target_direction c) = false
           \/ plan_has_vert plan = true ->
           buffer_info buffer' = mirrored).
Proof.
  intros face plan buffer s' buffer'. subst s' buffer'.
  unfold rb_ot_rotate_chars, on_buffer. cbn [st_buffer st_calls]. fold buffer face plan.
  set (mirror_glyph := fun g : rb_glyph_info_t =>
         let codepoint := rb_ucd_mirroring (info_codepoint g) in
         if negb (codepoint =? info_codepoint g) && rb_face_has_glyph face codepoint
         then set_info_codepoint codepoint g
         else info_mask_or (plan_rtlm_mask plan) g).
  set (vert_glyph := fun g : rb_glyph_info_t =>
         let codepoint := rb_vert_char_for (info_codepoint g) in
         if negb (codepoint =? info_codepoint g) && rb_face_has_glyph face codepoint
         then set_info_codepoint codepoint g
         else g).
  assert (Hmirror : forall g, rotated_backward face (plan_rtlm_mask plan) g (mirror_glyph g)).
  { intros g. unfold rotated_backward, mirror_glyph. cbv zeta.
    split; [|split].
    - destruct (_ && _); reflexivity.
    - destruct (_ && _); reflexivity.
    - destruct (Z.eqb_spec (rb_ucd_mirroring (info_codepoint g)) (info_codepoint g)) as [E|E];
        destruct (rb_face_has_glyph face (rb_ucd_mirroring (info_codepoint g))) eqn:G; simpl.
      + right. split; [tauto|]. split; reflexivity.
      + right. split; [tauto|]. split; reflexivity.
      + left. split; [tauto|]. split; reflexivity.
      + right. split; [intros [_ ?]; discriminate|]. split; reflexivity. }
  assert (Hvert : forall g, rotated_vertical face g (vert_glyph g)).
  { intros g. unfold rotated_vertical, vert_glyph. cbv zeta.
    split; [|split; [|split]]; try (destruct (_ && _); reflexivity).
    destruct (Z.eqb_spec (rb_vert_char_for (info_codepoint g)) (info_codepoint g)) as [E|E];
      destruct (rb_face_has_glyph face (rb_vert_char_for (info_codepoint g))) eqn:G; simpl.
    + right. split; [tauto|]. reflexivity.
    + right. split; [tauto|]. reflexivity.
    + left. split; [tauto|]. reflexivity.
    + right. split; [intros [_ ?]; discriminate|]. reflexivity. }
  set (mid := if RB_DIRECTION_IS_BACKWARD (c_target_direction c)
              then for_loop 0 (rb_buffer_get_length buffer)
                     (fun i => update_info i mirror_glyph) buffer
              else buffer).
  assert (Hmid : mid = set_buffer_info
                         (if RB_DIRECTION_IS_BACKWARD (c_target_direction c)
                          then mirror_glyph <$> buffer_info buffer
                          else buffer_info buffer) buffer).
  { subst mid. destruct (RB_DIRECTION_IS_BACKWARD _).
    - apply for_loop_update_all.
    - symmetry. apply set_buffer_info_same. }
  assert (Hlen : rb_buffer_get_length buffer = rb_buffer_get_length mid).
  { rewrite Hmid. unfold rb_buffer_get_length. cbn.
    destruct (RB_DIRECTION_IS_BACKWARD _); [now rewrite length_fmap|reflexivity]. }
  rewrite Hlen.
  assert (Hout :
    (if RB_DIRECTION_IS_VERTICAL (c_target_direction c) && negb (plan_has_vert plan)
     then for_loop 0 (rb_buffer_get_length mid) (fun i => update_info i vert_glyph) mid
     else mid)
    = set_buffer_info
        (if RB_DIRECTION_IS_VERTICAL (c_target_direction c) && negb (plan_has_vert plan)
         then vert_glyph <$> buffer_info mid else buffer_info mid) mid).
  { destruct (_ && _).
    - apply for_loop_update_all.
    - symmetry. apply set_buffer_info_same. }
  rewrite Hout. clear Hout Hlen. rewrite Hmid. clear Hmid mid. cbn.
  repeat (split; [reflexivity|]).
  exists (if RB_DIRECTION_IS_BACKWARD (c_target_direction c)
          then mirror_glyph <$> buffer_info buffer else buffer_info buffer).
  destruct (RB_DIRECTION_IS_BACKWARD (c_target_direction c)),
    (RB_DIRECTION_IS_VERTICAL (c_target_direction c)), (plan_has_vert plan); cbn;
    repeat split; try discriminate; try reflexivity; intros;
    try (apply Forall2_fmap_same; assumption);
    try (match goal with Hor : _ \/ _ |- _ => destruct Hor; discriminate end).
Qed.

Lemma set_limits_frame buffer :
  let buffer' := rb_ot_shape_set_limits buffer in
  buffer_info buffer' = buffer_info buffer /\
  buffer_pos buffer' = buffer_pos buffer /\
  buffer_direction buffer' = buffer_direction buffer /\
  buffer_scratch_flags buffer' = buffer_scratch_flags buffer.
Proof.
  unfold rb_ot_shape_set_limits. cbv zeta.
  destruct (negb (rb_unsigned_mul_overflows _ RB_BUFFER_MAX_LEN_FACTOR));
    destruct (negb (rb_unsigned_mul_overflows _ RB_BUFFER_MAX_OPS_FACTOR));
    repeat split; reflexivity.
Qed.

Lemma shape_run_end c s :
  let buffer' := st_buffer (rb_ot_shape_run c s) in
  buffer_direction buffer' = buffer_direction (st_buffer s) /\
  buffer_max_len buffer' = RB_BUFFER_MAX_LEN_DEFAULT /\
  buffer_max_ops buffer' = RB_BUFFER_MAX_OPS_DEFAULT.
Proof.
  unfold rb_ot_shape_run. cbv zeta.
  repeat split; reflexivity.
Qed.

(** C8. After [rb_ot_shape_internal], and so after [rb_ot_shape], the
    buffer's direction is the one it had at entry, whatever the
    collaborators did to it in between, and [max_len] and [max_ops] are
    back at their defaults. *)
Theorem shape_restores_direction_and_limits (c : rb_ot_shape_context_t)
  (s : rb_shape_state_t) (plan : rb_ot_shape_plan_t) (face : rb_face_t)
  (buffer : rb_buffer_t) (features : list rb_feature_t) :
  (let buffer' := st_buffer (rb_ot_shape_internal c s) in
   buffer_direction buffer' = buffer_direction (st_buffer s) /\
   buffer_max_len buffer' = RB_BUFFER_MAX_LEN_DEFAULT /\
   buffer_max_ops buffer' = RB_BUFFER_MAX_OPS_DEFAULT)
  /\
  (let buffer' := st_buffer (rb_ot_shape plan face buffer features) in
   buffer_direction buffer' = buffer_direction buffer /\
   buffer_max_len buffer' = RB_BUFFER_MAX_LEN_DEFAULT /\
   buffer_max_ops buffer' = RB_BUFFER_MAX_OPS_DEFAULT).
Proof.
  assert (Hinternal : forall c s,
    let buffer' := st_buffer (rb_ot_shape_internal c s) in
    buffer_direction buffer' = buffer_direction (st_buffer s) /\
    buffer_max_len buffer' = RB_BUFFER_MAX_LEN_DEFAULT /\
    buffer_max_ops buffer' = RB_BUFFER_MAX_OPS_DEFAULT).
  { clear. intros c s. unfold rb_ot_shape_internal. cbv zeta.
    set (s1 := on_buffer rb_ot_shape_set_limits _).
    destruct (shape_run_end c s1) as (Hd & Hl & Ho).
    split; [|split; assumption].
    rewrite Hd. subst s1. cbn [on_buffer st_buffer].
    destruct (set_limits_frame
                (rb_buffer_set_scratch_flags RB_BUFFER_SCRATCH_FLAG_DEFAULT (st_buffer s)))
      as (_ & _ & -> & _).
    reflexivity. }
  split; [apply Hinternal|].
  unfold rb_ot_shape. cbv zeta. apply (Hinternal _ (mk_state buffer [])).
Qed.

Lemma set_limits_caps buffer :
  let length := Z.of_nat (rb_buffer_get_length buffer) in
  let buffer' := rb_ot_shape_set_limits buffer in
  buffer_max_len buffer' =
    (if rb_unsigned_mul_overflows length RB_BUFFER_MAX_LEN_FACTOR then buffer_max_len buffer
     else Z.max ((length * RB_BUFFER_MAX_LEN_FACTOR) mod 2 ^ 32) (RB_BUFFER_MAX_LEN_MIN mod 2 ^ 32))
  /\ buffer_max_ops buffer' =
    (if rb_unsigned_mul_overflows length RB_BUFFER_MAX_OPS_FACTOR then buffer_max_ops buffer
     else Z.max ((length * RB_BUFFER_MAX_OPS_FACTOR) mod 2 ^ 32) (RB_BUFFER_MAX_OPS_MIN mod 2 ^ 32)).
Proof.
  unfold rb_ot_shape_set_limits. cbv zeta.
  destruct (rb_unsigned_mul_overflows _ RB_BUFFER_MAX_LEN_FACTOR) eqn:Elen; cbn [negb].
  - destruct (rb_unsigned_mul_overflows _ RB_BUFFER_MAX_OPS_FACTOR); split; reflexivity.
  - change (rb_buffer_get_length (rb_buffer_set_max_len _ buffer))
      with (rb_buffer_get_length buffer).
    destruct (rb_unsigned_mul_overflows _ RB_BUFFER_MAX_OPS_FACTOR); split; reflexivity.
Qed.

(** C9. With [rb_unsigned_mul_overflows] sound (it says "no overflow" only
    when the product fits 32 bits): [max_len] becomes
    [max (length * LEN_FACTOR, LEN_MIN)], computed without wrap-around,
    when the check passes, and is left as it was when the check fails, in
    particular whenever the product overflows; likewise [max_ops]. The
    glyphs and the direction are untouched and the pipeline runs on from
    there in either case. *)
Theorem shape_set_limits_spec (buffer : rb_buffer_t) :
  (forall count size,
     0 <= count <= UINT_MAX -> 0 <= size <= UINT_MAX ->
     rb_unsigned_mul_overflows count size = false -> count * size <= UINT_MAX) ->
  Z.of_nat (rb_buffer_get_length buffer) <= UINT_MAX ->
  0 <= RB_BUFFER_MAX_LEN_FACTOR <= UINT_MAX -> 0 <= RB_BUFFER_MAX_LEN_MIN <= UINT_MAX ->
  0 <= RB_BUFFER_MAX_OPS_FACTOR <= UINT_MAX -> 0 <= RB_BUFFER_MAX_OPS_MIN <= UINT_MAX ->
  let length := Z.of_nat (rb_buffer_get_length buffer) in
  let buffer' := rb_ot_shape_set_limits buffer in
  (* max_len *)
  (rb_unsigned_mul_overflows length RB_BUFFER_MAX_LEN_FACTOR = false ->
   buffer_max_len buffer' = Z.max (length * RB_BUFFER_MAX_LEN_FACTOR) RB_BUFFER_MAX_LEN_MIN)
  /\ (rb_unsigned_mul_overflows length RB_BUFFER_MAX_LEN_FACTOR = true ->
      buffer_max_len buffer' = buffer_max_len buffer)
  /\ (length * RB_BUFFER_MAX_LEN_FACTOR > UINT_MAX ->
      buffer_max_len buffer' = buffer_max_len buffer)
  (* max_ops *)
  /\ (rb_unsigned_mul_overflows length RB_BUFFER_MAX_OPS_FACTOR = false ->
      buffer_max_ops buffer' = Z.max (length * RB_BUFFER_MAX_OPS_FACTOR) RB_BUFFER_MAX_OPS_MIN)
  /\ (rb_unsigned_mul_overflows length RB_BUFFER_MAX_OPS_FACTOR = true ->
      buffer_max_ops buffer' = buffer_max_ops buffer)
  /\ (length * RB_BUFFER_MAX_OPS_FACTOR > UINT_MAX ->
      buffer_max_ops buffer' = buffer_max_ops buffer)
  (* nothing else moves, and the pipeline goes on either way *)
  /\ buffer_info buffer' = buffer_info buffer
  /\ buffer_direction buffer' = buffer_direction buffer
  /\ (forall c s,
        rb_ot_shape_internal c s
        = rb_ot_shape_run c
            (on_buffer rb_ot_shape_set_limits
               (on_buffer (rb_buffer_set_scratch_flags RB_BUFFER_SCRATCH_FLAG_DEFAULT) s))).
Proof.
  intros Hsound Hlen HlenF HlenM HopsF HopsM length buffer'.
  assert (Hlength : 0 <= length <= UINT_MAX) by (subst length; lia).
  assert (Hcap : forall size floor cap,
            0 <= size <= UINT_MAX -> 0 <= floor <= UINT_MAX ->
            let cap' := if rb_unsigned_mul_overflows length size then cap
                        else Z.max ((length * size) mod 2 ^ 32) (floor mod 2 ^ 32) in
            (rb_unsigned_mul_overflows length size = false -> cap' = Z.max (length * size) floor)
            /\ (rb_unsigned_mul_overflows length size = true -> cap' = cap)
            /\ (length * size > UINT_MAX -> cap' = cap)).
  { intros size floor cap Hsize Hfloor cap'. subst cap'.
    destruct (rb_unsigned_mul_overflows length size) eqn:E.
    - repeat split; [discriminate|reflexivity..].
    - pose proof (Hsound length size Hlength Hsize E) as Hfits.
      repeat split; [|discriminate|lia].
      intros _. unfold UINT_MAX in *.
      rewrite !Z.mod_small by nia. reflexivity. }
  destruct (set_limits_caps buffer) as (Hl & Ho). fold length buffer' in Hl, Ho.
  destruct (set_limits_frame buffer) as (Hi & _ & Hd & _). fold buffer' in Hi, Hd.
  clearbody buffer'. rewrite Hl, Ho.
  destruct (Hcap RB_BUFFER_MAX_LEN_FACTOR RB_BUFFER_MAX_LEN_MIN (buffer_max_len buffer)
              HlenF HlenM) as (L1 & L2 & L3).
  destruct (Hcap RB_BUFFER_MAX_OPS_FACTOR RB_BUFFER_MAX_OPS_MIN (buffer_max_ops buffer)
              HopsF HopsM) as (O1 & O2 & O3).
  repeat split; try assumption.
Qed.

(** *** Fractions *)

Lemma fraction_start_spec info i :
  let start := fraction_start info i in
  (start <= i)%nat
  /\ (forall j, (start <= j < i)%nat -> decimal_at info j = true)
  /\ (start = O \/ decimal_at info (start - 1) = false).
Proof.
  induction i as [|i IH]; simpl.
  - repeat split; [lia|intros; lia|now left].
  - destruct (decimal_at info i) eqn:Hi.
    + destruct IH as (Hle & Hall & Hstop). repeat split; [lia| |exact Hstop].
      intros j Hj. destruct (decide (j = i)) as [->|]; [exact Hi|apply Hall; lia].
    + repeat split; [lia|intros; lia|].
      right. now replace (S i - 1)%nat with i by lia.
Qed.

Lemma fraction_end_from_spec fuel info count end_ :
  (count - end_ <= fuel)%nat -> (end_ <= count)%nat ->
  let stop := fraction_end_from fuel info count end_ in
  (end_ <= stop <= count)%nat
  /\ (forall j, (end_ <= j < stop)%nat -> decimal_at info j = true)
  /\ (stop = count \/ decimal_at info stop = false).
Proof.
  revert end_. induction fuel as [|fuel IH]; intros end_ Hfuel Hle; simpl.
  - repeat split; [lia..|intros; lia|left; lia].
  - destruct (Nat.ltb_spec end_ count) as [Hlt|Hge]; simpl.
    + destruct (decimal_at info end_) eqn:Hd.
      * destruct (IH (S end_)) as (Hb & Hall & Hstop); [lia..|].
        repeat split; [lia..| |exact Hstop].
        intros j Hj. destruct (decide (j = end_)) as [->|]; [exact Hd|apply Hall; lia].
      * repeat split; [lia..|intros; lia|now right].
    + repeat split; [lia..|intros; lia|left; lia].
Qed.

Lemma fraction_end_spec info count i :
  (i < count)%nat ->
  let stop := fraction_end info count (i + 1) in
  (i < stop <= count)%nat
  /\ (forall j, (i < j < stop)%nat -> decimal_at info j = true)
  /\ (stop = count \/ decimal_at info stop = false).
Proof.
  intros Hi. unfold fraction_end.
  destruct (fraction_end_from_spec (count - (i + 1)) info count (i + 1)) as (Hb & Hall & Hstop);
    [lia..|].
  repeat split; [lia..| |exact Hstop].
  intros j Hj. apply Hall. lia.
Qed.





End ShapeFacts.

(** ** The properties at work in the concrete world *)

Section Examples.
#[local] Existing Instance example_types.
#[local] Existing Instance example_collaborators.



Lemma compile_apply_kerx_witness :
  let planner := rb_ot_shape_planner_new example_aat_face example_arabic_props in
  plan_apply_kerx example_zeroed_plan = false
  /\ plan_apply_kerx (rb_ot_shape_planner_compile planner example_zeroed_plan []) = true.
Proof.
  intros planner. split; [reflexivity|].
  exact (proj1 (compile_apply_kerx_iff_aat_positioning planner example_zeroed_plan []
                  eq_refl)).
Defined.

(** Vertical text on the AAT face, which has GSUB: no morx. *)
Lemma morx_decision_witness :
  RB_DIRECTION_IS_HORIZONTAL (props_direction example_ttb_props) = false
  /\ rb_ot_layout_has_substitution example_aat_face = true
  /\ plan_apply_morx (example_plan example_aat_face example_ttb_props) = false.
Proof.
  split; [reflexivity|]. split; [reflexivity|].
  exact (proj2 (proj2 (morx_decision example_zeroed_plan example_aat_face example_ttb_props
                         [] []))
           eq_refl eq_refl).
Defined.

(** The face with nothing but a [kern] table: marks are positioned by the
    fallback, so the adjustment is on. *)
Lemma compile_mark_positioning_witness :
  let planner :=
    rb_ot_shape_collect_features (rb_ot_shape_planner_new example_kern_face example_ltr_props) [] in
  let plan := rb_ot_shape_planner_compile planner example_zeroed_plan [] in
  plan_fallback_mark_positioning plan = true
  /\ plan_adjust_mark_positioning_when_zeroing plan = true.
Proof.
  intros planner plan.
  assert (Hfallback : plan_fallback_mark_positioning plan = true) by (vm_compute; reflexivity).
  split; [exact Hfallback|].
  destruct (compile_mark_positioning planner example_zeroed_plan []) as (_ & _ & I4 & _).
  exact (I4 Hfallback).
Defined.

(** Arabic on the AAT face: morx applies, the shaper is reconsidered, and
    the plan's shaper no longer has the flag the planner recorded. *)
Example fallback_position_of_the_categorized_shaper :
  let planner := rb_ot_shape_planner_new example_aat_face example_arabic_props in
  planner_script_fallback_mark_positioning planner = true
  /\ rb_ot_complex_shaper_get_fallback_position (planner_shaper planner) = false.
Proof. split; reflexivity. Qed.

(** Arabic on the AAT face: the dumber shaper has no data, [init0] fails
    and gives back what it took. *)
Lemma init0_fails_witness :
  let compiled := init0_compiled example_zeroed_plan example_aat_face example_arabic_props [] [] in
  let result :=
    rb_ot_shape_plan_init0 example_zeroed_plan example_aat_face example_arabic_props [] [] in
  rb_ot_complex_shaper_data_create (plan_shaper compiled) compiled = None
  /\ fst (fst result) = false
  /\ held the_ot_map (snd result) = false
  /\ held the_aat_map (snd result) = false.
Proof.
  intros compiled result.
  assert (Hfails : rb_ot_complex_shaper_data_create (plan_shaper compiled) compiled = None)
    by (vm_compute; reflexivity).
  destruct (init0_fails_iff_data_create_fails example_zeroed_plan example_aat_face
              example_arabic_props [] []) as (Hiff & Hfail & _).
  pose proof (proj2 Hiff Hfails) as Hok.
  destruct (Hfail Hok) as (_ & Hmap & Haat & _).
  repeat split; assumption.
Defined.

(** Latin on the OpenType face: [init0] succeeds and the plan owns its
    maps and data. *)
Example init0_succeeds :
  let result :=
    rb_ot_shape_plan_init0 example_zeroed_plan example_ot_face example_ltr_props [] [] in
  fst (fst result) = true
  /\ snd result = [call_rb_ot_map_create; call_aat_map_init; call_rb_ot_map_builder_create;
                   call_rb_ot_complex_shaper_data_create true;
                   call_rb_ot_map_builder_destroy].
Proof. vm_compute. split; reflexivity. Qed.

(** The calls the map builder receives for right-to-left Arabic with one
    ranged user feature. *)
Example collect_features_arabic :
  builder_calls
    (planner_map
       (rb_ot_shape_collect_features
          (rb_ot_shape_planner_new example_ot_face example_arabic_props)
          [mk_feature (RB_TAG "s" "m" "c" "p") 1 1 3]))
  = spec_features_before_shaper RB_DIRECTION_RTL
    ++ [add_feature (RB_TAG "i" "n" "i" "t") F_NONE 1]
    ++ spec_features_after_shaper RB_DIRECTION_RTL []
    ++ [add_feature (RB_TAG "s" "m" "c" "p") F_NONE 1].
Proof. vm_compute. reflexivity. Qed.


Lemma example_mul_overflows_sound (count size : Z) :
  0 <= count <= UINT_MAX -> 0 <= size <= UINT_MAX ->
  example_mul_overflows count size = false -> count * size <= UINT_MAX.
Proof.
  unfold example_mul_overflows. intros Hcount Hsize Hno.
  destruct (Z.ltb_spec 0 size) as [Hpos|Hzero]; simpl in Hno.
  - apply Z.leb_gt in Hno.
    pose proof (Z.mul_div_le UINT_MAX size Hpos). nia.
  - nia.
Qed.

(** Three glyphs: both products fit, both limits are the minima. *)
Lemma shape_set_limits_witness :
  let buffer := example_buffer RB_DIRECTION_LTR example_fraction_text in
  let buffer' := rb_ot_shape_set_limits buffer in
  rb_unsigned_mul_overflows 3 RB_BUFFER_MAX_LEN_FACTOR = false
  /\ buffer_max_len buffer' = 8192
  /\ buffer_max_ops buffer' = 1024.
Proof.
  intros buffer buffer'.
  assert (Hrange : forall z, 0 <= z <= 8192 -> 0 <= z <= UINT_MAX)
    by (unfold UINT_MAX; lia).
  destruct (shape_set_limits_spec (H0 := example_collaborators) buffer
              example_mul_overflows_sound
              ltac:(vm_compute; discriminate)
              (Hrange 32 ltac:(lia)) (Hrange 8192 ltac:(lia))
              (Hrange 64 ltac:(lia)) (Hrange 1024 ltac:(lia)))
    as (Hlen & _ & _ & Hops & _).
  split; [reflexivity|]. split; [exact (Hlen eq_refl) | exact (Hops eq_refl)].
Defined.

(** With a factor of [2^31] the product of three glyphs overflows; the
    check fails and [max_len] stays where the buffer had it. *)
Example shape_set_limits_overflow :
  let buffer := example_buffer RB_DIRECTION_LTR example_fraction_text in
  3 * 2 ^ 31 > UINT_MAX
  /\ buffer_max_len
       (@rb_ot_shape_set_limits example_types (example_collaborators_with (2 ^ 31) 64) buffer)
     = buffer_max_len buffer.
Proof. split; reflexivity. Qed.


Example setup_masks_fraction_half :
  let c := example_context example_ot_face example_ltr_props in
  let s' := rb_ot_shape_setup_masks_fraction c
              (example_state RB_DIRECTION_LTR example_fraction_text) in
  info_mask <$> buffer_info (st_buffer s') = [Z.lor 4 2; 2; Z.lor 2 8]
  /\ st_calls s' = [rb_buffer_unsafe_to_break 0 3].
Proof. vm_compute. split; reflexivity. Qed.

(** "(a", right to left: the face has a glyph for ")", so the bracket is
    mirrored; the letter gets the [rtlm] mask. *)
Lemma rotate_chars_witness :
  let c := example_context example_ot_face example_arabic_props in
  let s := example_state RB_DIRECTION_RTL example_bracket_text in
  RB_DIRECTION_IS_BACKWARD (c_target_direction c) = true
  /\ Forall2 (rotated_backward example_ot_face (plan_rtlm_mask (c_plan c)))
             example_bracket_text
             (buffer_info (st_buffer (rb_ot_rotate_chars c s))).
Proof.
  intros c s. split; [reflexivity|].
  destruct (rotate_chars_spec c s) as (_ & _ & _ & _ & _ & _ & mirrored & Hb & _ & _ & Hv).
  rewrite (Hv (or_introl eq_refl)).
  exact (Hb eq_refl).
Defined.

Example rotate_chars_bracket :
  let c := example_context example_ot_face example_arabic_props in
  let s' := rb_ot_rotate_chars c (example_state RB_DIRECTION_RTL example_bracket_text) in
  (fun g => (info_codepoint g, info_mask g)) <$> buffer_info (st_buffer s')
  = [(0x29, 0); (0x61, 16)].
Proof. vm_compute. reflexivity. Qed.

(** Bottom to top: [rb_ensure_native_direction] turns the buffer top to
    bottom on the way, and the direction is back at the end. *)
Example shape_direction_changes_on_the_way :
  let plan := example_plan example_ot_face example_ttb_props in
  let c := @mk_context example_types plan example_ot_face [] RB_DIRECTION_BTT in
  let s := example_state RB_DIRECTION_BTT example_bracket_text in
  buffer_direction (st_buffer (extern c rb_ensure_native_direction s)) = RB_DIRECTION_TTB
  /\ buffer_direction
       (st_buffer (rb_ot_shape plan example_ot_face (st_buffer s) []))
     = RB_DIRECTION_BTT.
Proof. vm_compute. split; reflexivity. Qed.

End Examples.

(** * The calls of a run *)

(** ** The calls into collaborators, function by function *)

Section Calls.
Context `{Collaborators}.

Lemma calls_extern_call plan face call s :
  st_calls (extern_call plan face call s) = st_calls s ++ [call].
Proof. reflexivity. Qed.

Lemma calls_extern c call s : st_calls (extern c call s) = st_calls s ++ [call].
Proof. reflexivity. Qed.

Lemma calls_on_buffer f s : st_calls (on_buffer f s) = st_calls s.
Proof. reflexivity. Qed.

Lemma filter_one (p : rb_extern_t -> bool) call :
  List.filter p [call] = if p call then [call] else [].
Proof. reflexivity. Qed.

Lemma filter_split (p : rb_extern_t -> bool) a b l :
  List.filter p (a :: b :: l) = List.filter p [a] ++ List.filter p (b :: l).
Proof. simpl. now destruct (p a). Qed.

Lemma calls_substitute plan face s :
  st_calls (rb_ot_shape_plan_substitute plan face s) = st_calls s ++ [substitution_backend plan].
Proof.
  unfold rb_ot_shape_plan_substitute, substitution_backend.
  destruct (plan_apply_morx plan); reflexivity.
Qed.

Lemma calls_position plan face s :
  st_calls (rb_ot_shape_plan_position plan face s)
  = st_calls s ++ [positioning_backend plan]
    ++ (if plan_apply_trak plan then [rb_aat_layout_track] else []).
Proof. apply position_calls. Qed.

(** The fraction loop calls nothing but [rb_buffer_unsafe_to_break]. *)
Lemma fraction_loop_filter (p : rb_extern_t -> bool) fuel c pre_mask post_mask count i s :
  static p ->
  List.filter p (st_calls (fraction_loop fuel c pre_mask post_mask count i s))
  = List.filter p (st_calls s).
Proof.
  intros Hp. revert i s. induction fuel as [|fuel IH]; intros i s; simpl; [reflexivity|].
  destruct (i <? count)%nat; [|reflexivity].
  destruct (codepoint_at _ i =? 8260); [|apply IH].
  unfold fraction_at. cbv zeta. rewrite IH.
  rewrite !calls_on_buffer, calls_extern, List.filter_app, filter_one.
  rewrite Hp by reflexivity. apply app_nil_r.
Qed.

Lemma setup_masks_fraction_filter (p : rb_extern_t -> bool) c s :
  static p ->
  List.filter p (st_calls (rb_ot_shape_setup_masks_fraction c s)) = List.filter p (st_calls s).
Proof.
  intros Hp. unfold rb_ot_shape_setup_masks_fraction.
  destruct (_ || _); [reflexivity|].
  destruct (RB_DIRECTION_IS_FORWARD _); apply fraction_loop_filter, Hp.
Qed.

Lemma user_features_calls c map l s :
  st_calls
    (foldl (fun s feature =>
              if negb (feature_is_global feature) then
                let '(mask, shift) := rb_ot_map_get_mask map (feature_tag feature) in
                extern c (rb_buffer_set_masks
                            (Z.shiftl (feature_value feature) shift mod 2 ^ 32) mask
                            (feature_start feature) (feature_end feature)) s
              else s)
           s l)
  = st_calls s
    ++ (user_feature_set_masks map
          <$> List.filter (fun feature => negb (feature_is_global feature)) l).
Proof.
  revert s. induction l as [|feature l IH]; intros s; simpl.
  - now rewrite app_nil_r.
  - rewrite IH. destruct (feature_is_global feature); simpl; [reflexivity|].
    unfold user_feature_set_masks.
    destruct (rb_ot_map_get_mask map (feature_tag feature)) as [mask shift].
    rewrite calls_extern, <- app_assoc. reflexivity.
Qed.

Lemma setup_masks_calls c s :
  st_calls (rb_ot_shape_setup_masks c s)
  = st_calls (rb_ot_shape_setup_masks_fraction c s)
    ++ [rb_ot_complex_shaper_setup_masks]
    ++ (user_feature_set_masks (plan_map (c_plan c))
          <$> List.filter (fun feature => negb (feature_is_global feature)) (c_user_features c)).
Proof.
  unfold rb_ot_shape_setup_masks. cbv zeta.
  rewrite user_features_calls, calls_extern, <- app_assoc. reflexivity.
Qed.

Lemma filter_static_fmap (p : rb_extern_t -> bool) {A} (f : A -> rb_extern_t) l :
  (forall x, p (f x) = false) -> List.filter p (f <$> l) = [].
Proof.
  intros Hf. induction l as [|x l IH]; simpl; [reflexivity|].
  now rewrite Hf.
Qed.

Lemma setup_masks_filter (p : rb_extern_t -> bool) c s :
  static p ->
  List.filter p (st_calls (rb_ot_shape_setup_masks c s))
  = List.filter p (st_calls s) ++ List.filter p [rb_ot_complex_shaper_setup_masks].
Proof.
  intros Hp. rewrite setup_masks_calls, !List.filter_app.
  rewrite setup_masks_fraction_filter by exact Hp.
  rewrite (filter_static_fmap p) by (intros; apply Hp; reflexivity).
  now rewrite app_nil_r.
Qed.


Lemma filter_none (p : rb_extern_t -> bool) l :
  Forall (fun call => p call = false) l -> List.filter p l = [].
Proof.
  induction 1 as [|call l Hcall _ IH]; simpl; [reflexivity|]. now rewrite Hcall.
Qed.

(** One [rb_face_subtract_glyph_v_origin] per index, in order. *)
Lemma v_origin_loop_calls c n lo s :
  exists codepoints : list rb_codepoint_t,
    length codepoints = n
    /\ st_calls
         (for_range n lo
            (fun i s => extern c (rb_face_subtract_glyph_v_origin
                                    i (codepoint_at (buffer_info (st_buffer s)) i)) s) s)
       = st_calls s ++ zip_with rb_face_subtract_glyph_v_origin (seq lo n) codepoints.
Proof.
  revert lo s. induction n as [|n IH]; intros lo s; simpl.
  - exists []. split; [reflexivity|]. now rewrite app_nil_r.
  - destruct (IH (S lo) (extern c (rb_face_subtract_glyph_v_origin
                                     lo (codepoint_at (buffer_info (st_buffer s)) lo)) s))
      as (codepoints & Hlen & Hcalls).
    exists (codepoint_at (buffer_info (st_buffer s)) lo :: codepoints).
    split; [simpl; now rewrite Hlen|].
    rewrite Hcalls, calls_extern, <- app_assoc. reflexivity.
Qed.

Lemma position_default_calls c s :
  let direction := rb_buffer_get_direction (st_buffer s) in
  let count := rb_buffer_get_length (st_buffer s) in
  exists (codepoints : list rb_codepoint_t) (spaces : list rb_extern_t),
    length codepoints = count
    /\ (spaces = [] \/ spaces = [rb_ot_shape_fallback_spaces])
    /\ st_calls (rb_ot_position_default c s)
       = st_calls s
         ++ (if RB_DIRECTION_IS_HORIZONTAL direction
             then [rb_face_get_glyph_h_advances count]
             else rb_face_get_glyph_v_advances count
                  :: zip_with rb_face_subtract_glyph_v_origin (seq 0 count) codepoints)
         ++ spaces.
Proof.
  intros direction count. unfold rb_ot_position_default. cbv zeta. fold direction count.
  destruct (RB_DIRECTION_IS_HORIZONTAL direction).
  - exists (replicate count 0).
    destruct (to_bool _).
    + exists [rb_ot_shape_fallback_spaces].
      split; [apply length_replicate|]. split; [now right|].
      rewrite !calls_extern, <- app_assoc. reflexivity.
    + exists []. split; [apply length_replicate|]. split; [now left|].
      rewrite calls_extern, app_nil_r. reflexivity.
  - unfold for_loop. rewrite Nat.sub_0_r.
    destruct (v_origin_loop_calls c count 0
                (extern c (rb_face_get_glyph_v_advances count) s))
      as (codepoints & Hlen & Hcalls).
    exists codepoints.
    destruct (to_bool _).
    + exists [rb_ot_shape_fallback_spaces].
      split; [exact Hlen|]. split; [now right|].
      rewrite calls_extern, Hcalls, calls_extern, <- !app_assoc. reflexivity.
    + exists []. split; [exact Hlen|]. split; [now left|].
      rewrite Hcalls, calls_extern, <- !app_assoc, app_nil_r. reflexivity.
Qed.

Lemma Forall_zip_with_v_origin (P : rb_extern_t -> Prop) l codepoints :
  (forall i u, P (rb_face_subtract_glyph_v_origin i u)) ->
  Forall P (zip_with rb_face_subtract_glyph_v_origin l codepoints).
Proof.
  intros HP. revert codepoints.
  induction l as [|i l IH]; intros [|u codepoints]; simpl; constructor; auto.
Qed.

Lemma position_default_filter (p : rb_extern_t -> bool) c s :
  static p ->
  List.filter p (st_calls (rb_ot_position_default c s)) = List.filter p (st_calls s).
Proof.
  intros Hp.
  destruct (position_default_calls c s) as (codepoints & spaces & _ & Hspaces & ->).
  rewrite !List.filter_app.
  assert (Hs : List.filter p spaces = []).
  { destruct Hspaces as [-> | ->]; [reflexivity|]. simpl. now rewrite Hp. }
  rewrite Hs, app_nil_r.
  destruct (RB_DIRECTION_IS_HORIZONTAL _); simpl.
  - rewrite Hp by reflexivity. apply app_nil_r.
  - rewrite Hp by reflexivity.
    rewrite (filter_none p (zip_with _ _ _)); [apply app_nil_r|].
    apply Forall_zip_with_v_origin. intros. apply Hp. reflexivity.
Qed.

Lemma position_complex_calls_eq c s :
  st_calls (rb_ot_position_complex c s)
  = st_calls s
    ++ position_complex_calls (c_plan c)
         (plan_adjust_mark_positioning_when_zeroing (c_plan c)
          && RB_DIRECTION_IS_FORWARD (rb_buffer_get_direction (st_buffer s))).
Proof.
  unfold rb_ot_position_complex, position_complex_calls. cbv zeta.
  generalize (plan_adjust_mark_positioning_when_zeroing (c_plan c)
              && RB_DIRECTION_IS_FORWARD (rb_buffer_get_direction (st_buffer s))).
  intros adjust.
  destruct (plan_zero_marks (c_plan c)),
    (rb_ot_complex_shaper_get_zero_width_marks_mode (plan_shaper (c_plan c))),
    (plan_apply_morx (c_plan c)), (plan_fallback_mark_positioning (c_plan c));
    repeat progress rewrite ?calls_extern, ?calls_position;
    rewrite <- ?app_assoc; reflexivity.
Qed.


Lemma position_complex_filter (p : rb_extern_t -> bool) c s :
  static p ->
  List.filter p (st_calls (rb_ot_position_complex c s))
  = List.filter p (st_calls s) ++ List.filter p (tail (decided_position (c_plan c))).
Proof.
  intros Hp. rewrite position_complex_calls_eq, List.filter_app. f_equal.
  generalize (plan_adjust_mark_positioning_when_zeroing (c_plan c)
              && RB_DIRECTION_IS_FORWARD (rb_buffer_get_direction (st_buffer s))).
  intros adjust.
  unfold position_complex_calls, decided_position.
  pose proof (Hp (rb_zero_mark_widths_by_gdef adjust) eq_refl) as Hzero.
  pose proof (Hp (rb_ot_shape_fallback_mark_position adjust) eq_refl) as Hmark.
  destruct (plan_zero_marks (c_plan c)),
    (rb_ot_complex_shaper_get_zero_width_marks_mode (plan_shaper (c_plan c))),
    (plan_fallback_mark_positioning (c_plan c)),
    (plan_apply_trak (c_plan c)), (plan_apply_morx (c_plan c));
    cbn [List.filter tail app]; rewrite ?Hzero, ?Hmark; reflexivity.
Qed.

Lemma position_filter (p : rb_extern_t -> bool) c s :
  static p ->
  List.filter p (st_calls (rb_ot_position c s))
  = List.filter p (st_calls s) ++ List.filter p (decided_position (c_plan c)).
Proof.
  intros Hp. unfold rb_ot_position. cbv zeta.
  assert (Hmain :
    List.filter p (st_calls (rb_ot_position_complex c
                     (rb_ot_position_default c (extern c rb_buffer_clear_positions s))))
    = List.filter p (st_calls s) ++ List.filter p (decided_position (c_plan c))).
  { rewrite position_complex_filter, position_default_filter by exact Hp.
    rewrite calls_extern, List.filter_app, <- app_assoc, <- List.filter_app. reflexivity. }
  destruct (RB_DIRECTION_IS_BACKWARD _); [|exact Hmain].
  rewrite calls_extern, List.filter_app, Hmain. cbn [List.filter].
  rewrite (Hp rb_buffer_reverse eq_refl). apply app_nil_r.
Qed.

Lemma substitute_pre_filter (p : rb_extern_t -> bool) c s :
  static p ->
  List.filter p (st_calls (rb_ot_substitute_pre c s))
  = List.filter p (st_calls s) ++ List.filter p (decided_substitute_pre (c_plan c)).
Proof.
  intros Hp.
  unfold rb_ot_substitute_pre, rb_ot_substitute_complex, rb_ot_substitute_default,
    decided_substitute_pre.
  cbv zeta.
  destruct (plan_fallback_mark_positioning (c_plan c)),
    (plan_fallback_glyph_classes (c_plan c));
    repeat progress rewrite ?calls_substitute, ?calls_extern, ?List.filter_app,
      ?(setup_masks_filter p _ _ Hp), ?calls_on_buffer;
    unfold rb_ot_rotate_chars; rewrite ?calls_on_buffer;
    cbn [app]; rewrite ?filter_split, <- ?app_assoc; reflexivity.
Qed.

Lemma substitute_post_filter (p : rb_extern_t -> bool) c s :
  List.filter p (st_calls (rb_ot_substitute_post c s))
  = List.filter p (st_calls s) ++ List.filter p (decided_substitute_post (c_plan c)).
Proof.
  unfold rb_ot_substitute_post, decided_substitute_post. cbv zeta.
  destruct (plan_apply_morx (c_plan c));
    rewrite !calls_extern, !List.filter_app; cbn [app];
    rewrite ?filter_split, <- ?app_assoc; reflexivity.
Qed.

Lemma c_plan_set_target_direction direction c :
  c_plan (set_c_target_direction direction c) = c_plan c.
Proof. reflexivity. Qed.

(** The plan-decided calls of a whole run, through any selection that
    takes no buffer-dependent call. *)
Lemma shape_internal_filter (p : rb_extern_t -> bool) c s :
  static p ->
  List.filter p (st_calls (rb_ot_shape_internal c s))
  = List.filter p (st_calls s) ++ List.filter p (plan_decided_calls (c_plan c)).
Proof.
  intros Hp. unfold rb_ot_shape_internal, rb_ot_shape_run, rb_ot_shape_initialize_masks.
  cbv zeta.
  rewrite !calls_on_buffer, calls_extern, List.filter_app.
  rewrite substitute_post_filter, position_filter, substitute_pre_filter by exact Hp.
  rewrite !c_plan_set_target_direction.
  rewrite !calls_extern, !calls_on_buffer.
  unfold plan_decided_calls.
  change (c_plan (set_c_target_direction _ c)) with (c_plan c).
  rewrite !List.filter_app. cbn [app]. rewrite ?filter_split, <- ?app_assoc. reflexivity.
Qed.

End Calls.

(** ** Whole runs *)

Section RunFacts.
Context `{Collaborators}.

Lemma filter_all (p : rb_extern_t -> bool) l :
  Forall (fun call => p call = true) l -> List.filter p l = l.
Proof.
  induction 1 as [|call l Hcall _ IH]; simpl; [reflexivity|]. now rewrite Hcall, IH.
Qed.

Lemma static_not_dynamic : static (fun call => negb (is_dynamic call)).
Proof. intros call Hcall. now rewrite Hcall. Qed.

Lemma static_is_backend : static is_backend.
Proof. intros call Hcall. destruct call; try discriminate; reflexivity. Qed.

Lemma static_is_morx_routine : static is_morx_routine.
Proof. intros call Hcall. destruct call; try discriminate; reflexivity. Qed.

Lemma static_is_kerx_routine : static is_kerx_routine.
Proof. intros call Hcall. destruct call; try discriminate; reflexivity. Qed.

Lemma static_is_trak_routine : static is_trak_routine.
Proof. intros call Hcall. destruct call; try discriminate; reflexivity. Qed.

Lemma shape_filter (p : rb_extern_t -> bool) plan face buffer features :
  static p ->
  List.filter p (st_calls (rb_ot_shape plan face buffer features))
  = List.filter p (plan_decided_calls plan).
Proof.
  intros Hp. unfold rb_ot_shape. cbv zeta.
  rewrite shape_internal_filter by exact Hp. reflexivity.
Qed.

Lemma plan_decided_calls_not_dynamic plan :
  List.filter (fun call => negb (is_dynamic call)) (plan_decided_calls plan)
  = plan_decided_calls plan.
Proof.
  unfold plan_decided_calls, decided_substitute_pre, decided_position,
    decided_substitute_post, substitution_backend, positioning_backend.
  destruct (plan_fallback_mark_positioning plan), (plan_fallback_glyph_classes plan),
    (plan_apply_morx plan), (plan_apply_gpos plan), (plan_apply_kerx plan),
    (plan_apply_kern plan), (plan_apply_trak plan); reflexivity.
Qed.

(** X1. Whatever the buffer and the user's features, one run of
    [rb_ot_shape] makes the collaborator calls the plan decides in one
    fixed order: clear output, reset masks to the map's global mask,
    Unicode properties, dotted circle, clusters, native direction, the
    shaper's text preprocessing; then substitution (normalize, the
    shaper's mask setup, the optional mark recategorization, glyph
    mapping, substitute start, the optional glyph-class synthesis, the
    substitution backend); then positioning; then the post-substitution
    steps and the flag propagation. The calls left out are those that
    depend on the buffer or on the ranged user features. *)
Theorem shape_calls_decided_by_plan (plan : rb_ot_shape_plan_t) (face : rb_face_t)
  (buffer : rb_buffer_t) (features : list rb_feature_t) :
  List.filter (fun call => negb (is_dynamic call))
              (st_calls (rb_ot_shape plan face buffer features))
  = plan_decided_calls plan.
Proof.
  rewrite shape_filter by apply static_not_dynamic.
  apply plan_decided_calls_not_dynamic.
Qed.

(** X2. One run of [rb_ot_shape] runs exactly one substitution backend
    (morx or GSUB) and exactly one positioning backend (GPOS, kerx, kern
    or the fallback kerning), substitution first. *)
Theorem shape_runs_one_backend_each (plan : rb_ot_shape_plan_t) (face : rb_face_t)
  (buffer : rb_buffer_t) (features : list rb_feature_t) :
  List.filter is_backend (st_calls (rb_ot_shape plan face buffer features))
  = [substitution_backend plan; positioning_backend plan].
Proof.
  rewrite shape_filter by apply static_is_backend.
  unfold plan_decided_calls, decided_substitute_pre, decided_position,
    decided_substitute_post, substitution_backend, positioning_backend.
  destruct (plan_fallback_mark_positioning plan), (plan_fallback_glyph_classes plan),
    (plan_apply_morx plan), (plan_apply_gpos plan), (plan_apply_kerx plan),
    (plan_apply_kern plan), (plan_apply_trak plan); reflexivity.
Qed.

(** X3. What a run calls of the AAT layout routines is decided by the
    plan's flags alone. With [apply_morx] it runs morx substitution, the
    zeroing of deleted glyphs' widths and then their removal, in this
    order, and none of the three without it; it runs kerx positioning when
    [apply_kerx] is set and [apply_gpos] is not; it runs tracking exactly
    when [apply_trak] is set. *)
Theorem shape_aat_routines (plan : rb_ot_shape_plan_t) (face : rb_face_t)
  (buffer : rb_buffer_t) (features : list rb_feature_t) :
  let calls := st_calls (rb_ot_shape plan face buffer features) in
  List.filter is_morx_routine calls
  = (if plan_apply_morx plan
     then [rb_aat_layout_substitute; rb_aat_layout_zero_width_deleted_glyphs;
           rb_aat_layout_remove_deleted_glyphs]
     else [])
  /\ List.filter is_kerx_routine calls
     = (if negb (plan_apply_gpos plan) && plan_apply_kerx plan
        then [rb_aat_layout_position] else [])
  /\ List.filter is_trak_routine calls
     = (if plan_apply_trak plan then [rb_aat_layout_track] else []).
Proof.
  intros calls. subst calls.
  rewrite (shape_filter is_morx_routine) by apply static_is_morx_routine.
  rewrite (shape_filter is_kerx_routine) by apply static_is_kerx_routine.
  rewrite (shape_filter is_trak_routine) by apply static_is_trak_routine.
  unfold plan_decided_calls, decided_substitute_pre, decided_position,
    decided_substitute_post, substitution_backend, positioning_backend.
  destruct (plan_fallback_mark_positioning plan), (plan_fallback_glyph_classes plan),
    (plan_apply_morx plan), (plan_apply_gpos plan), (plan_apply_kerx plan),
    (plan_apply_kern plan), (plan_apply_trak plan); repeat split; reflexivity.
Qed.

End RunFacts.

(** ** What [compile] and [init0] leave on the plan *)

Section PlanFacts.
Context `{Collaborators}.

Lemma compile_props planner plan vi :
  plan_props (rb_ot_shape_planner_compile planner plan vi) = planner_props planner.
Proof.
  transitivity (plan_props (compile_backends planner (compile_masks planner plan vi)));
    [reflexivity|].
  rewrite compile_backends_keeps by reflexivity.
  unfold compile_masks. destruct (planner_apply_morx planner); reflexivity.
Qed.

Lemma compile_shaper planner plan vi :
  plan_shaper (rb_ot_shape_planner_compile planner plan vi) = planner_shaper planner.
Proof.
  transitivity (plan_shaper (compile_backends planner (compile_masks planner plan vi)));
    [reflexivity|].
  rewrite compile_backends_keeps by reflexivity.
  unfold compile_masks. destruct (planner_apply_morx planner); reflexivity.
Qed.

Lemma compile_has_gpos_mark planner plan vi :
  let plan' := rb_ot_shape_planner_compile planner plan vi in
  plan_has_gpos_mark plan'
  = to_bool (rb_ot_map_get_1_mask (plan_map plan') (RB_TAG "m" "a" "r" "k")).
Proof. reflexivity. Qed.

Lemma compile_apply_trak planner plan vi :
  let plan' := rb_ot_shape_planner_compile planner plan vi in
  plan_apply_trak plan'
  = to_bool (fst (rb_ot_map_get_mask (plan_map plan') (RB_TAG "t" "r" "a" "k")))
    && rb_aat_layout_has_tracking (planner_face planner).
Proof.
  intros plan'. subst plan'. rewrite compile_map.
  transitivity
    (plan_requested_tracking (compile_backends planner (compile_masks planner plan vi))
     && rb_aat_layout_has_tracking (planner_face planner)); [reflexivity|].
  rewrite compile_backends_keeps by reflexivity.
  unfold compile_masks. destruct (planner_apply_morx planner); reflexivity.
Qed.

Lemma compile_mark_flags planner plan vi :
  let face := planner_face planner in
  let plan' := rb_ot_shape_planner_compile planner plan vi in
  plan_zero_marks plan'
  = planner_script_zero_marks planner && negb (plan_apply_kerx plan')
    && (negb (plan_apply_kern plan') || negb (rb_ot_layout_has_machine_kerning face))
  /\ plan_adjust_mark_positioning_when_zeroing plan'
     = negb (plan_apply_gpos plan') && negb (plan_apply_kerx plan')
       && (negb (plan_apply_kern plan') || negb (rb_ot_layout_has_cross_kerning face))
  /\ plan_fallback_mark_positioning plan'
     = plan_adjust_mark_positioning_when_zeroing plan'
       && planner_script_fallback_mark_positioning planner.
Proof.
  intros face plan'. subst face plan'. unfold rb_ot_shape_planner_compile.
  generalize (compile_backends planner (compile_masks planner plan vi)). intros P.
  repeat split; reflexivity.
Qed.

Lemma init0_compiled_planner this face props user_features variations_index :
  exists planner,
    init0_compiled this face props user_features variations_index
    = rb_ot_shape_planner_compile planner
        (set_plan_aat_map aat_map_init (set_plan_map rb_ot_map_create this)) variations_index
    /\ planner_face planner = face
    /\ planner_props planner = props
    /\ planner_apply_morx planner = rb_apply_morx face props
    /\ planner_shaper planner = planner_shaper (rb_ot_shape_planner_new face props).
Proof.
  eexists. split; [reflexivity|].
  destruct (collect_features_fields (rb_ot_shape_planner_new face props) user_features)
    as (-> & -> & -> & -> & _).
  repeat split; reflexivity.
Qed.

End PlanFacts.

Section PlanTheorems.
Context `{Collaborators}.

Lemma compile_trak_flags planner plan vi :
  let plan' := rb_ot_shape_planner_compile planner plan vi in
  plan_apply_trak plan'
  = plan_requested_tracking plan' && rb_aat_layout_has_tracking (planner_face planner).
Proof.
  intros plan'. subst plan'. unfold rb_ot_shape_planner_compile.
  generalize (compile_backends planner (compile_masks planner plan vi)). intros P.
  reflexivity.
Qed.

(** The backend flags of the plan [init0] returns, for a plan that
    entered with none set. *)
Lemma init0_flags this face props user_features variations_index :
  plan_apply_gpos this = false -> plan_apply_kerx this = false ->
  plan_apply_kern this = false ->
  let plan := snd (fst (rb_ot_shape_plan_init0 this face props user_features variations_index)) in
  exists disable_gpos has_gpos_kern : bool,
    plan_apply_morx plan = rb_apply_morx face props
    /\ plan_apply_kerx plan = rb_aat_layout_has_positioning face
    /\ plan_apply_gpos plan
       = negb (rb_aat_layout_has_positioning face) && negb (rb_apply_morx face props)
         && negb disable_gpos && rb_ot_layout_has_positioning face
    /\ plan_apply_kern plan
       = negb (rb_aat_layout_has_positioning face)
         && (negb has_gpos_kern || negb (plan_apply_gpos plan))
         && rb_ot_layout_has_kerning face
    /\ plan_apply_trak plan
       = plan_requested_tracking plan && rb_aat_layout_has_tracking face
    /\ plan_apply_trak plan
       = to_bool (fst (rb_ot_map_get_mask (plan_map plan) (RB_TAG "t" "r" "a" "k")))
         && rb_aat_layout_has_tracking face.
Proof.
  intros Hg Hx Hk plan. subst plan.
  pose proof (init0_plan_field
    (fun p => (plan_apply_morx p, plan_apply_kerx p, plan_apply_gpos p, plan_apply_kern p,
               plan_apply_trak p, plan_requested_tracking p, plan_map p))
    (fun '(morx, kerx, gpos, kern, trak, tracking, map) =>
       exists disable_gpos has_gpos_kern : bool,
         morx = rb_apply_morx face props
         /\ kerx = rb_aat_layout_has_positioning face
         /\ gpos = negb (rb_aat_layout_has_positioning face) && negb (rb_apply_morx face props)
                   && negb disable_gpos && rb_ot_layout_has_positioning face
         /\ kern = negb (rb_aat_layout_has_positioning face)
                   && (negb has_gpos_kern || negb gpos) && rb_ot_layout_has_kerning face
         /\ trak = tracking && rb_aat_layout_has_tracking face
         /\ trak = to_bool (fst (rb_ot_map_get_mask map (RB_TAG "t" "r" "a" "k")))
                   && rb_aat_layout_has_tracking face)
    this face props user_features variations_index (fun _ _ => eq_refl)) as Hfield.
  cbv beta in Hfield. apply Hfield. clear Hfield.
  destruct (init0_compiled_planner this face props user_features variations_index)
    as (planner & -> & Hface & _ & Hmorx & _).
  set (plan0 := set_plan_aat_map aat_map_init (set_plan_map rb_ot_map_create this)).
  destruct (compile_flags planner plan0 variations_index Hg Hx Hk) as (dg & hgk & Fx & Fg & Fk).
  cbv zeta in Fx, Fg, Fk.
  pose proof (compile_trak_flags planner plan0 variations_index) as Ft.
  pose proof (compile_apply_trak planner plan0 variations_index) as Fm.
  cbv zeta in Ft, Fm.
  rewrite Hface in Fx, Fg, Fk, Ft, Fm. rewrite Hmorx in Fg.
  exists dg, hgk.
  rewrite compile_apply_morx, Hmorx.
  repeat split; assumption.
Qed.

(** X4. On the plan [init0] fills from a plan with no positioning flag
    set, a backend is only elected when the face has its table: morx needs
    the AAT substitution table, kerx the AAT positioning table, GPOS the
    OpenType positioning table, kern the kerning table, tracking the
    tracking table and a request for it. GPOS is never elected together
    with morx or with kerx, nor kern together with kerx. *)
Theorem init0_backends_have_tables (this : rb_ot_shape_plan_t) (face : rb_face_t)
  (props : rb_segment_properties_t) (user_features : list rb_feature_t)
  (variations_index : rb_variations_index_t) :
  plan_apply_gpos this = false -> plan_apply_kerx this = false ->
  plan_apply_kern this = false ->
  let plan := snd (fst (rb_ot_shape_plan_init0 this face props user_features variations_index)) in
  (plan_apply_morx plan = true -> rb_aat_layout_has_substitution face = true)
  /\ (plan_apply_kerx plan = true -> rb_aat_layout_has_positioning face = true)
  /\ (plan_apply_gpos plan = true ->
      rb_ot_layout_has_positioning face = true
      /\ plan_apply_morx plan = false /\ plan_apply_kerx plan = false)
  /\ (plan_apply_kern plan = true ->
      rb_ot_layout_has_kerning face = true /\ plan_apply_kerx plan = false)
  /\ (plan_apply_trak plan = true ->
      rb_aat_layout_has_tracking face = true /\ plan_requested_tracking plan = true).
Proof.
  intros Hg Hx Hk plan.
  destruct (init0_flags this face props user_features variations_index Hg Hx Hk)
    as (dg & hgk & Fm & Fx & Fg & Fk & Ft & _).
  fold plan in Fm, Fx, Fg, Fk, Ft. clearbody plan.
  rewrite Fk, Ft, Fg, Fx, Fm. unfold rb_apply_morx.
  destruct (rb_aat_layout_has_substitution face), (rb_aat_layout_has_positioning face),
    (rb_ot_layout_has_positioning face), (rb_ot_layout_has_kerning face),
    (rb_aat_layout_has_tracking face), (plan_requested_tracking plan), dg, hgk,
    (RB_DIRECTION_IS_HORIZONTAL (props_direction props)),
    (rb_ot_layout_has_substitution face);
    repeat split; (reflexivity || discriminate).
Qed.

Lemma decided_aat_routines plan :
  List.filter is_morx_routine (plan_decided_calls plan)
  = (if plan_apply_morx plan
     then [rb_aat_layout_substitute; rb_aat_layout_zero_width_deleted_glyphs;
           rb_aat_layout_remove_deleted_glyphs]
     else [])
  /\ List.filter is_kerx_routine (plan_decided_calls plan)
     = (if negb (plan_apply_gpos plan) && plan_apply_kerx plan
        then [rb_aat_layout_position] else [])
  /\ List.filter is_trak_routine (plan_decided_calls plan)
     = (if plan_apply_trak plan then [rb_aat_layout_track] else []).
Proof.
  unfold plan_decided_calls, decided_substitute_pre, decided_position,
    decided_substitute_post, substitution_backend, positioning_backend.
  destruct (plan_fallback_mark_positioning plan), (plan_fallback_glyph_classes plan),
    (plan_apply_morx plan), (plan_apply_gpos plan), (plan_apply_kerx plan),
    (plan_apply_kern plan), (plan_apply_trak plan); repeat split; reflexivity.
Qed.

(** X5. [init0] composed with [rb_ot_shape]: for a plan [init0] filled
    from one with no positioning flag set, a run calls the three morx
    routines exactly when [rb_apply_morx] holds of the face and properties
    the plan was made for, kerx positioning exactly when that face has AAT
    positioning, and tracking exactly when the compiled map gives the
    [trak] feature a mask and the face has a tracking table (which is how
    the feature switches tracking off). *)
Theorem init0_then_shape_aat_routines (this : rb_ot_shape_plan_t) (face : rb_face_t)
  (props : rb_segment_properties_t) (user_features : list rb_feature_t)
  (variations_index : rb_variations_index_t)
  (shaped_face : rb_face_t) (buffer : rb_buffer_t) (features : list rb_feature_t) :
  plan_apply_gpos this = false -> plan_apply_kerx this = false ->
  plan_apply_kern this = false ->
  let plan := snd (fst (rb_ot_shape_plan_init0 this face props user_features variations_index)) in
  let calls := st_calls (rb_ot_shape plan shaped_face buffer features) in
  List.filter is_morx_routine calls
  = (if rb_apply_morx face props
     then [rb_aat_layout_substitute; rb_aat_layout_zero_width_deleted_glyphs;
           rb_aat_layout_remove_deleted_glyphs]
     else [])
  /\ List.filter is_kerx_routine calls
     = (if rb_aat_layout_has_positioning face then [rb_aat_layout_position] else [])
  /\ List.filter is_trak_routine calls
     = (if to_bool (fst (rb_ot_map_get_mask (rb_ot_shape_plan_get_ot_map plan)
                           (RB_TAG "t" "r" "a" "k")))
           && rb_aat_layout_has_tracking face
        then [rb_aat_layout_track] else []).
Proof.
  intros Hg Hx Hk plan calls. subst calls.
  destruct (init0_flags this face props user_features variations_index Hg Hx Hk)
    as (dg & hgk & Fm & Fx & Fg & _ & _ & Ft).
  fold plan in Fm, Fx, Fg, Ft. clearbody plan.
  rewrite (shape_filter is_morx_routine) by apply static_is_morx_routine.
  rewrite (shape_filter is_kerx_routine) by apply static_is_kerx_routine.
  rewrite (shape_filter is_trak_routine) by apply static_is_trak_routine.
  destruct (decided_aat_routines plan) as (-> & -> & ->).
  unfold rb_ot_shape_plan_get_ot_map. rewrite <- Ft, Fg, Fx, Fm.
  repeat split.
  destruct (rb_aat_layout_has_positioning face); [reflexivity|].
  now rewrite andb_false_r.
Qed.

(** X6. The plan [init0] returns reports, through its accessors, the
    script and the direction it was built for, the shaper categorized for
    them (reconsidered when morx applies), and a [has_gpos_mark] that tells
    whether its compiled map gives [mark] a mask: neither the user's
    features nor the shaper's hooks change any of these. *)
Theorem init0_plan_reports (this : rb_ot_shape_plan_t) (face : rb_face_t)
  (props : rb_segment_properties_t) (user_features : list rb_feature_t)
  (variations_index : rb_variations_index_t) :
  let plan := snd (fst (rb_ot_shape_plan_init0 this face props user_features variations_index)) in
  let shaper := rb_ot_shape_complex_categorize props (rb_ot_map_builder_create face props) in
  rb_ot_shape_plan_get_script plan = props_script props
  /\ rb_ot_shape_plan_get_direction plan = props_direction props
  /\ rb_ot_shape_plan_get_ot_complex_shaper plan
     = (if rb_apply_morx face props
        then rb_ot_complex_shaper_reconsider_shaper_if_applying_morx shaper
        else shaper)
  /\ rb_ot_shape_plan_has_gpos_mark plan
     = to_bool (rb_ot_map_get_1_mask (rb_ot_shape_plan_get_ot_map plan) (RB_TAG "m" "a" "r" "k")).
Proof.
  intros plan shaper. subst plan.
  unfold rb_ot_shape_plan_get_script, rb_ot_shape_plan_get_direction,
    rb_ot_shape_plan_get_ot_complex_shaper, rb_ot_shape_plan_has_gpos_mark,
    rb_ot_shape_plan_get_ot_map.
  pose proof (init0_plan_field
    (fun p => (plan_props p, plan_shaper p, plan_has_gpos_mark p, plan_map p))
    (fun '(plan_props, plan_shaper, has_gpos_mark, map) =>
       props_script plan_props = props_script props
       /\ props_direction plan_props = props_direction props
       /\ plan_shaper
          = (if rb_apply_morx face props
             then rb_ot_complex_shaper_reconsider_shaper_if_applying_morx shaper
             else shaper)
       /\ has_gpos_mark = to_bool (rb_ot_map_get_1_mask map (RB_TAG "m" "a" "r" "k")))
    this face props user_features variations_index (fun _ _ => eq_refl)) as Hfield.
  cbv beta in Hfield. apply Hfield. clear Hfield.
  destruct (init0_compiled_planner this face props user_features variations_index)
    as (planner & -> & _ & Hprops & _ & Hshaper).
  rewrite compile_props, compile_shaper, Hprops, Hshaper.
  repeat split.
Qed.

(** X7. Over the calls of [init0], whatever its outcome, each resource
    is created only while not held and destroyed only while held. When
    [init0] succeeded the same holds over [init0] followed by [fini], and
    nothing is left held at the end. *)
Theorem init0_fini_bracketed (this : rb_ot_shape_plan_t) (face : rb_face_t)
  (props : rb_segment_properties_t) (user_features : list rb_feature_t)
  (variations_index : rb_variations_index_t) (resource : rb_resource_t) :
  let result := rb_ot_shape_plan_init0 this face props user_features variations_index in
  let calls := snd result in
  used_properly resource calls = true
  /\ (fst (fst result) = true ->
      used_properly resource (calls ++ rb_ot_shape_plan_fini) = true
      /\ held resource (calls ++ rb_ot_shape_plan_fini) = false).
Proof.
  intros result calls. subst calls result.
  rewrite init0_unfold. cbv zeta.
  generalize (init0_compiled this face props user_features variations_index). intros compiled.
  destruct (rb_ot_complex_shaper_data_create (plan_shaper compiled) compiled) as [data|];
    cbn [fst snd].
  - destruct resource; repeat split; reflexivity.
  - destruct resource; (split; [reflexivity|discriminate]).
Qed.

End PlanTheorems.

(** ** Positioning and masks *)

Section PositionTheorems.
Context `{Collaborators}.

Lemma position_complex_calls_marks plan adjust :
  List.filter is_zero_mark_widths (position_complex_calls plan adjust)
  = (if plan_zero_marks plan then
       match rb_ot_complex_shaper_get_zero_width_marks_mode (plan_shaper plan) with
       | RB_OT_SHAPE_ZERO_WIDTH_MARKS_NONE => []
       | _ => [rb_zero_mark_widths_by_gdef adjust]
       end
     else [])
  /\ List.filter is_fallback_mark_position (position_complex_calls plan adjust)
     = (if plan_fallback_mark_positioning plan
        then [rb_ot_shape_fallback_mark_position adjust] else [])
  /\ List.filter is_gpos_routine (position_complex_calls plan adjust)
     = (if plan_apply_gpos plan then [rb_ot_layout_position] else [])
  /\ List.filter is_kerx_routine (position_complex_calls plan adjust)
     = (if negb (plan_apply_gpos plan) && plan_apply_kerx plan
        then [rb_aat_layout_position] else []).
Proof.
  unfold position_complex_calls, positioning_backend.
  destruct (plan_zero_marks plan),
    (rb_ot_complex_shaper_get_zero_width_marks_mode (plan_shaper plan)),
    (plan_fallback_mark_positioning plan), (plan_apply_morx plan), (plan_apply_gpos plan),
    (plan_apply_kerx plan), (plan_apply_kern plan), (plan_apply_trak plan);
    repeat split; reflexivity.
Qed.

(** X8. [rb_ot_position_complex] on a compiled plan. Mark widths are
    zeroed at most once; the zeroing and the fallback mark positioning are
    both passed the one flag computed on entry (the plan's adjustment
    flag, and the buffer direction forward); marks are not zeroed in a run
    that positions with kerx, and the fallback mark positioning is not
    run after GPOS or kerx. *)
Theorem position_complex_mark_handling (planner : rb_ot_shape_planner_t)
  (plan : rb_ot_shape_plan_t) (variations_index : rb_variations_index_t)
  (face : rb_face_t) (user_features : list rb_feature_t) (target : rb_direction_t)
  (s : rb_shape_state_t) :
  let compiled := rb_ot_shape_planner_compile planner plan variations_index in
  let c := mk_context compiled face user_features target in
  let adjust :=
    plan_adjust_mark_positioning_when_zeroing compiled
    && RB_DIRECTION_IS_FORWARD (rb_buffer_get_direction (st_buffer s)) in
  exists new,
    st_calls (rb_ot_position_complex c s) = st_calls s ++ new
    /\ (length (List.filter is_zero_mark_widths new) <= 1)%nat
    /\ (forall call, In call new -> is_zero_mark_widths call = true ->
        call = rb_zero_mark_widths_by_gdef adjust
        /\ List.filter is_kerx_routine new = [])
    /\ (forall call, In call new -> is_fallback_mark_position call = true ->
        call = rb_ot_shape_fallback_mark_position adjust
        /\ List.filter is_gpos_routine new = []
        /\ List.filter is_kerx_routine new = []).
Proof.
  intros compiled c adjust.
  exists (position_complex_calls compiled adjust).
  split; [apply (position_complex_calls_eq c s)|].
  destruct (position_complex_calls_marks compiled adjust) as (Hz & Hf & Hg & Hx).
  destruct (compile_mark_flags planner plan variations_index) as (Fz & Fa & Ff).
  fold compiled in Fz, Fa, Ff.
  rewrite Hg, Hx. split; [|split].
  - rewrite Hz. destruct (plan_zero_marks compiled); [|simpl; lia].
    destruct (rb_ot_complex_shaper_get_zero_width_marks_mode _); simpl; lia.
  - intros call Hin Hcall.
    assert (In call (List.filter is_zero_mark_widths (position_complex_calls compiled adjust)))
      as Hin' by (apply List.filter_In; auto).
    rewrite Hz in Hin'.
    destruct (plan_zero_marks compiled); [|destruct Hin'].
    assert (plan_apply_kerx compiled = false) as ->.
    { destruct (plan_apply_kerx compiled); [|reflexivity].
      now rewrite andb_false_r in Fz. }
    rewrite andb_false_r. split; [|reflexivity].
    destruct (rb_ot_complex_shaper_get_zero_width_marks_mode _);
      simpl in Hin'; intuition congruence.
  - intros call Hin Hcall.
    assert (In call (List.filter is_fallback_mark_position
                       (position_complex_calls compiled adjust)))
      as Hin' by (apply List.filter_In; auto).
    rewrite Hf in Hin'.
    destruct (plan_fallback_mark_positioning compiled); [|destruct Hin'].
    destruct (plan_adjust_mark_positioning_when_zeroing compiled); [|discriminate].
    destruct (plan_apply_gpos compiled); [discriminate|].
    destruct (plan_apply_kerx compiled); [discriminate|].
    simpl in Hin'. intuition congruence.
Qed.

Lemma omap_v_origin_zip_with (indices : list nat) (codepoints : list rb_codepoint_t) :
  length codepoints = length indices ->
  omap v_origin_index (zip_with rb_face_subtract_glyph_v_origin indices codepoints) = indices.
Proof.
  revert codepoints. induction indices as [|i indices IH]; intros [|cp cps] Hlen;
    simpl in *; try reflexivity; try discriminate.
  now rewrite IH by congruence.
Qed.

(** X9. [rb_ot_position_default] first asks for the advances of all
    glyphs, horizontal or vertical by the buffer's direction. In a
    horizontal buffer it subtracts no vertical origin; otherwise it
    subtracts one per glyph, for the indices 0, 1, ..., count - 1 in this
    order. *)
Theorem position_default_v_origins (c : rb_ot_shape_context_t) (s : rb_shape_state_t) :
  let direction := rb_buffer_get_direction (st_buffer s) in
  let count := rb_buffer_get_length (st_buffer s) in
  exists new,
    st_calls (rb_ot_position_default c s) = st_calls s ++ new
    /\ head new = Some (if RB_DIRECTION_IS_HORIZONTAL direction
                        then rb_face_get_glyph_h_advances count
                        else rb_face_get_glyph_v_advances count)
    /\ omap v_origin_index new
       = (if RB_DIRECTION_IS_HORIZONTAL direction then [] else seq 0 count).
Proof.
  intros direction count.
  destruct (position_default_calls c s) as (codepoints & spaces & Hlen & Hspaces & Hcalls).
  fold direction count in Hlen, Hcalls.
  eexists. split; [exact Hcalls|].
  destruct (RB_DIRECTION_IS_HORIZONTAL direction).
  - split; [reflexivity|]. destruct Hspaces as [->| ->]; reflexivity.
  - split; [reflexivity|]. cbn [app omap v_origin_index list_omap].
    rewrite omap_app, omap_v_origin_zip_with by now rewrite length_seq.
    destruct Hspaces as [->| ->]; simpl; apply app_nil_r.
Qed.

End PositionTheorems.

Section MaskTheorems.
Context `{Collaborators}.

Lemma fraction_loop_calls fuel c pre_mask post_mask count i s :
  exists spans : list (nat * nat),
    Forall (fun span => (fst span < snd span <= count)%nat) spans
    /\ st_calls (fraction_loop fuel c pre_mask post_mask count i s)
       = st_calls s ++ (unsafe_to_break_span <$> spans).
Proof.
  revert i s. induction fuel as [|fuel IH]; intros i s; simpl.
  - exists []. split; [constructor|]. simpl. now rewrite app_nil_r.
  - destruct (Nat.ltb_spec i count) as [Hlt|Hge].
    + destruct (codepoint_at _ i =? 8260); [|apply IH].
      unfold fraction_at. cbv zeta.
      match goal with |- context [fraction_loop fuel c pre_mask post_mask count ?j ?s'] =>
        destruct (IH j s') as (spans & Hspans & ->)
      end.
      rewrite !calls_on_buffer, calls_extern.
      exists ((fraction_start (buffer_info (st_buffer s)) i,
               fraction_end (buffer_info (st_buffer s)) count (i + 1)) :: spans).
      split.
      * constructor; [|exact Hspans]. cbn [fst snd].
        pose proof (fraction_start_spec (buffer_info (st_buffer s)) i) as (Hs & _).
        pose proof (fraction_end_spec (buffer_info (st_buffer s)) count i Hlt) as (He & _).
        lia.
      * now rewrite <- app_assoc.
    + exists []. split; [constructor|]. simpl. now rewrite app_nil_r.
Qed.

(** X10. The calls of [rb_ot_shape_setup_masks], in order: the
    [rb_buffer_unsafe_to_break] calls of the fraction setup, each on a
    non-empty span inside the buffer; then the shaper's mask setup; then
    one [rb_buffer_set_masks] per user feature that is not global, in the
    order of the features, with the feature's value shifted into the
    feature's mask. A global feature makes no call. *)
Theorem setup_masks_call_sequence (c : rb_ot_shape_context_t) (s : rb_shape_state_t) :
  let count := rb_buffer_get_length (st_buffer s) in
  exists spans : list (nat * nat),
    Forall (fun span => (fst span < snd span <= count)%nat) spans
    /\ st_calls (rb_ot_shape_setup_masks c s)
       = st_calls s
         ++ (unsafe_to_break_span <$> spans)
         ++ [rb_ot_complex_shaper_setup_masks]
         ++ (user_feature_set_masks (plan_map (c_plan c))
               <$> List.filter (fun feature => negb (feature_is_global feature))
                     (c_user_features c)).
Proof.
  intros count. rewrite setup_masks_calls.
  assert (exists spans : list (nat * nat),
             Forall (fun span => (fst span < snd span <= count)%nat) spans
             /\ st_calls (rb_ot_shape_setup_masks_fraction c s)
                = st_calls s ++ (unsafe_to_break_span <$> spans))
    as (spans & Hspans & ->).
  { unfold rb_ot_shape_setup_masks_fraction.
    destruct (_ || _).
    - exists []. split; [constructor|]. simpl. now rewrite app_nil_r.
    - destruct (RB_DIRECTION_IS_FORWARD _); apply fraction_loop_calls. }
  exists spans. split; [exact Hspans|]. now rewrite <- app_assoc.
Qed.

Lemma fraction_loop_without_slash fuel c pre_mask post_mask count i s :
  Forall (fun g => info_codepoint g <> 0x2044) (buffer_info (st_buffer s)) ->
  fraction_loop fuel c pre_mask post_mask count i s = s.
Proof.
  intros Hall. revert i. induction fuel as [|fuel IH]; intros i; simpl; [reflexivity|].
  destruct (i <? count)%nat; [|reflexivity].
  destruct (Z.eqb_spec (codepoint_at (buffer_info (st_buffer s)) i) 8260) as [Heq|_];
    [|apply IH].
  exfalso. unfold codepoint_at in Heq.
  destruct (buffer_info (st_buffer s) !! i) as [g|] eqn:Hg; simpl in Heq; [|discriminate].
  rewrite Forall_lookup in Hall. exact (Hall i g Hg Heq).
Qed.

(** X11. On a buffer with no U+2044 FRACTION SLASH (the empty buffer
    too) [rb_ot_shape_setup_masks_fraction] changes nothing and calls
    nothing, whatever the plan and the scratch flags. *)
Theorem setup_masks_fraction_without_slash (c : rb_ot_shape_context_t)
  (s : rb_shape_state_t) :
  Forall (fun g => info_codepoint g <> 0x2044) (buffer_info (st_buffer s)) ->
  rb_ot_shape_setup_masks_fraction c s = s.
Proof.
  intros Hall. unfold rb_ot_shape_setup_masks_fraction.
  destruct (_ || _); [reflexivity|].
  destruct (RB_DIRECTION_IS_FORWARD _); apply fraction_loop_without_slash, Hall.
Qed.

Lemma masks_grow_refl info : masks_grow info info.
Proof.
  unfold masks_grow. apply Forall_Forall2_diag, Forall_forall. intros g _.
  repeat split. apply Z.land_diag.
Qed.

Lemma masks_grow_trans info1 info2 info3 :
  masks_grow info1 info2 -> masks_grow info2 info3 -> masks_grow info1 info3.
Proof.
  unfold masks_grow. intros H12 H23. revert info3 H23.
  induction H12 as [|g1 g2 l1 l2 (Hc & Hk & Hg & Hm) _ IH]; intros info3 H23;
    inversion H23 as [|? g3 ? l3 (Hc' & Hk' & Hg' & Hm') Hrest]; subst; constructor.
  - repeat split; try congruence.
    rewrite <- Hm, <- Z.land_assoc, Hm'. reflexivity.
  - apply IH, Hrest.
Qed.

Lemma masks_grow_lookup info info' :
  length info = length info' ->
  (forall i g, info !! i = Some g ->
     exists m, info' !! i = Some g \/ info' !! i = Some (info_mask_or m g)) ->
  masks_grow info info'.
Proof.
  intros Hlen Hstep. apply Forall2_same_length_lookup_2; [exact Hlen|].
  intros i g g' Hg Hg'. destruct (Hstep i g Hg) as (m & [E|E]); rewrite E in Hg';
    injection Hg' as <-.
  - repeat split. apply Z.land_diag.
  - repeat split. cbn. apply Z.bits_inj'. intros n Hn.
    rewrite Z.land_spec, Z.lor_spec. now destruct (Z.testbit (info_mask g) n).
Qed.

Lemma masks_grow_for_loop lo hi m b :
  masks_grow (buffer_info b)
    (buffer_info (for_loop lo hi (fun j => update_info j (info_mask_or m)) b)).
Proof.
  rewrite for_loop_update_info. destruct b as [info ? ? ? ? ?]. cbn.
  apply masks_grow_lookup; [now rewrite length_imap|].
  intros i g Hg. exists m. rewrite list_lookup_imap, Hg. simpl.
  case_bool_decide; auto.
Qed.

Lemma masks_grow_update i m b :
  masks_grow (buffer_info b) (buffer_info (update_info i (info_mask_or m) b)).
Proof.
  destruct b as [info ? ? ? ? ?]. cbn.
  apply masks_grow_lookup; [now rewrite length_alter|].
  intros k g Hg. exists m. rewrite list_lookup_alter.
  destruct (decide (i = k)) as [->|]; rewrite ?Hg; simpl; auto.
Qed.

Lemma fraction_loop_masks_grow fuel c pre_mask post_mask count i s :
  (forall a b buffer,
     masks_grow (buffer_info buffer)
       (buffer_info (rb_extern_run (c_plan c) (c_face c)
                       (rb_buffer_unsafe_to_break a b) buffer))) ->
  masks_grow (buffer_info (st_buffer s))
    (buffer_info (st_buffer (fraction_loop fuel c pre_mask post_mask count i s))).
Proof.
  intros Hbreak. revert i s. induction fuel as [|fuel IH]; intros i s; simpl;
    [apply masks_grow_refl|].
  destruct (i <? count)%nat; [|apply masks_grow_refl].
  destruct (codepoint_at _ i =? 8260); [|apply IH].
  unfold fraction_at. cbv zeta.
  eapply masks_grow_trans; [|apply IH].
  unfold on_buffer, extern, extern_call. cbn [st_buffer].
  eapply masks_grow_trans; [apply Hbreak|].
  eapply masks_grow_trans; [apply masks_grow_for_loop|].
  eapply masks_grow_trans; [apply masks_grow_update|].
  apply masks_grow_for_loop.
Qed.

(** X12. Provided [rb_buffer_unsafe_to_break] only adds bits to masks,
    so does [rb_ot_shape_setup_masks_fraction]: it keeps the number of
    glyphs, their codepoints, clusters and categories, and every bit set
    in a mask before is set after. *)
Theorem setup_masks_fraction_masks_grow (c : rb_ot_shape_context_t)
  (s : rb_shape_state_t) :
  (forall a b buffer,
     masks_grow (buffer_info buffer)
       (buffer_info (rb_extern_run (c_plan c) (c_face c)
                       (rb_buffer_unsafe_to_break a b) buffer))) ->
  masks_grow (buffer_info (st_buffer s))
    (buffer_info (st_buffer (rb_ot_shape_setup_masks_fraction c s))).
Proof.
  intros Hbreak. unfold rb_ot_shape_setup_masks_fraction.
  destruct (_ || _); [apply masks_grow_refl|].
  destruct (RB_DIRECTION_IS_FORWARD _); apply fraction_loop_masks_grow, Hbreak.
Qed.

End MaskTheorems.

(** ** Examples for the runs *)

Section RunExamples.
#[local] Existing Instance example_types.
#[local] Existing Instance example_collaborators.

(** The OpenType face, left to right: GPOS is elected, the face has the
    table, and neither morx nor kerx goes with it. *)
Lemma init0_backends_have_tables_witness :
  let plan := example_plan example_ot_face example_ltr_props in
  (plan_apply_gpos example_zeroed_plan = false
   /\ plan_apply_kerx example_zeroed_plan = false
   /\ plan_apply_kern example_zeroed_plan = false)
  /\ plan_apply_gpos plan = true
  /\ rb_ot_layout_has_positioning example_ot_face = true
  /\ plan_apply_morx plan = false
  /\ plan_apply_kerx plan = false.
Proof.
  intros plan. subst plan. unfold example_plan.
  split; [repeat split; reflexivity|].
  pose proof (init0_backends_have_tables example_zeroed_plan example_ot_face
                example_ltr_props [] [] eq_refl eq_refl eq_refl) as Htables.
  cbv zeta in Htables. destruct Htables as (_ & _ & Htables & _).
  match type of Htables with ?gpos = true -> _ =>
    assert (Hgpos : gpos = true) by (vm_compute; reflexivity)
  end.
  split; [exact Hgpos|].
  exact (Htables Hgpos).
Defined.

(** The AAT face, left to right: the run goes through morx and kerx. *)
Lemma init0_then_shape_aat_routines_witness :
  let plan := example_plan example_aat_face example_ltr_props in
  let calls :=
    st_calls (rb_ot_shape plan example_aat_face
                (example_buffer RB_DIRECTION_LTR example_fraction_text) []) in
  (plan_apply_gpos example_zeroed_plan = false
   /\ plan_apply_kerx example_zeroed_plan = false
   /\ plan_apply_kern example_zeroed_plan = false)
  /\ List.filter is_morx_routine calls
     = [rb_aat_layout_substitute; rb_aat_layout_zero_width_deleted_glyphs;
        rb_aat_layout_remove_deleted_glyphs]
  /\ List.filter is_kerx_routine calls = [rb_aat_layout_position].
Proof.
  intros plan calls.
  split; [repeat split; reflexivity|].
  destruct (init0_then_shape_aat_routines example_zeroed_plan example_aat_face
              example_ltr_props [] [] example_aat_face
              (example_buffer RB_DIRECTION_LTR example_fraction_text) []
              eq_refl eq_refl eq_refl) as (Hmorx & Hkerx & _).
  split; [exact Hmorx|exact Hkerx].
Defined.

(** The face with nothing but a [kern] table, "(a" bottom to top, with
    one ranged and one global user feature: the whole run. *)
Example shape_calls_of_the_kern_face :
  st_calls (rb_ot_shape (example_plan example_kern_face example_ttb_props) example_kern_face
              (example_buffer RB_DIRECTION_BTT example_bracket_text)
              [ mk_feature (RB_TAG "l" "i" "g" "a") 1 0 1;
                mk_feature (RB_TAG "k" "e" "r" "n") 0 0 4294967295 ])
  = [ rb_buffer_clear_output; rb_buffer_reset_masks 1; rb_set_unicode_props;
      rb_insert_dotted_circle; rb_form_clusters; rb_ensure_native_direction;
      rb_ot_complex_shaper_preprocess_text;
      rb_ot_shape_normalize; rb_ot_complex_shaper_setup_masks;
      rb_buffer_set_masks 1 0 0 1;
      rb_ot_shape_fallback_mark_position_recategorize_marks;
      rb_ot_map_glyphs_fast; rb_ot_layout_substitute_start;
      rb_synthesize_glyph_classes; rb_ot_layout_substitute;
      rb_buffer_clear_positions; rb_face_get_glyph_v_advances 2;
      rb_face_subtract_glyph_v_origin 0 97; rb_face_subtract_glyph_v_origin 1 41;
      rb_ot_layout_position_start; rb_zero_mark_widths_by_gdef true; rb_ot_layout_kern;
      rb_ot_layout_position_finish_advances; rb_ot_zero_width_default_ignorables;
      rb_ot_layout_position_finish_offsets; rb_ot_shape_fallback_mark_position true;
      rb_ot_hide_default_ignorables; rb_ot_complex_shaper_postprocess_glyphs;
      rb_propagate_flags ].
Proof. vm_compute. reflexivity. Qed.

(** "(a": no fraction slash. *)
Lemma setup_masks_fraction_without_slash_witness :
  let c := example_context example_ot_face example_ltr_props in
  let s := example_state RB_DIRECTION_LTR example_bracket_text in
  Forall (fun g => info_codepoint g <> 0x2044) (buffer_info (st_buffer s))
  /\ rb_ot_shape_setup_masks_fraction c s = s.
Proof.
  intros c s.
  assert (Hall : Forall (fun g => info_codepoint g <> 0x2044) (buffer_info (st_buffer s)))
    by (repeat constructor; discriminate).
  split; [exact Hall|].
  exact (setup_masks_fraction_without_slash c s Hall).
Defined.

(** "1/2": the example's [rb_buffer_unsafe_to_break] leaves the buffer
    alone, and the fraction setup only adds bits. *)
Lemma setup_masks_fraction_masks_grow_witness :
  let c := example_context example_ot_face example_ltr_props in
  let s := example_state RB_DIRECTION_LTR example_fraction_text in
  (forall a b buffer,
     masks_grow (buffer_info buffer)
       (buffer_info (rb_extern_run (c_plan c) (c_face c)
                       (rb_buffer_unsafe_to_break a b) buffer)))
  /\ masks_grow example_fraction_text
       (buffer_info (st_buffer (rb_ot_shape_setup_masks_fraction c s))).
Proof.
  intros c s.
  assert (Hbreak : forall a b buffer,
             masks_grow (buffer_info buffer)
               (buffer_info (rb_extern_run (c_plan c) (c_face c)
                               (rb_buffer_unsafe_to_break a b) buffer)))
    by (intros a b buffer; apply masks_grow_refl).
  split; [exact Hbreak|].
  exact (setup_masks_fraction_masks_grow c s Hbreak).
Defined.

End RunExamples.
